(** * The retrieval-augmented generation pipeline of the legal assistant

    A shallow embedding of the Python sources
    ([models.py], [vector_store.py], [document_processor.py],
    [legal_agents.py], [legal_ai_system.py]) together with the properties
    the specification states about them.

    Conventions of the embedding.
    - A Python [str] is a [string]; characters are 8-bit, and the case
      mapping and the whitespace class are those of the ASCII range.
    - A Python [float] that is computed (a distance, a similarity) is a
      rational of [Q]; a float that is read from text with [float(...)]
      is a [pyfloat], which adds the two infinities and not-a-number.
    - A call that may raise returns a [result]; a [try ... except Exception]
      is a [match] on it.
    - Mutable objects shared with the caller live in a heap ([gmap]) and are
      passed by location. *)

From Stdlib Require Import QArith ZArith String Ascii List Lia Bool.
From stdpp Require Import gmap strings list pretty.
Import ListNotations.
Open Scope string_scope.

(** ** Exceptions *)

Inductive exn : Type :=
| IndexError
| KeyError
| ValueError
| ValidationError
| ServiceError (msg : string).

Inductive result (A : Type) : Type :=
| Ok (a : A)
| Raise (e : exn).
Arguments Ok {A} a.
Arguments Raise {A} e.

Definition rbind {A B} (m : result A) (k : A -> result B) : result B :=
  match m with
  | Ok a => k a
  | Raise e => Raise e
  end.

Notation "'let*' x ':=' m 'in' k" := (rbind m (fun x => k))
  (at level 10, x name, m at level 200, k at level 200).

(** [try: m except: d] is [try: return m  except Exception: return d]. *)
Definition try_except {A} (m : result A) (d : A) : A :=
  match m with
  | Ok a => a
  | Raise _ => d
  end.

(** [l[i]] on a Python list. *)
Definition py_index {A} (l : list A) (i : nat) : result A :=
  match nth_error l i with
  | Some a => Ok a
  | None => Raise IndexError
  end.

Fixpoint mapM {A B} (f : A -> result B) (l : list A) : result (list B) :=
  match l with
  | [] => Ok []
  | a :: l' => let* b := f a in let* bs := mapM f l' in Ok (b :: bs)
  end.

(** ** Python string operations *)

Module PyStr.

Definition nl : string := String (ascii_of_nat 10) "".

(** [c.isspace()] for a character of the ASCII range. *)
Definition is_space (c : ascii) : bool :=
  let n := nat_of_ascii c in
  ((9 <=? n)%nat && (n <=? 13)%nat) || ((28 <=? n)%nat && (n <=? 32)%nat).

Definition lower_char (c : ascii) : ascii :=
  let n := nat_of_ascii c in
  if ((65 <=? n)%nat && (n <=? 90)%nat) then ascii_of_nat (n + 32) else c.

(** [s.lower()] *)
Fixpoint lower (s : string) : string :=
  match s with
  | "" => ""
  | String c s' => String (lower_char c) (lower s')
  end.

Fixpoint lstrip (s : string) : string :=
  match s with
  | "" => ""
  | String c s' => if is_space c then lstrip s' else s
  end.

Fixpoint rstrip (s : string) : string :=
  match s with
  | "" => ""
  | String c s' =>
      match rstrip s' with
      | "" => if is_space c then "" else String c ""
      | r => String c r
      end
  end.

(** [s.strip()] *)
Definition strip (s : string) : string := rstrip (lstrip s).

(** [s[:n]] *)
Fixpoint take (n : nat) (s : string) : string :=
  match n, s with
  | S n', String c s' => String c (take n' s')
  | _, _ => ""
  end.

(** [s[n:]] *)
Fixpoint drop (n : nat) (s : string) : string :=
  match n, s with
  | S n', String _ s' => drop n' s'
  | _, _ => s
  end.

(** [sub in s] *)
Fixpoint contains (sub s : string) : bool :=
  String.prefix sub s ||
  match s with
  | "" => false
  | String _ s' => contains sub s'
  end.

(** [s.split(sep)] for a non-empty [sep] (Python raises [ValueError] on
    the empty separator; every call site passes a literal).  The scan
    goes left to right; [skip] counts the characters of a separator
    that has just been matched and are still to be passed over. *)
Fixpoint split_go (sep s : string) (skip : nat) : list string :=
  match s with
  | "" => [""]
  | String c s' =>
      match skip with
      | S k => split_go sep s' k
      | O =>
          if String.prefix sep s
          then "" :: split_go sep s' (String.length sep - 1)
          else match split_go sep s' 0 with
               | p :: ps => String c p :: ps
               | [] => [String c ""]
               end
      end
  end.

Definition split (sep s : string) : list string := split_go sep s 0.

(** [p not in s] for a character [p]. *)
Fixpoint char_free (p : ascii) (s : string) : bool :=
  match s with
  | "" => true
  | String c s' => negb (Ascii.eqb c p) && char_free p s'
  end.

(** [s.partition(sep)], with [None] when [sep] does not occur: the text
    before the first occurrence and the text after it. *)
Fixpoint partition (sep s : string) : option (string * string) :=
  if String.prefix sep s then Some ("", drop (String.length sep) s)
  else match s with
       | "" => None
       | String c s' =>
           match partition sep s' with
           | Some (before, after) => Some (String c before, after)
           | None => None
           end
       end.

(** [sep.join(l)] *)
Fixpoint join (sep : string) (l : list string) : string :=
  match l with
  | [] => ""
  | [x] => x
  | x :: l' => x ++ sep ++ join sep l'
  end.

(** [[p.strip() for p in s.strip().split(",") if p.strip()]] *)
Definition comma_items (s : string) : list string :=
  List.filter (fun p => negb (String.eqb p ""))
    (List.map strip (split "," (strip s))).

End PyStr.

(** ** Marker-delimited fields, as the specification words them *)

Module MarkerSpec.

(** The text that follows the first occurrence of [marker]. *)
Definition text_after (marker text : string) : option string :=
  option_map snd (PyStr.partition marker text).

(** The text up to the next occurrence of one of [stops], or to the end. *)
Fixpoint up_to (stops : list string) (s : string) : string :=
  match s with
  | "" => ""
  | String c s' =>
      if existsb (fun m => String.prefix m s) stops then ""
      else String c (up_to stops s')
  end.

(** A field of a reply: the comma-separated text that follows [marker] up
    to the next of [stops] or the end of the reply; the empty list when the
    marker is missing. *)
Definition field (stops : list string) (marker text : string) : list string :=
  match text_after marker text with
  | Some rest => PyStr.comma_items (up_to stops rest)
  | None => []
  end.

End MarkerSpec.

(** ** models.py *)

Inductive DocumentType : Type :=
| LEGAL_LETTER
| CONTRACT
| NOTICE
| COMPLAINT
| RESPONSE.

Definition DocumentType_value (t : DocumentType) : string :=
  match t with
  | LEGAL_LETTER => "legal_letter"
  | CONTRACT => "contract"
  | NOTICE => "notice"
  | COMPLAINT => "complaint"
  | RESPONSE => "response"
  end.

(** A value held in a metadata dictionary ([Dict[str, Any]]): the scalar
    kinds the index stores, and the string lists the processor puts there. *)
Inductive mval : Type :=
| MStr (s : string)
| MInt (z : Z)
| MFloat (q : Q)
| MBool (b : bool)
| MList (l : list string).

Abbreviation metadata := (gmap string mval).

(** What the language runtime supplies: [float(s)] (with [None] for
    [ValueError]; finite values only, the spellings of infinity and
    not-a-number are outside the model), the [:.2f] format, [str(v)] of a
    value that is not a string, [datetime.now()] and [uuid.uuid4()]. *)
Class Runtime : Type := {
  py_float : string -> option Q;
  format_2f : Q -> string;
  py_repr : mval -> string;
  now : Z;
  uuid4 : nat -> string
}.

(** [str(v)] as an f-string renders a metadata value. *)
Definition mval_str `{Runtime} (v : mval) : string :=
  match v with
  | MStr s => s
  | _ => py_repr v
  end.

(** Field validation for [str] *)
Definition as_str (v : mval) : result string :=
  match v with
  | MStr s => Ok s
  | _ => Raise ValidationError
  end.

(** Field validation for [List[str]] *)
Definition as_str_list (v : mval) : result (list string) :=
  match v with
  | MList l => Ok l
  | _ => Raise ValidationError
  end.

(** Field validation for [DocumentType]: the value of one of the members. *)
Definition as_DocumentType (v : mval) : result DocumentType :=
  match v with
  | MStr s =>
      if String.eqb s "legal_letter" then Ok LEGAL_LETTER
      else if String.eqb s "contract" then Ok CONTRACT
      else if String.eqb s "notice" then Ok NOTICE
      else if String.eqb s "complaint" then Ok COMPLAINT
      else if String.eqb s "response" then Ok RESPONSE
      else Raise ValidationError
  | _ => Raise ValidationError
  end.

(** [d.get(k, default)] *)
Definition dict_get (d : metadata) (k : string) (default : mval) : mval :=
  match d !! k with
  | Some v => v
  | None => default
  end.

(** [d[k]] *)
Definition dict_item (d : metadata) (k : string) : result mval :=
  match d !! k with
  | Some v => Ok v
  | None => Raise KeyError
  end.

Module LegalDocument.
Record t : Type := {
  id : string;
  filename : string;
  content : string;
  document_type : DocumentType;
  metadata : gmap string mval;
  created_at : Z;
  parties_involved : list string;
  key_issues : list string
}.
End LegalDocument.

Module LegalResponse.
Record t : Type := {
  document_id : string;
  response_type : string;
  suggested_response : string;
  confidence_score : Q;
  reasoning : string;
  key_points : list string;
  tone : string;
  created_at : Z
}.

(** The constructor with its field constraint
    [confidence_score: float = Field(ge=0.0, le=1.0)]. *)
Definition new `{Runtime} (document_id response_type suggested_response : string)
    (confidence_score : Q) (reasoning : string) (key_points : list string)
    (tone : string) : result t :=
  if Qle_bool 0 confidence_score && Qle_bool confidence_score 1
  then Ok {| document_id := document_id;
             response_type := response_type;
             suggested_response := suggested_response;
             confidence_score := confidence_score;
             reasoning := reasoning;
             key_points := key_points;
             tone := tone;
             created_at := now |}
  else Raise ValidationError.
End LegalResponse.

Module DocumentChunk.
Record t : Type := {
  id : string;
  document_id : string;
  content : string;
  chunk_index : Z;
  metadata : gmap string mval;
  embedding : option (list Q)
}.

(** [chunk.embedding = v] *)
Definition set_embedding (chunk : t) (v : list Q) : t :=
  {| id := id chunk;
     document_id := document_id chunk;
     content := content chunk;
     chunk_index := chunk_index chunk;
     metadata := metadata chunk;
     embedding := Some v |}.
End DocumentChunk.

Module SearchResult.
Record t : Type := {
  chunk_id : string;
  document_id : string;
  content : string;
  similarity_score : Q;
  metadata : gmap string mval
}.
End SearchResult.

(** ** vector_store.py *)

(** The batch handed to [collection.add]: four parallel lists. *)
Record Batch : Type := {
  b_ids : list string;
  b_embeddings : list (list Q);
  b_documents : list string;
  b_metadatas : list metadata
}.

(** The dictionary [collection.query] returns: one inner list per query
    embedding. *)
Record QueryResult : Type := {
  q_ids : list (list string);
  q_documents : list (list string);
  q_metadatas : list (list metadata);
  q_distances : list (list Q)
}.

(** The dictionary [collection.get] returns. *)
Record GetResult : Type := {
  g_ids : list string;
  g_documents : list string;
  g_metadatas : list metadata
}.

(** The persistent collection is a service outside the program; the code
    only sees this interface.  A mutating call returns its outcome and the
    collection it leaves behind; [where] is always
    [{"document_id": document_id}] and is passed as the identifier. *)
Class Collection (C : Type) : Type := {
  coll_add : C -> Batch -> result unit * C;
  coll_query : C -> list (list Q) -> Z -> result QueryResult;
  coll_get : C -> string -> result GetResult;
  coll_delete : C -> string -> result unit * C
}.

(** The sentence-embedding model, [embedding_model.encode(text).tolist()]. *)
Class Embedder : Type := {
  encode : string -> result (list Q)
}.

(** Chunk objects are shared with the caller: a heap of them, and lists of
    locations. *)
Abbreviation loc := positive.
Abbreviation heap := (gmap positive DocumentChunk.t).

Module ChromaVectorStore.
Section with_services.
Context `{Runtime} `{Embedder} {C : Type} `{Collection C}.

Definition _generate_embedding (text : string) : result (list Q) :=
  encode text.

Definition chunk_metadata (chunk : DocumentChunk.t) : metadata :=
  DocumentChunk.metadata chunk ∪
  (<["document_id" := MStr (DocumentChunk.document_id chunk)]>
   (<["chunk_index" := MInt (DocumentChunk.chunk_index chunk)]>
    (<["filename" := dict_get (DocumentChunk.metadata chunk) "filename" (MStr "")]>
     (<["document_type" := dict_get (DocumentChunk.metadata chunk) "document_type" (MStr "")]>
      ∅)))).

Definition batch_append (b : Batch) (chunk : DocumentChunk.t) (v : list Q) : Batch :=
  {| b_ids := b_ids b ++ [DocumentChunk.id chunk];
     b_embeddings := b_embeddings b ++ [v];
     b_documents := b_documents b ++ [DocumentChunk.content chunk];
     b_metadatas := b_metadatas b ++ [chunk_metadata chunk] |}.

(** The [for chunk in chunks] loop of [add_chunks].  An embedding that is
    written stays written when a later iteration raises. *)
Fixpoint add_chunks_loop (h : heap) (chunks : list loc) (b : Batch)
  : result Batch * heap :=
  match chunks with
  | [] => (Ok b, h)
  | l :: rest =>
      match h !! l with
      | None => (Raise KeyError, h)
      | Some chunk =>
          match DocumentChunk.embedding chunk with
          | Some v => add_chunks_loop h rest (batch_append b chunk v)
          | None =>
              match _generate_embedding (DocumentChunk.content chunk) with
              | Raise e => (Raise e, h)
              | Ok v =>
                  let chunk' := DocumentChunk.set_embedding chunk v in
                  add_chunks_loop (<[l := chunk']> h) rest (batch_append b chunk' v)
              end
          end
      end
  end.

Definition empty_batch : Batch :=
  {| b_ids := []; b_embeddings := []; b_documents := []; b_metadatas := [] |}.

Definition add_chunks (h : heap) (c : C) (chunks : list loc) : bool * heap * C :=
  match add_chunks_loop h chunks empty_batch with
  | (Raise _, h') => (false, h', c)
  | (Ok b, h') =>
      match coll_add c b with
      | (Ok _, c') => (true, h', c')
      | (Raise _, c') => (false, h', c')
      end
  end.

(** The body of the [for i in range(len(results['ids'][0]))] loop. *)
Definition search_row (r : QueryResult) (i : nat) : result SearchResult.t :=
  let* ids0 := py_index (q_ids r) 0 in
  let* cid := py_index ids0 i in
  let* mds0 := py_index (q_metadatas r) 0 in
  let* md := py_index mds0 i in
  let* did := dict_item md "document_id" in
  let* docs0 := py_index (q_documents r) 0 in
  let* doc := py_index docs0 i in
  let* ds0 := py_index (q_distances r) 0 in
  let* d := py_index ds0 i in
  let* did_s := as_str did in
  Ok {| SearchResult.chunk_id := cid;
        SearchResult.document_id := did_s;
        SearchResult.content := doc;
        SearchResult.similarity_score := 1 - d;
        SearchResult.metadata := md |}.

Definition search_similar_body (c : C) (query : string) (n_results : Z)
  : result (list SearchResult.t) :=
  let* query_embedding := _generate_embedding query in
  let* results := coll_query c [query_embedding] n_results in
  let* ids0 := py_index (q_ids results) 0 in
  mapM (search_row results) (seq 0 (length ids0)).

Definition search_similar (c : C) (query : string) (n_results : Z)
  : list SearchResult.t :=
  try_except (search_similar_body c query n_results) [].

Definition get_row (r : GetResult) (i : nat) : result SearchResult.t :=
  let* cid := py_index (g_ids r) i in
  let* md := py_index (g_metadatas r) i in
  let* did := dict_item md "document_id" in
  let* doc := py_index (g_documents r) i in
  let* did_s := as_str did in
  Ok {| SearchResult.chunk_id := cid;
        SearchResult.document_id := did_s;
        SearchResult.content := doc;
        SearchResult.similarity_score := 1;
        SearchResult.metadata := md |}.

Definition get_document_chunks_body (c : C) (document_id : string)
  : result (list SearchResult.t) :=
  let* results := coll_get c document_id in
  mapM (get_row results) (seq 0 (length (g_ids results))).

Definition get_document_chunks (c : C) (document_id : string)
  : list SearchResult.t :=
  try_except (get_document_chunks_body c document_id) [].

Definition delete_document (c : C) (document_id : string) : bool * C :=
  match coll_delete c document_id with
  | (Ok _, c') => (true, c')
  | (Raise _, c') => (false, c')
  end.

End with_services.
End ChromaVectorStore.

(** ** The language-model service *)

(** [config.py]: the settings the components read. *)
Record Settings : Type := {
  model_name : string;
  temperature : Q;
  max_tokens : Z
}.

Definition default_settings : Settings :=
  {| model_name := "gpt-4"; temperature := 1 # 10; max_tokens := 2000 |}.

(** A [ChatOpenAI] client; [llm_max_tokens] is [None] where the
    constructor is not given one. *)
Record ChatOpenAI : Type := {
  llm_model : string;
  llm_temperature : Q;
  llm_max_tokens : option Z
}.

(** A formatted chat message: role and text. *)
Abbreviation message := (string * string)%type.

(** [llm.invoke(messages).content]; the call may raise. *)
Class LanguageModel : Type := {
  llm_invoke : ChatOpenAI -> list message -> result string
}.

(** ** The text splitter *)

Module RecursiveCharacterTextSplitter.

(** Modelled from the spec: the text splitter class
    ([RecursiveCharacterTextSplitter], imported from the text-splitting
    library) is not among the sources; [document_processor.py] only
    configures it.  The model follows section 4.1 of the specification (a
    priority list of separators, falling back to the next separator and at
    last to single characters; adjacent fragments share up to [overlap]
    characters; whitespace-only input yields no fragment) in the way the
    library class carries it out: separators are kept at the start of the
    piece that follows them, and every fragment is stripped of surrounding
    whitespace. *)
Record config : Type := {
  chunk_size : Z;
  chunk_overlap : Z;
  separators : list string
}.

Definition len (s : string) : Z := Z.of_nat (String.length s).

(** The pieces of [text] around [separator], each piece after the first
    carrying the separator in front; empty pieces are dropped.  The empty
    separator cuts between all characters. *)
Fixpoint chars (s : string) : list string :=
  match s with
  | "" => []
  | String c s' => String c "" :: chars s'
  end.

Definition split_keeping (separator text : string) : list string :=
  let splits :=
    if String.eqb separator "" then chars text
    else match PyStr.split separator text with
         | [] => []
         | p0 :: ps => p0 :: List.map (fun p => separator ++ p) ps
         end in
  List.filter (fun s => negb (String.eqb s "")) splits.

(** A fragment is the joined pieces, stripped; nothing if that is empty. *)
Definition join_docs (docs : list string) (separator : string) : option string :=
  let text := PyStr.strip (PyStr.join separator docs) in
  if String.eqb text "" then None else Some text.

Definition sep_if (b : bool) (separator_len : Z) : Z :=
  if b then separator_len else 0.

Section merging.
Variable cfg : config.
Variable separator : string.

Definition separator_len : Z := len separator.

(** The inner [while] of the merge: pieces leave the front of the current
    window until what stays is within the overlap and the next piece fits.
    [total] is the summed length of [current_doc], so the condition is
    false once the window is empty. *)
Fixpoint pop_front (current_doc : list string) (total _len : Z) : list string * Z :=
  match current_doc with
  | [] => ([], total)
  | d0 :: rest =>
      if (chunk_overlap cfg <? total)%Z
         || ((chunk_size cfg <? total + _len + sep_if (0 <? length current_doc)%nat separator_len)%Z
             && (0 <? total)%Z)
      then pop_front rest
             (total - (len d0 + sep_if (1 <? length current_doc)%nat separator_len)) _len
      else (current_doc, total)
  end.

(** One round of the merge loop, for the piece [d]. *)
Definition merge_step (st : list string * list string * Z) (d : string)
  : list string * list string * Z :=
  let '(docs, current_doc, total) := st in
  let _len := len d in
  let '(docs1, current_doc1, total1) :=
    if (chunk_size cfg <? total + _len + sep_if (0 <? length current_doc)%nat separator_len)%Z
    then
      match current_doc with
      | [] => (docs, current_doc, total)
      | _ :: _ =>
          let docs' := match join_docs current_doc separator with
                       | Some doc => (docs ++ [doc])%list
                       | None => docs
                       end in
          let '(cd, t) := pop_front current_doc total _len in
          (docs', cd, t)
      end
    else (docs, current_doc, total) in
  let current_doc2 := (current_doc1 ++ [d])%list in
  (docs1, current_doc2, (total1 + _len + sep_if (1 <? length current_doc2)%nat separator_len)%Z).

(** Modelled from the spec: the merge of short pieces into fragments of at
    most the target size, adjacent fragments sharing up to the overlap;
    absent from the sources with the splitter class. *)
Definition merge_splits (splits : list string) : list string :=
  let '(docs, current_doc, _) := fold_left merge_step splits ([], [], 0%Z) in
  match join_docs current_doc separator with
  | Some doc => (docs ++ [doc])%list
  | None => docs
  end.

End merging.

(** The loop over the pieces: short pieces gather in [good] and are merged;
    a piece that is too long is cut again with the separators that remain
    ([recurse]), or kept whole when none remain.  Separators are kept in
    the pieces, so the merge joins with the empty string. *)
Fixpoint split_loop (cfg : config) (recurse : option (string -> list string))
    (splits good final : list string) : list string :=
  let flush (good final : list string) :=
    match good with
    | [] => final
    | _ :: _ => (final ++ merge_splits cfg "" good)%list
    end in
  match splits with
  | [] => flush good final
  | s :: rest =>
      if (len s <? chunk_size cfg)%Z
      then split_loop cfg recurse rest (good ++ [s])%list final
      else
        let final1 := flush good final in
        let final2 := match recurse with
                      | None => (final1 ++ [s])%list
                      | Some f => (final1 ++ f s)%list
                      end in
        split_loop cfg recurse rest [] final2
  end.

(** Modelled from the spec: the recursive descent through the priority
    list of separators, absent from the sources with the splitter class.
    The first separator of the list that is empty or occurs in [text] is used, and the ones after it remain for
    the pieces that are too long; when none occurs, the last one is used and
    none remains. *)
Fixpoint _split_text (cfg : config) (seps : list string) (text : string) : list string :=
  match seps with
  | [] => split_loop cfg None (split_keeping "" text) [] []
  | s :: rest =>
      if String.eqb s ""
      then split_loop cfg None (split_keeping "" text) [] []
      else if PyStr.contains s text
      then split_loop cfg
             (match rest with [] => None | _ :: _ => Some (_split_text cfg rest) end)
             (split_keeping s text) [] []
      else match rest with
           | [] => split_loop cfg None (split_keeping s text) [] []
           | _ :: _ => _split_text cfg rest text
           end
  end.

(** Modelled from the spec: [chunk(text, target_size, overlap)] of section
    4.1, the [split_text] of the splitter class that the sources call and
    do not contain. *)
Definition split_text (cfg : config) (text : string) : list string :=
  _split_text cfg (separators cfg) text.

End RecursiveCharacterTextSplitter.

(** ** document_processor.py *)

Module DocumentProcessor.
Section with_services.
Context `{Runtime} `{LanguageModel}.
Variable settings : Settings.

Definition llm : ChatOpenAI :=
  {| llm_model := model_name settings;
     llm_temperature := temperature settings;
     llm_max_tokens := Some (max_tokens settings) |}.

Definition text_splitter : RecursiveCharacterTextSplitter.config :=
  {| RecursiveCharacterTextSplitter.chunk_size := 1000;
     RecursiveCharacterTextSplitter.chunk_overlap := 200;
     RecursiveCharacterTextSplitter.separators :=
       [PyStr.nl ++ PyStr.nl; PyStr.nl; ". "; " "; ""] |}.

Definition classification_prompt (content : string) : list message :=
  [("system", "You are a legal document classifier. Analyze the content and classify it into one of these categories:
                - legal_letter: General legal correspondence
                - contract: Legal agreements, contracts, terms
                - notice: Legal notices, warnings, formal announcements
                - complaint: Legal complaints, grievances
                - response: Legal responses, replies, counter-arguments
                
                Respond with only the category name.");
   ("human", "Classify this legal document:" ++ PyStr.nl ++ PyStr.nl ++ content)].

Definition type_mapping : gmap string DocumentType :=
  <["legal_letter" := LEGAL_LETTER]>
  (<["contract" := CONTRACT]>
   (<["notice" := NOTICE]>
    (<["complaint" := COMPLAINT]>
     (<["response" := RESPONSE]> ∅)))).

Definition classify_document_type (content : string) : DocumentType :=
  try_except
    (let* response := llm_invoke llm (classification_prompt (PyStr.take 2000 content)) in
     let doc_type_str := PyStr.lower (PyStr.strip response) in
     Ok (match type_mapping !! doc_type_str with
         | Some t => t
         | None => LEGAL_LETTER
         end))
    LEGAL_LETTER.

Definition extraction_prompt (content : string) : list message :=
  [("system", "You are a legal document analyzer. Extract:
                1. Parties involved (names of people, companies, organizations)
                2. Key legal issues mentioned
                
                Format your response as:
                PARTIES: [comma-separated list]
                ISSUES: [comma-separated list]");
   ("human", "Analyze this legal document:" ++ PyStr.nl ++ PyStr.nl ++ content)].

(** The parsing of the reply, [response_text]. *)
Definition parse_parties_and_issues (response_text : string)
  : result (list string * list string) :=
  let* parties :=
    if PyStr.contains "PARTIES:" response_text
    then
      let* after := py_index (PyStr.split "PARTIES:" response_text) 1 in
      let* parties_section := py_index (PyStr.split "ISSUES:" after) 0 in
      Ok (PyStr.comma_items parties_section)
    else Ok [] in
  let* issues :=
    if PyStr.contains "ISSUES:" response_text
    then
      let* issues_section := py_index (PyStr.split "ISSUES:" response_text) 1 in
      Ok (PyStr.comma_items issues_section)
    else Ok [] in
  Ok (parties, issues).

Definition extract_parties_and_issues (content : string) : list string * list string :=
  try_except
    (let* response_text := llm_invoke llm (extraction_prompt (PyStr.take 2000 content)) in
     parse_parties_and_issues response_text)
    ([], []).

(** [create_chunks]; [drawn] counts the identifiers drawn so far.  No step
    of the body raises here, so the [except] branch is never taken. *)
Definition create_chunks (drawn : nat) (content document_id : string)
    (metadata : gmap string mval) : list DocumentChunk.t :=
  let text_chunks := RecursiveCharacterTextSplitter.split_text text_splitter content in
  List.map
    (fun '(i, chunk_text) =>
       {| DocumentChunk.id := uuid4 (drawn + i);
          DocumentChunk.document_id := document_id;
          DocumentChunk.content := chunk_text;
          DocumentChunk.chunk_index := Z.of_nat i;
          DocumentChunk.metadata := metadata;
          DocumentChunk.embedding := None |})
    (List.combine (seq 0 (length text_chunks)) text_chunks).

End with_services.
End DocumentProcessor.

(** ** legal_agents.py *)

Module LegalAnalysisTool.
Section with_services.
Context `{LanguageModel}.
Variable settings : Settings.

Definition analysis_prompt (document_content : string) : list message :=
  [("system", "You are a legal analyst. Analyze the provided legal document and extract:
            1. Key legal issues and arguments
            2. Parties involved and their positions
            3. Relevant legal precedents or citations
            4. Potential legal risks or concerns
            5. Recommended response strategy
            
            Provide a structured analysis.");
   ("human", "Analyze this legal document:" ++ PyStr.nl ++ PyStr.nl ++ document_content)].

Definition _run (document_content : string) : result string :=
  let llm := {| llm_model := model_name settings;
                llm_temperature := 1 # 10;
                llm_max_tokens := None |} in
  llm_invoke llm (analysis_prompt (PyStr.take 3000 document_content)).

End with_services.
End LegalAnalysisTool.

Module PrecedentSearchTool.
Section with_services.
Context `{Runtime} `{Embedder} {C : Type} `{Collection C}.

Definition render (i : nat) (result : SearchResult.t) : string :=
  pretty i ++ ". Document: "
    ++ mval_str (dict_get (SearchResult.metadata result) "filename" (MStr "Unknown"))
    ++ PyStr.nl
  ++ "   Relevance: " ++ format_2f (SearchResult.similarity_score result) ++ PyStr.nl
  ++ "   Content: " ++ PyStr.take 200 (SearchResult.content result) ++ "..."
    ++ PyStr.nl ++ PyStr.nl.

Definition _run (vector_store : C) (query : string) : string :=
  let results := ChromaVectorStore.search_similar vector_store query 3 in
  match results with
  | [] => "No similar precedents found in the knowledge base."
  | _ :: _ =>
      fold_left
        (fun precedent_text '(i, result) => precedent_text ++ render i result)
        (List.combine (seq 1 (length results)) results)
        ("Similar precedents found:" ++ PyStr.nl ++ PyStr.nl)
  end.

End with_services.
End PrecedentSearchTool.

Module ResponseGeneratorTool.
Section with_services.
Context `{LanguageModel}.
Variable settings : Settings.

Definition response_prompt (analysis precedents response_type : string) : list message :=
  [("system", "You are a legal response generator. Create a professional legal response based on:
            1. The legal analysis provided
            2. Similar precedents and cases
            3. The requested response type
            
            The response should be:
            - Professional and legally sound
            - Address all key issues raised
            - Reference relevant precedents when appropriate
            - Maintain appropriate tone for the situation
            - Include clear next steps or recommendations");
   ("human", "Generate a legal response with the following information:
            
            Analysis: "
     ++ analysis
     ++ "
            
            Precedents: "
     ++ precedents
     ++ "
            
            Response Type: "
     ++ response_type
     ++ "
            
            Please provide a comprehensive legal response.")].

Definition _run (analysis precedents response_type : string) : result string :=
  let llm := {| llm_model := model_name settings;
                llm_temperature := 3 # 10;
                llm_max_tokens := None |} in
  llm_invoke llm (response_prompt analysis precedents response_type).

End with_services.
End ResponseGeneratorTool.

Module LegalAgentSystem.

(** The dictionary [_evaluate_response_quality] returns. *)
Record evaluation : Type := {
  confidence : Q;
  reasoning : string;
  key_points : list string
}.

Section with_services.
Context `{Runtime} `{LanguageModel} `{Embedder} {C : Type} `{Collection C}.
Variable settings : Settings.

Definition llm : ChatOpenAI :=
  {| llm_model := model_name settings;
     llm_temperature := temperature settings;
     llm_max_tokens := None |}.

Definition evaluation_prompt (issues parties response : string) : list message :=
  [("system", "Evaluate the quality of a legal response. Provide:
                1. Confidence score (0.0 to 1.0)
                2. Reasoning for the score
                3. Key points addressed in the response
                
                Format as:
                CONFIDENCE: [score]
                REASONING: [explanation]
                KEY_POINTS: [comma-separated list]");
   ("human", "Evaluate this legal response for the document:
                
                Document Issues: "
     ++ issues
     ++ "
                Document Parties: "
     ++ parties
     ++ "
                
                Response: "
     ++ response)].

(** The text between [CONFIDENCE:] and [REASONING:]. *)
Definition conf_section (eval_text : string) : result string :=
  let* after := py_index (PyStr.split "CONFIDENCE:" eval_text) 1 in
  py_index (PyStr.split "REASONING:" after) 0.

Definition reasoning_section (eval_text : string) : result string :=
  let* after := py_index (PyStr.split "REASONING:" eval_text) 1 in
  py_index (PyStr.split "KEY_POINTS:" after) 0.

Definition points_section (eval_text : string) : result string :=
  py_index (PyStr.split "KEY_POINTS:" eval_text) 1.

(** [float(conf_section.strip())], raising [ValueError] when the text is
    not a number. *)
Definition parse_confidence (eval_text : string) : result Q :=
  let* section := conf_section eval_text in
  match py_float (PyStr.strip section) with
  | Some q => Ok q
  | None => Raise ValueError
  end.

(** The parsing of the reply, [eval_text]. *)
Definition parse_evaluation (eval_text : string) : result evaluation :=
  let confidence :=
    if PyStr.contains "CONFIDENCE:" eval_text
    then try_except (parse_confidence eval_text) (1 # 2)
    else 1 # 2 in
  let* reasoning :=
    if PyStr.contains "REASONING:" eval_text
    then let* section := reasoning_section eval_text in Ok (PyStr.strip section)
    else Ok "Standard evaluation" in
  let* key_points :=
    if PyStr.contains "KEY_POINTS:" eval_text
    then let* section := points_section eval_text in Ok (PyStr.comma_items section)
    else Ok [] in
  Ok {| confidence := confidence; reasoning := reasoning; key_points := key_points |}.

Definition evaluation_failed : evaluation :=
  {| confidence := 1 # 2; reasoning := "Evaluation failed"; key_points := [] |}.

Definition _evaluate_response_quality (response : string) (document : LegalDocument.t)
  : evaluation :=
  try_except
    (let* eval_text :=
       llm_invoke llm
         (evaluation_prompt
            (PyStr.join ", " (LegalDocument.key_issues document))
            (PyStr.join ", " (LegalDocument.parties_involved document))
            response) in
     parse_evaluation eval_text)
    evaluation_failed.

Definition search_query (document : LegalDocument.t) : string :=
  "legal issues: " ++ PyStr.join ", " (LegalDocument.key_issues document)
  ++ " parties: " ++ PyStr.join ", " (LegalDocument.parties_involved document).

(** Step 3 of the pipeline, with the two steps before it. *)
Definition generate_stage (vector_store : C) (document : LegalDocument.t)
    (response_type : string) : result string :=
  let* analysis := LegalAnalysisTool._run settings (LegalDocument.content document) in
  let precedents := PrecedentSearchTool._run vector_store (search_query document) in
  ResponseGeneratorTool._run settings analysis precedents response_type.

(** The body of the [try] of [generate_legal_response]. *)
Definition generate_legal_response_body (vector_store : C) (document : LegalDocument.t)
    (response_type : string) : result LegalResponse.t :=
  let* suggested_response := generate_stage vector_store document response_type in
  let confidence_analysis := _evaluate_response_quality suggested_response document in
  LegalResponse.new (LegalDocument.id document) response_type suggested_response
    (confidence confidence_analysis) (reasoning confidence_analysis)
    (key_points confidence_analysis) response_type.

(** The [except] branch: the error-tagged response. *)
Definition error_response (document : LegalDocument.t) (response_type : string)
  : result LegalResponse.t :=
  LegalResponse.new (LegalDocument.id document) response_type
    "Error generating response. Please try again."
    0 "Error occurred during response generation" [] "error".

Definition generate_legal_response (vector_store : C) (document : LegalDocument.t)
    (response_type : string) : result LegalResponse.t :=
  match generate_legal_response_body vector_store document response_type with
  | Ok legal_response => Ok legal_response
  | Raise _ => error_response document response_type
  end.

End with_services.
End LegalAgentSystem.

(** ** legal_ai_system.py *)

Module LegalAISystem.
Section with_services.
Context `{Runtime} `{LanguageModel} `{Embedder} {C : Type} `{Collection C}.
Variable settings : Settings.

(** The body of the [try] of [generate_response_for_document]. *)
Definition generate_response_for_document_body (vector_store : C)
    (document_id response_type : string) : result (option LegalResponse.t) :=
  let chunks := ChromaVectorStore.get_document_chunks vector_store document_id in
  match chunks with
  | [] => Ok None
  | chunk0 :: _ =>
      let content := PyStr.join PyStr.nl (List.map SearchResult.content chunks) in
      let metadata := SearchResult.metadata chunk0 in
      let* filename := as_str (dict_get metadata "filename" (MStr "Unknown")) in
      let* document_type :=
        as_DocumentType (dict_get metadata "document_type" (MStr "legal_letter")) in
      let* parties_involved :=
        as_str_list (dict_get metadata "parties_involved" (MList [])) in
      let* key_issues := as_str_list (dict_get metadata "key_issues" (MList [])) in
      let document :=
        {| LegalDocument.id := document_id;
           LegalDocument.filename := filename;
           LegalDocument.content := content;
           LegalDocument.document_type := document_type;
           LegalDocument.metadata := metadata;
           LegalDocument.created_at := now;
           LegalDocument.parties_involved := parties_involved;
           LegalDocument.key_issues := key_issues |} in
      let* response :=
        LegalAgentSystem.generate_legal_response settings vector_store document
          response_type in
      Ok (Some response)
  end.

Definition generate_response_for_document (vector_store : C)
    (document_id response_type : string) : option LegalResponse.t :=
  try_except
    (generate_response_for_document_body vector_store document_id response_type)
    None.

End with_services.
End LegalAISystem.

(** ** The fields of an evaluation reply, as the specification words them *)

Module EvaluationSpec.
Section with_runtime.
Context `{Runtime}.

(** The confidence a reply yields: the number between the markers, or the
    default. *)
Definition confidence_of (eval_text : string) : Q :=
  match MarkerSpec.text_after "CONFIDENCE:" eval_text with
  | Some rest =>
      match py_float (PyStr.strip (MarkerSpec.up_to ["CONFIDENCE:"; "REASONING:"] rest)) with
      | Some q => q
      | None => 1 # 2
      end
  | None => 1 # 2
  end.

Definition reasoning_of (eval_text : string) : string :=
  match MarkerSpec.text_after "REASONING:" eval_text with
  | Some rest => PyStr.strip (MarkerSpec.up_to ["REASONING:"; "KEY_POINTS:"] rest)
  | None => "Standard evaluation"
  end.

Definition key_points_of (eval_text : string) : list string :=
  match MarkerSpec.text_after "KEY_POINTS:" eval_text with
  | Some rest => PyStr.comma_items (MarkerSpec.up_to ["KEY_POINTS:"] rest)
  | None => []
  end.

End with_runtime.
End EvaluationSpec.

(** ** An index held in memory *)

Module MemoryCollection.

(** Modelled from the spec: the persistent vector index is a service
    outside the sources.  Section 4.3 of the specification describes it:
    rows of (id, vector, text, metadata) keyed by id; a k-nearest-neighbour
    query that returns up to [k] rows, nearest first, ties in insertion
    order; an exact filter on the document id; deletion of all rows of a
    document, which succeeds when there are none.  The distance is the
    squared Euclidean one, the metric of a collection created without
    naming another. *)
Record Row : Type := {
  row_id : string;
  row_embedding : list Q;
  row_document : string;
  row_metadata : gmap string mval
}.

Abbreviation t := (list Row).

Definition sq_l2 (a b : list Q) : Q :=
  fold_left (fun acc '(x, y) => (acc + (x - y) * (x - y))%Q) (List.combine a b) 0%Q.

Definition of_document (document_id : string) (r : Row) : bool :=
  match row_metadata r !! "document_id" with
  | Some (MStr s) => String.eqb s document_id
  | _ => false
  end.

Fixpoint zip_rows (ids : list string) (embs : list (list Q)) (docs : list string)
    (mds : list metadata) : list Row :=
  match ids, embs, docs, mds with
  | i :: ids', e :: embs', d :: docs', m :: mds' =>
      {| row_id := i; row_embedding := e; row_document := d; row_metadata := m |}
      :: zip_rows ids' embs' docs' mds'
  | _, _, _, _ => []
  end.

(** Modelled from the spec: [upsert] of section 4.3, the index's own
    write, which is outside the sources.  Rows with an incoming id are
    replaced; lists of unequal length are refused. *)
Definition add (c : t) (b : Batch) : result unit * t :=
  let n := length (b_ids b) in
  if (length (b_embeddings b) =? n)%nat && (length (b_documents b) =? n)%nat
     && (length (b_metadatas b) =? n)%nat
  then
    let kept :=
      List.filter
        (fun r => negb (existsb (String.eqb (row_id r)) (b_ids b))) c in
    (Ok tt,
     (kept ++ zip_rows (b_ids b) (b_embeddings b) (b_documents b) (b_metadatas b))%list)
  else (Raise ValueError, c).

(** Stable insertion by distance. *)
Fixpoint insert_by (x : Q * Row) (l : list (Q * Row)) : list (Q * Row) :=
  match l with
  | [] => [x]
  | y :: l' => if Qle_bool (fst y) (fst x) then y :: insert_by x l' else x :: l
  end.

Definition nearest (c : t) (emb : list Q) (k : nat) : list (Q * Row) :=
  List.firstn k
    (fold_left (fun acc r => insert_by (sq_l2 emb (row_embedding r), r) acc) c []).

(** Modelled from the spec: the k-nearest-neighbour search of section 4.3,
    outside the sources: up to [n_results] rows per query embedding,
    nearest first. *)
Definition query (c : t) (embs : list (list Q)) (n_results : Z) : result QueryResult :=
  let hits := List.map (fun e => nearest c e (Z.to_nat n_results)) embs in
  Ok {| q_ids := List.map (List.map (fun h => row_id (snd h))) hits;
        q_documents := List.map (List.map (fun h => row_document (snd h))) hits;
        q_metadatas := List.map (List.map (fun h => row_metadata (snd h))) hits;
        q_distances := List.map (List.map fst) hits |}.

(** Modelled from the spec: the exact filter of section 4.3, outside the
    sources: the rows whose metadata names the document. *)
Definition get (c : t) (document_id : string) : result GetResult :=
  let rows := List.filter (of_document document_id) c in
  Ok {| g_ids := List.map row_id rows;
        g_documents := List.map row_document rows;
        g_metadatas := List.map row_metadata rows |}.

(** Modelled from the spec: the deletion of section 4.3, outside the
    sources: all rows whose metadata names the document go, and the call
    succeeds when there are none. *)
Definition delete (c : t) (document_id : string) : result unit * t :=
  (Ok tt, List.filter (fun r => negb (of_document document_id r)) c).

#[global] Instance collection : Collection (list Row) :=
  {| coll_add := add; coll_query := query; coll_get := get; coll_delete := delete |}.

End MemoryCollection.

(** ** Small services to run the code on *)

Module Sample.

(** A decimal numeral [[-]digits[.digits]] read as a rational. *)
Definition digit (c : ascii) : option Z :=
  let n := nat_of_ascii c in
  if (48 <=? n)%nat && (n <=? 57)%nat then Some (Z.of_nat (n - 48)) else None.

Fixpoint digits (s : string) (acc : Z) (count : nat) : option (Z * nat * string) :=
  match s with
  | "" => Some (acc, count, "")
  | String c s' =>
      match digit c with
      | Some d => digits s' (10 * acc + d)%Z (S count)
      | None => Some (acc, count, s)
      end
  end.

Definition unsigned_decimal (s : string) : option Q :=
  match digits s 0%Z 0 with
  | Some (i, S _, "") => Some (inject_Z i)
  | Some (i, S _, String "." frac) =>
      match digits frac 0%Z 0 with
      | Some (f, S k, "") => Some (inject_Z i + Qmake f (Pos.of_nat (10 ^ S k)))%Q
      | _ => None
      end
  | _ => None
  end.

Definition decimal (s : string) : option Q :=
  match s with
  | String "-" s' => option_map Qopp (unsigned_decimal s')
  | _ => unsigned_decimal s
  end.

(** Two places after the point, truncated. *)
Definition two_places (q : Q) : string :=
  let n := (Z.abs (Qnum q) * 100 / Zpos (Qden q))%Z in
  let frac := (n mod 100)%Z in
  (if Qle_bool 0 q then "" else "-")
  ++ pretty (n / 100)%Z ++ "." ++ (if (frac <? 10)%Z then "0" else "") ++ pretty frac.

Definition repr (v : mval) : string :=
  match v with
  | MStr s => "'" ++ s ++ "'"
  | MInt z => pretty z
  | MFloat q => two_places q
  | MBool b => if b then "True" else "False"
  | MList l => "[" ++ PyStr.join ", " (List.map (fun s => "'" ++ s ++ "'") l) ++ "]"
  end.

Definition runtime : Runtime :=
  {| py_float := decimal;
     format_2f := two_places;
     py_repr := repr;
     now := 0%Z;
     uuid4 := fun n => "chunk-" ++ pretty n |}.

(** A language model that gives the same answer to every call. *)
Definition constant_llm (reply : result string) : LanguageModel :=
  {| llm_invoke := fun _ _ => reply |}.

(** A language model that answers the evaluation prompt with one reply and
    every other prompt with another. *)
Definition two_reply_llm (reply evaluation : result string) : LanguageModel :=
  {| llm_invoke := fun _ messages =>
       match messages with
       | (_, sys) :: _ =>
           if String.prefix "Evaluate" sys then evaluation else reply
       | [] => reply
       end |}.

(** An embedding into the plane: texts about leases on one axis, every
    other text on the other. *)
Definition embedder : Embedder :=
  {| encode := fun text =>
       if PyStr.contains "lease" text then Ok [1; 0]%Q else Ok [0; 1]%Q |}.

Definition row (id document_id text : string) (emb : list Q) : MemoryCollection.Row :=
  {| MemoryCollection.row_id := id;
     MemoryCollection.row_embedding := emb;
     MemoryCollection.row_document := text;
     MemoryCollection.row_metadata :=
       <["document_id" := MStr document_id]>
       (<["filename" := MStr (document_id ++ ".pdf")]> ∅) |}.

Definition store : list MemoryCollection.Row :=
  [ row "c1" "d1" "notice of lease termination" [1; 0]%Q;
    row "c2" "d1" "the lease ends in June" [4 # 5; 3 # 5]%Q;
    row "c3" "d2" "demand for payment" [0; 1]%Q ].

Definition document : LegalDocument.t :=
  {| LegalDocument.id := "d1";
     LegalDocument.filename := "d1.pdf";
     LegalDocument.content := "notice of lease termination";
     LegalDocument.document_type := NOTICE;
     LegalDocument.metadata := ∅;
     LegalDocument.created_at := 0%Z;
     LegalDocument.parties_involved := ["Tenant"; "Landlord"];
     LegalDocument.key_issues := ["termination"] |}.

End Sample.

(** ** Vocabulary of the statements *)

(** The scores of a result list. *)
Definition scores (results : list SearchResult.t) : list Q :=
  List.map SearchResult.similarity_score results.

(** The distances the index reports for the one query embedding. *)
Definition nearest_distances (r : QueryResult) : list Q :=
  match q_distances r with
  | ds0 :: _ => ds0
  | [] => []
  end.

(** Distance to similarity, as [search_similar] converts it. *)
Definition to_similarity (d : Q) : Q := 1 - d.

(** Nearest first: no distance is followed by a smaller one. *)
Fixpoint is_ascending (l : list Q) : bool :=
  match l with
  | a :: (b :: _) as rest => Qle_bool a b && is_ascending rest
  | _ => true
  end.

(** Best first: no score is followed by a larger one. *)
Fixpoint is_descending (l : list Q) : bool :=
  match l with
  | a :: (b :: _) as rest => Qle_bool b a && is_descending rest
  | _ => true
  end.

(** Membership of the interval [0,1]. *)
Definition in_unit (q : Q) : bool := Qle_bool 0 q && Qle_bool q 1.

(** Concatenating fragments in order after removing, from every fragment
    but the first, the [overlap] characters it shares with the one before. *)
Definition rejoin (overlap : nat) (fragments : list string) : string :=
  match fragments with
  | [] => ""
  | first :: rest =>
      first ++ PyStr.join "" (List.map (PyStr.drop overlap) rest)
  end.

(** Windows on a text, each with the number of its leading characters that
    repeat the end of the window before it: every window begins with the last
    [shared] characters of the one before. *)
Fixpoint overlapping (previous : string) (windows : list (nat * string)) : bool :=
  match windows with
  | [] => true
  | (shared, w) :: rest =>
      (shared <=? String.length previous)%nat
      && (shared <=? String.length w)%nat
      && String.eqb (PyStr.take shared w)
                    (PyStr.drop (String.length previous - shared) previous)
      && overlapping w rest
  end.

(** The windows one after the other, each without the characters it shares
    with the one before. *)
Definition without_overlap (windows : list (nat * string)) : string :=
  PyStr.join "" (List.map (fun '(shared, w) => PyStr.drop shared w) windows).

(** The fragments the windows give: each without its surrounding whitespace,
    and none for a window of which nothing is left. *)
Definition trimmed (windows : list (nat * string)) : list string :=
  List.filter (fun s => negb (String.eqb s ""))
    (List.map (fun '(_, w) => PyStr.strip w) windows).

(** A window may share at most the overlap with the one before it, and
    holds at most the target size. *)
Definition within (cfg : RecursiveCharacterTextSplitter.config)
    (window : nat * string) : Prop :=
  let '(shared, w) := window in
  (Z.of_nat shared <= RecursiveCharacterTextSplitter.chunk_overlap cfg)%Z
  /\ (RecursiveCharacterTextSplitter.len w
      <= RecursiveCharacterTextSplitter.chunk_size cfg)%Z.

(** The fragments [out] are those of windows that make up [text]. *)
Definition tiling (cfg : RecursiveCharacterTextSplitter.config) (text : string)
    (out : list string) : Prop :=
  exists windows,
    out = trimmed windows
    /\ overlapping "" windows = true
    /\ without_overlap windows = text
    /\ List.Forall (within cfg) windows.

(** The state of the merge loop after the pieces that make up [text]: the
    windows given out, and the one being filled. *)
Definition merging (cfg : RecursiveCharacterTextSplitter.config) (text : string)
    (st : list string * list string * Z) : Prop :=
  let '(docs, current_doc, total) := st in
  exists windows shared,
    let all := (windows ++ [(shared, PyStr.join "" current_doc)])%list in
    docs = trimmed windows
    /\ overlapping "" all = true
    /\ without_overlap all = text
    /\ total = RecursiveCharacterTextSplitter.len (PyStr.join "" current_doc)
    /\ List.Forall (within cfg) all.

(** [n] copies of [s], one after the other. *)
Fixpoint repeat_str (n : nat) (s : string) : string :=
  match n with
  | O => ""
  | S n' => s ++ repeat_str n' s
  end.

(** What the splitter makes of a text that fits in one fragment. *)
Definition trimmed_fragment (text : string) : list string :=
  if String.eqb (PyStr.strip text) "" then [] else [PyStr.strip text].

(** The texts of the chunks the processor creates. *)
Definition fragments `{Runtime} (text : string) : list string :=
  List.map DocumentChunk.content
    (DocumentProcessor.create_chunks 0 text "document" ∅).

(** A heap with two chunks of one document: the first comes with its
    embedding, the second without. *)
Definition sample_heap : gmap positive DocumentChunk.t :=
  <[1%positive :=
      {| DocumentChunk.id := "c1"; DocumentChunk.document_id := "d1";
         DocumentChunk.content := "notice of lease termination";
         DocumentChunk.chunk_index := 0; DocumentChunk.metadata := ∅;
         DocumentChunk.embedding := Some [3 # 5; 4 # 5]%Q |}]>
  (<[2%positive :=
      {| DocumentChunk.id := "c2"; DocumentChunk.document_id := "d1";
         DocumentChunk.content := "the lease ends in June";
         DocumentChunk.chunk_index := 1; DocumentChunk.metadata := ∅;
         DocumentChunk.embedding := None |}]> ∅).

(** What one call may do to a chunk object: leave it, or give it the
    embedding of its content when it had none. *)
Inductive written `{Embedder} (chunk : DocumentChunk.t) : DocumentChunk.t -> Prop :=
| written_same : written chunk chunk
| written_embedding (v : list Q) :
    DocumentChunk.embedding chunk = None ->
    encode (DocumentChunk.content chunk) = Ok v ->
    written chunk (DocumentChunk.set_embedding chunk v).

(** ** The rest of document_processor.py *)

(** [str(e)] of an exception. *)
Class ExceptionText : Type := {
  exn_str : exn -> string
}.

(** The PDF library: opening the file and reading its pages; each page is
    the outcome of its [extract_text()]. *)
Class PdfLibrary : Type := {
  pdf_pages : string -> result (list (result string))
}.

(** [s.split()]: the words between runs of whitespace. *)
Fixpoint split_words_go (s cur : string) : list string :=
  match s with
  | "" => if String.eqb cur "" then [] else [cur]
  | String c s' =>
      if PyStr.is_space c
      then if String.eqb cur "" then split_words_go s' ""
           else cur :: split_words_go s' ""
      else split_words_go s' (cur ++ String c "")
  end.

Definition split_words (s : string) : list string := split_words_go s "".

(** [os.path.basename(path)]: what follows the last slash. *)
Definition basename (path : string) : string :=
  List.last (PyStr.split "/" path) "".

Module ProcessingResult.
Record t : Type := {
  success : bool;
  document : option LegalDocument.t;
  chunks : list DocumentChunk.t;
  error_message : option string
}.

Definition failure (message : string) : t :=
  {| success := false; document := None; chunks := []; error_message := Some message |}.
End ProcessingResult.

Module PdfProcessor.
Section with_services.
Context `{Runtime} `{LanguageModel} `{ExceptionText} `{PdfLibrary}.
Variable settings : Settings.

(** The [for page in pdf_reader.pages] loop. *)
Fixpoint pages_text (pages : list (result string)) (text : string) : result string :=
  match pages with
  | [] => Ok text
  | page :: rest =>
      let* page_text := page in
      pages_text rest (text ++ page_text ++ PyStr.nl)
  end.

Definition extract_text_from_pdf (pdf_path : string) : result string :=
  match (let* pages := pdf_pages pdf_path in
         let* text := pages_text pages "" in
         Ok (PyStr.strip text)) with
  | Ok text => Ok text
  | Raise e => Raise (ServiceError ("Error extracting text from PDF: " ++ exn_str e))
  end.

Definition document_metadata (pdf_path content : string) : gmap string mval :=
  <["source_file" := MStr pdf_path]>
  (<["word_count" := MInt (Z.of_nat (length (split_words content)))]>
   (<["pages" := MInt (Z.of_nat (length (PyStr.split (PyStr.nl ++ PyStr.nl) content)))]>
    ∅)).

Definition chunk_metadata (filename : string) (document_type : DocumentType)
    (parties issues : list string) : gmap string mval :=
  <["filename" := MStr filename]>
  (<["document_type" := MStr (DocumentType_value document_type)]>
   (<["parties_involved" := MList parties]>
    (<["key_issues" := MList issues]> ∅))).

(** The body of the [try] of [process_pdf]; [drawn] counts the identifiers
    drawn so far. *)
Definition process_pdf_body (drawn : nat) (pdf_path filename : string)
  : result ProcessingResult.t :=
  let* content := extract_text_from_pdf pdf_path in
  if String.eqb (PyStr.strip content) ""
  then Ok (ProcessingResult.failure "No text content extracted from PDF")
  else
    let document_id := uuid4 drawn in
    let document_type := DocumentProcessor.classify_document_type settings content in
    let '(parties, issues) := DocumentProcessor.extract_parties_and_issues settings content in
    let document :=
      {| LegalDocument.id := document_id;
         LegalDocument.filename := filename;
         LegalDocument.content := content;
         LegalDocument.document_type := document_type;
         LegalDocument.metadata := document_metadata pdf_path content;
         LegalDocument.created_at := now;
         LegalDocument.parties_involved := parties;
         LegalDocument.key_issues := issues |} in
    let chunks :=
      DocumentProcessor.create_chunks (S drawn) content document_id
        (chunk_metadata filename document_type parties issues) in
    Ok {| ProcessingResult.success := true;
          ProcessingResult.document := Some document;
          ProcessingResult.chunks := chunks;
          ProcessingResult.error_message := None |}.

Definition process_pdf (drawn : nat) (pdf_path filename : string) : ProcessingResult.t :=
  match process_pdf_body drawn pdf_path filename with
  | Ok r => r
  | Raise e => ProcessingResult.failure (exn_str e)
  end.

End with_services.
End PdfProcessor.

(** ** The rest of legal_agents.py *)

Definition process_document_and_respond `{Runtime} `{LanguageModel} `{Embedder}
    {C : Type} `{Collection C} (settings : Settings) (vector_store : C)
    (document : LegalDocument.t) : result LegalResponse.t :=
  LegalAgentSystem.generate_legal_response settings vector_store document "professional".

(** ** The rest of legal_ai_system.py *)

Module DocumentHit.
(** An entry of [document_results]: a document with the chunks found for
    it, each with its content and similarity. *)
Record t : Type := {
  document_id : string;
  filename : mval;
  document_type : mval;
  similarity_score : Q;
  relevant_chunks : list (string * Q)
}.
End DocumentHit.

Module BatchEntry.
Record t : Type := {
  file : string;
  success : bool;
  document_id : option string;
  error : option string
}.
End BatchEntry.

Module Upload.
(** The dictionary [process_uploaded_pdf] returns. *)
Record summary : Type := {
  id : string;
  filename : string;
  type : string;
  parties : list string;
  issues : list string
}.

Record answer : Type := {
  suggested_response : string;
  confidence : Q;
  key_points : list string;
  reasoning : string
}.

Inductive t : Type :=
| failed (error : option string)
| done (document : summary) (response : option answer) (chunks_created : nat).
End Upload.

Module LegalAISystemFlows.
Section with_services.
Context `{Runtime} `{LanguageModel} `{Embedder} `{ExceptionText} `{PdfLibrary}
        {C : Type} `{Collection C}.
Variable settings : Settings.

(** The chunk objects of a result, put in a heap at the locations 1, 2, ... *)
Definition locations (n : nat) : list loc := List.map Pos.of_succ_nat (seq 0 n).

Definition allocate (chunks : list DocumentChunk.t) : gmap positive DocumentChunk.t :=
  list_to_map (List.combine (locations (length chunks)) chunks).

(** The objects as they are after a call that may have written to them. *)
Definition read_back (h : gmap positive DocumentChunk.t) (chunks : list DocumentChunk.t)
  : list DocumentChunk.t :=
  List.map (fun '(l, chunk) => match h !! l with Some chunk' => chunk' | None => chunk end)
    (List.combine (locations (length chunks)) chunks).

(** [process_and_store_pdf]: the result and the collection it leaves. *)
Definition process_and_store_pdf (drawn : nat) (vector_store : C) (pdf_path : string)
    (filename : option string) : ProcessingResult.t * C :=
  let filename := match filename with
                  | Some name => name
                  | None => basename pdf_path
                  end in
  let result := PdfProcessor.process_pdf settings drawn pdf_path filename in
  if negb (ProcessingResult.success result) then (result, vector_store)
  else
    match ProcessingResult.chunks result with
    | [] => (result, vector_store)
    | _ :: _ =>
        let chunks := ProcessingResult.chunks result in
        let '(storage_success, h, c') :=
          ChromaVectorStore.add_chunks (allocate chunks) vector_store
            (locations (length chunks)) in
        let stored := read_back h chunks in
        if storage_success
        then ({| ProcessingResult.success := true;
                 ProcessingResult.document := ProcessingResult.document result;
                 ProcessingResult.chunks := stored;
                 ProcessingResult.error_message := ProcessingResult.error_message result |},
              c')
        else ({| ProcessingResult.success := false;
                 ProcessingResult.document := ProcessingResult.document result;
                 ProcessingResult.chunks := stored;
                 ProcessingResult.error_message :=
                   Some "Failed to store document in vector database" |},
              c')
    end.

(** One round of the loop of [search_similar_documents]: the chunk joins
    the entry of its document, which is created at the end when new. *)
Fixpoint add_hit (document_results : list DocumentHit.t) (result : SearchResult.t)
  : list DocumentHit.t :=
  let chunk := (SearchResult.content result, SearchResult.similarity_score result) in
  match document_results with
  | [] =>
      [{| DocumentHit.document_id := SearchResult.document_id result;
          DocumentHit.filename :=
            dict_get (SearchResult.metadata result) "filename" (MStr "Unknown");
          DocumentHit.document_type :=
            dict_get (SearchResult.metadata result) "document_type" (MStr "Unknown");
          DocumentHit.similarity_score := SearchResult.similarity_score result;
          DocumentHit.relevant_chunks := [chunk] |}]
  | entry :: rest =>
      if String.eqb (DocumentHit.document_id entry) (SearchResult.document_id result)
      then {| DocumentHit.document_id := DocumentHit.document_id entry;
              DocumentHit.filename := DocumentHit.filename entry;
              DocumentHit.document_type := DocumentHit.document_type entry;
              DocumentHit.similarity_score := DocumentHit.similarity_score entry;
              DocumentHit.relevant_chunks :=
                (DocumentHit.relevant_chunks entry ++ [chunk])%list |} :: rest
      else entry :: add_hit rest result
  end.

Definition group_by_document (results : list SearchResult.t) : list DocumentHit.t :=
  fold_left add_hit results [].

Definition search_similar_documents (vector_store : C) (query : string) (n_results : Z)
  : list DocumentHit.t :=
  group_by_document (ChromaVectorStore.search_similar vector_store query n_results).




(** The body of the [try] of [process_uploaded_pdf].  Reading
    [result.document.id] raises when the document is [None]. *)
Definition process_uploaded_pdf_body (drawn : nat) (vector_store : C) (file_path : string)
  : result Upload.t * C :=
  let '(result, c') := process_and_store_pdf drawn vector_store file_path None in
  if negb (ProcessingResult.success result)
  then (Ok (Upload.failed (ProcessingResult.error_message result)), c')
  else
    match ProcessingResult.document result with
    | None => (Raise ValueError, c')
    | Some document =>
        let response :=
          LegalAISystem.generate_response_for_document settings c'
            (LegalDocument.id document) "professional" in
        (Ok (Upload.done
               {| Upload.id := LegalDocument.id document;
                  Upload.filename := LegalDocument.filename document;
                  Upload.type := DocumentType_value (LegalDocument.document_type document);
                  Upload.parties := LegalDocument.parties_involved document;
                  Upload.issues := LegalDocument.key_issues document |}
               (option_map
                  (fun r =>
                     {| Upload.suggested_response := LegalResponse.suggested_response r;
                        Upload.confidence := LegalResponse.confidence_score r;
                        Upload.key_points := LegalResponse.key_points r;
                        Upload.reasoning := LegalResponse.reasoning r |})
                  response)
               (length (ProcessingResult.chunks result))),
         c')
    end.

Definition process_uploaded_pdf (drawn : nat) (vector_store : C) (file_path : string)
  : Upload.t * C :=
  match process_uploaded_pdf_body drawn vector_store file_path with
  | (Ok outcome, c') => (outcome, c')
  | (Raise e, c') => (Upload.failed (Some (exn_str e)), c')
  end.

End with_services.
End LegalAISystemFlows.

(** ** More small services *)

Module Sample2.

Definition exception_text : ExceptionText :=
  {| exn_str := fun e =>
       match e with
       | IndexError => "list index out of range"
       | KeyError => "key"
       | ValueError => "invalid value"
       | ValidationError => "validation error"
       | ServiceError msg => msg
       end |}.

(** A library of three files: a two-page notice, a file whose only page is
    blank, and nothing else. *)
Definition pdf_library : PdfLibrary :=
  {| pdf_pages := fun path =>
       if String.eqb path "uploads/notice.pdf"
       then Ok [Ok "NOTICE TO QUIT"; Ok "You must leave by June. "]
       else if String.eqb path "uploads/blank.pdf"
       then Ok [Ok "  "]
       else Raise (ServiceError "file not found") |}.

(** A language model that names the type, lists parties and issues, and
    evaluates, by the prompt it is given. *)
Definition scripted_llm : LanguageModel :=
  {| llm_invoke := fun _ messages =>
       match messages with
       | (_, sys) :: _ =>
           if String.prefix "You are a legal document classifier" sys then Ok "notice"
           else if String.prefix "You are a legal document analyzer" sys
           then Ok "PARTIES: Landlord, Tenant ISSUES: eviction"
           else if String.prefix "Evaluate" sys
           then Ok "CONFIDENCE: 0.9 REASONING: clear KEY_POINTS: deadline"
           else Ok "We acknowledge your notice."
       | [] => Raise (ServiceError "no prompt")
       end |}.

(** An index that refuses every write. *)
Definition read_only : Collection (list MemoryCollection.Row) :=
  {| coll_add := fun c _ => (Raise (ServiceError "read-only"), c);
     coll_query := MemoryCollection.query;
     coll_get := MemoryCollection.get;
     coll_delete := fun c _ => (Raise (ServiceError "read-only"), c) |}.

(** An embedding model that fails on the empty text. *)
Definition picky_embedder : Embedder :=
  {| encode := fun text =>
       if String.eqb text "" then Raise (ServiceError "empty input")
       else Ok [Z.of_nat (String.length text) # 1]%Q |}.

Definition chunk (id document_id content : string) (index : Z)
    (embedding : option (list Q)) : DocumentChunk.t :=
  {| DocumentChunk.id := id; DocumentChunk.document_id := document_id;
     DocumentChunk.content := content; DocumentChunk.chunk_index := index;
     DocumentChunk.metadata := ∅; DocumentChunk.embedding := embedding |}.

(** Three chunk objects, the last with an empty text. *)
Definition heap3 : gmap positive DocumentChunk.t :=
  <[1%positive := chunk "c1" "d7" "first part" 0 None]>
  (<[2%positive := chunk "c2" "d7" "second part" 1 (Some [1]%Q)]>
   (<[3%positive := chunk "c3" "d7" "" 2 None]> ∅)).

(** An embedding model that is out of service. *)
Definition failing_embedder : Embedder :=
  {| encode := fun _ => Raise (ServiceError "model unavailable") |}.

(** The sample index with one more row, whose metadata was lost. *)
Definition torn_store : list MemoryCollection.Row :=
  (Sample.store
   ++ [{| MemoryCollection.row_id := "c4";
          MemoryCollection.row_embedding := [1; 0]%Q;
          MemoryCollection.row_document := "lease of the garage";
          MemoryCollection.row_metadata := ∅ |}])%list.

(** The index after the two sample chunk objects were added to an empty one. *)
Definition filed : list MemoryCollection.Row :=
  snd (@ChromaVectorStore.add_chunks Sample.embedder _ MemoryCollection.collection
         sample_heap [] [1; 2]%positive).

(** The index after the notice of the library was processed and stored. *)
Definition ingested : list MemoryCollection.Row :=
  snd (@LegalAISystemFlows.process_and_store_pdf Sample.runtime Sample2.scripted_llm
         Sample.embedder Sample2.exception_text Sample2.pdf_library _
         MemoryCollection.collection default_settings 0 [] "uploads/notice.pdf" None).
End Sample2.

(** A chunk object that [add_chunks] can put in its batch: it has an
    embedding, or the model gives one for its content. *)
Definition embeddable `{Embedder} (h : gmap positive DocumentChunk.t) (l : positive) : Prop :=
  exists chunk, h !! l = Some chunk
                /\ (DocumentChunk.embedding chunk <> None
                    \/ exists v, encode (DocumentChunk.content chunk) = Ok v).

(** The outcome of a mutating call as the boolean the wrappers return. *)
Definition succeeded (r : result unit) : bool :=
  match r with
  | Ok _ => true
  | Raise _ => false
  end.

(** The results of a search that belong to one document, in the order of
    the search. *)
Definition results_of (document_id : string) (results : list SearchResult.t)
  : list SearchResult.t :=
  List.filter (fun r => String.eqb (SearchResult.document_id r) document_id) results.

(** An entry stands for the results of its document: it has the file name,
    the type and the score of the first of them, and the content and score
    of each. *)
Definition groups (results : list SearchResult.t) (hit : DocumentHit.t) : Prop :=
  exists first others,
    results_of (DocumentHit.document_id hit) results = first :: others
    /\ DocumentHit.filename hit
       = dict_get (SearchResult.metadata first) "filename" (MStr "Unknown")
    /\ DocumentHit.document_type hit
       = dict_get (SearchResult.metadata first) "document_type" (MStr "Unknown")
    /\ DocumentHit.similarity_score hit = SearchResult.similarity_score first
    /\ DocumentHit.relevant_chunks hit
       = List.map (fun r => (SearchResult.content r, SearchResult.similarity_score r))
           (first :: others).

(** * Properties *)

(** ** The operations on small inputs *)

Example split_on_marker :
  PyStr.split "ISSUES:" "PARTIES: A, B ISSUES: x" = ["PARTIES: A, B "; " x"].
Proof. reflexivity. Qed.

Example split_leftmost_first : PyStr.split "aa" "aaa" = [""; "a"].
Proof. reflexivity. Qed.

Example strip_both_ends : PyStr.strip "  a b  " = "a b".
Proof. reflexivity. Qed.

Example comma_items_drop_empty : PyStr.comma_items " a, b ,, c " = ["a"; "b"; "c"].
Proof. reflexivity. Qed.

Example splitter_without_overlap :
  RecursiveCharacterTextSplitter.split_text
    {| RecursiveCharacterTextSplitter.chunk_size := 10;
       RecursiveCharacterTextSplitter.chunk_overlap := 3;
       RecursiveCharacterTextSplitter.separators := [" "; ""] |}
    "aaa bbb ccc ddd eee fff"
  = ["aaa bbb"; "ccc ddd"; "eee fff"].
Proof. reflexivity. Qed.

Example splitter_with_overlap :
  RecursiveCharacterTextSplitter.split_text
    {| RecursiveCharacterTextSplitter.chunk_size := 10;
       RecursiveCharacterTextSplitter.chunk_overlap := 3;
       RecursiveCharacterTextSplitter.separators := [" "; ""] |}
    "a b c d e f g h i j k l m n"
  = ["a b c d e"; "e f g h i"; "i j k l m"; "m n"].
Proof. reflexivity. Qed.

Example precedents_rendered :
  @PrecedentSearchTool._run Sample.runtime Sample.embedder _
    MemoryCollection.collection Sample.store "payment overdue"
  = "Similar precedents found:" ++ PyStr.nl ++ PyStr.nl
    ++ "1. Document: d2.pdf" ++ PyStr.nl
    ++ "   Relevance: 1.00" ++ PyStr.nl
    ++ "   Content: demand for payment..." ++ PyStr.nl ++ PyStr.nl
    ++ "2. Document: d1.pdf" ++ PyStr.nl
    ++ "   Relevance: 0.20" ++ PyStr.nl
    ++ "   Content: the lease ends in June..." ++ PyStr.nl ++ PyStr.nl
    ++ "3. Document: d1.pdf" ++ PyStr.nl
    ++ "   Relevance: -1.00" ++ PyStr.nl
    ++ "   Content: notice of lease termination..." ++ PyStr.nl ++ PyStr.nl.
Proof. vm_compute. reflexivity. Qed.

(** ** Strings *)

Section string_facts.

Lemma prefix_cons_inv (c d : ascii) (a s : string) :
  String.prefix (String c a) (String d s) = true -> c = d /\ String.prefix a s = true.
Proof.
  simpl. destruct (ascii_dec c d) as [->|]; [auto | discriminate].
Qed.

Lemma prefix_app_r (a s t : string) :
  String.prefix a s = true -> String.prefix a (s ++ t) = true.
Proof.
  revert s. induction a as [|c a IH]; intros s Hp.
  { destruct (s ++ t); reflexivity. }
  destruct s as [|d s]; [discriminate|].
  apply prefix_cons_inv in Hp as [-> Hp]. simpl.
  destruct (ascii_dec d d); [auto | congruence].
Qed.

Lemma split_go_skip (sep s : string) (k : nat) :
  PyStr.split_go sep s k = PyStr.split_go sep (PyStr.drop k s) 0.
Proof.
  revert k. induction s as [|c s IH]; intros k.
  - destruct k; reflexivity.
  - destruct k as [|k]; [reflexivity|]. simpl. apply IH.
Qed.

(** The split, one separator at a time. *)
Lemma split_unfold (sep s : string) :
  sep <> "" ->
  PyStr.split sep s =
  match PyStr.partition sep s with
  | None => [s]
  | Some (before, after) => before :: PyStr.split sep after
  end.
Proof.
  intros Hsep. unfold PyStr.split. induction s as [|c s IH].
  - destruct sep; [congruence | reflexivity].
  - cbn [PyStr.split_go PyStr.partition].
    destruct (String.prefix sep (String c s)) eqn:Hp.
    + rewrite split_go_skip. destruct sep as [|d sep]; [congruence|].
      simpl. rewrite Nat.sub_0_r. reflexivity.
    + rewrite IH. destruct (PyStr.partition sep s) as [[b a]|]; reflexivity.
Qed.

Lemma split_head (sep s : string) :
  exists tl, PyStr.split sep s = MarkerSpec.up_to [sep] s :: tl.
Proof.
  unfold PyStr.split. induction s as [|c s [tl IH]].
  - exists []. reflexivity.
  - cbn [PyStr.split_go MarkerSpec.up_to existsb]. rewrite orb_false_r.
    destruct (String.prefix sep (String c s)); [eauto|].
    rewrite IH. eauto.
Qed.

Lemma contains_partition (sep s : string) :
  PyStr.contains sep s = false <-> PyStr.partition sep s = None.
Proof.
  induction s as [|c s IH]; cbn [PyStr.contains PyStr.partition].
  - destruct (String.prefix sep ""); simpl; split; congruence.
  - destruct (String.prefix sep (String c s)); simpl.
    + split; congruence.
    + rewrite IH. destruct (PyStr.partition sep s) as [[? ?]|]; split; congruence.
Qed.

Lemma contains_text_after (sep s : string) :
  PyStr.contains sep s = true -> exists rest, MarkerSpec.text_after sep s = Some rest.
Proof.
  intros Hc. unfold MarkerSpec.text_after.
  destruct (PyStr.partition sep s) as [[b a]|] eqn:Hp; [simpl; eauto|].
  apply contains_partition in Hp. congruence.
Qed.

Lemma split_absent (sep s : string) :
  sep <> "" -> PyStr.contains sep s = false -> PyStr.split sep s = [s].
Proof.
  intros Hsep Hc. rewrite split_unfold by assumption.
  apply contains_partition in Hc. rewrite Hc. reflexivity.
Qed.

(** [s.split(sep)[0]]: the text up to the first separator. *)
Lemma split_index_0 (sep s : string) :
  py_index (PyStr.split sep s) 0 = Ok (MarkerSpec.up_to [sep] s).
Proof.
  destruct (split_head sep s) as [tl ->]. reflexivity.
Qed.

(** [s.split(sep)[1]]: the text between the first separator and the next. *)
Lemma split_index_1 (sep s rest : string) :
  sep <> "" -> MarkerSpec.text_after sep s = Some rest ->
  py_index (PyStr.split sep s) 1 = Ok (MarkerSpec.up_to [sep] rest).
Proof.
  intros Hsep Ha. rewrite split_unfold by assumption.
  unfold MarkerSpec.text_after in Ha.
  destruct (PyStr.partition sep s) as [[b a]|]; [|discriminate].
  simpl in Ha. injection Ha as ->.
  destruct (split_head sep rest) as [tl ->]. reflexivity.
Qed.

Lemma up_to_is_prefix (stops : list string) (s : string) :
  exists t, s = MarkerSpec.up_to stops s ++ t.
Proof.
  induction s as [|c s [t IH]]; [exists ""; reflexivity|].
  cbn [MarkerSpec.up_to].
  destruct (existsb _ stops).
  - exists (String c s). reflexivity.
  - exists t. change (String c s = String c (MarkerSpec.up_to stops s ++ t)).
    congruence.
Qed.

Lemma prefix_up_to_inv (stops : list string) (a s : string) :
  String.prefix a (MarkerSpec.up_to stops s) = true -> String.prefix a s = true.
Proof.
  intros Hp. destruct (up_to_is_prefix stops s) as [t Ht].
  rewrite Ht. apply prefix_app_r, Hp.
Qed.

Lemma prefix_kept (p : ascii) (stop a s : string) :
  PyStr.char_free p a = true -> String.prefix a s = true ->
  String.prefix a (MarkerSpec.up_to [String p stop] s) = true.
Proof.
  revert s. induction a as [|c a IH]; intros s Hfree Hp.
  { destruct (MarkerSpec.up_to _ s); reflexivity. }
  destruct s as [|d s]; [discriminate|].
  apply prefix_cons_inv in Hp as [-> Hp].
  simpl in Hfree. apply andb_true_iff in Hfree as [Hne Hfree].
  apply negb_true_iff, Ascii.eqb_neq in Hne.
  cbn [MarkerSpec.up_to existsb String.prefix].
  destruct (ascii_dec p d) as [->|_]; [congruence|].
  simpl. destruct (ascii_dec d d); [auto | congruence].
Qed.

(** Cutting at one marker and then at another is cutting at the first of
    the two, when no occurrence of the second can run into the first. *)
Lemma up_to_twice (p : ascii) (stop a s : string) :
  PyStr.char_free p a = true ->
  MarkerSpec.up_to [a] (MarkerSpec.up_to [String p stop] s)
  = MarkerSpec.up_to [String p stop; a] s.
Proof.
  intros Hfree. induction s as [|c s IH]; [reflexivity|].
  cbn [MarkerSpec.up_to existsb]. rewrite !orb_false_r.
  destruct (String.prefix (String p stop) (String c s)) eqn:Hstop; [reflexivity|].
  cbn [orb].
  destruct (String.prefix a (String c s)) eqn:Ha.
  - pose proof (prefix_kept p stop a (String c s) Hfree Ha) as Hk.
    cbn [MarkerSpec.up_to existsb] in Hk. rewrite orb_false_r, Hstop in Hk.
    cbn [MarkerSpec.up_to existsb]. rewrite orb_false_r, Hk. reflexivity.
  - cbn [MarkerSpec.up_to existsb]. rewrite orb_false_r.
    destruct (String.prefix a (String c (MarkerSpec.up_to [String p stop] s))) eqn:Hk.
    + assert (String.prefix a (String c s) = true); [|congruence].
      apply (prefix_up_to_inv [String p stop]).
      cbn [MarkerSpec.up_to existsb]. rewrite orb_false_r, Hstop. exact Hk.
    + rewrite IH. reflexivity.
Qed.

End string_facts.

(** ** Classification *)

Section classification.
Context (LM : LanguageModel) (settings : Settings).

Lemma type_mapping_member (t : DocumentType) :
  DocumentProcessor.type_mapping !! DocumentType_value t = Some t.
Proof. destruct t; reflexivity. Qed.

Lemma type_mapping_outside (name : string) :
  (forall t, name <> DocumentType_value t) ->
  DocumentProcessor.type_mapping !! name = None.
Proof.
  intros Hout. unfold DocumentProcessor.type_mapping.
  rewrite !lookup_insert_ne.
  - apply lookup_empty.
  - intros E. exact (Hout RESPONSE (eq_sym E)).
  - intros E. exact (Hout COMPLAINT (eq_sym E)).
  - intros E. exact (Hout NOTICE (eq_sym E)).
  - intros E. exact (Hout CONTRACT (eq_sym E)).
  - intros E. exact (Hout LEGAL_LETTER (eq_sym E)).
Qed.

(** C5. Whatever the model call does, classification returns a document
    type: a call that fails gives [legal_letter]; a reply that, trimmed and
    lower-cased, is not the name of a member of the closed set gives
    [legal_letter]; and a reply that names a member gives that member. *)
Theorem classify_document_type_default (content : string) :
  let call :=
    llm_invoke (DocumentProcessor.llm settings)
      (DocumentProcessor.classification_prompt (PyStr.take 2000 content)) in
  (forall e, call = Raise e ->
     DocumentProcessor.classify_document_type settings content = LEGAL_LETTER)
  /\ (forall reply, call = Ok reply ->
        (forall t, PyStr.lower (PyStr.strip reply) <> DocumentType_value t) ->
        DocumentProcessor.classify_document_type settings content = LEGAL_LETTER)
  /\ (forall reply t, call = Ok reply ->
        PyStr.lower (PyStr.strip reply) = DocumentType_value t ->
        DocumentProcessor.classify_document_type settings content = t).
Proof.
  cbv zeta. unfold DocumentProcessor.classify_document_type.
  split; [|split].
  - intros e ->. reflexivity.
  - intros reply -> Hout. simpl. rewrite type_mapping_outside by exact Hout.
    reflexivity.
  - intros reply t -> Hin. simpl. rewrite Hin, type_mapping_member. reflexivity.
Qed.

End classification.

(** ** Extraction of parties and issues *)

Section extraction.
Context (LM : LanguageModel) (settings : Settings).

Lemma parse_parties_and_issues_fields (response_text : string) :
  DocumentProcessor.parse_parties_and_issues response_text
  = Ok (MarkerSpec.field ["PARTIES:"; "ISSUES:"] "PARTIES:" response_text,
        MarkerSpec.field ["ISSUES:"] "ISSUES:" response_text).
Proof.
  unfold DocumentProcessor.parse_parties_and_issues, MarkerSpec.field.
  destruct (PyStr.contains "PARTIES:" response_text) eqn:Hp.
  - destruct (contains_text_after _ _ Hp) as [rest Hrest]. rewrite Hrest.
    rewrite (split_index_1 _ _ rest) by (congruence || exact Hrest).
    cbn [rbind]. rewrite split_index_0. cbn [rbind].
    rewrite (up_to_twice "P" "ARTIES:" "ISSUES:") by reflexivity.
    destruct (PyStr.contains "ISSUES:" response_text) eqn:Hi.
    + destruct (contains_text_after _ _ Hi) as [rest' Hrest']. rewrite Hrest'.
      rewrite (split_index_1 _ _ rest') by (congruence || exact Hrest').
      reflexivity.
    + apply contains_partition in Hi. unfold MarkerSpec.text_after. rewrite Hi.
      reflexivity.
  - pose proof Hp as Hp'. apply contains_partition in Hp'.
    unfold MarkerSpec.text_after at 1. rewrite Hp'. cbn [rbind option_map].
    destruct (PyStr.contains "ISSUES:" response_text) eqn:Hi.
    + destruct (contains_text_after _ _ Hi) as [rest' Hrest']. rewrite Hrest'.
      rewrite (split_index_1 _ _ rest') by (congruence || exact Hrest').
      reflexivity.
    + apply contains_partition in Hi. unfold MarkerSpec.text_after. rewrite Hi.
      reflexivity.
Qed.

(** C6, as amended. Extraction never fails: a failed call gives two empty
    lists, and a reply gives, for PARTIES, the comma-separated items of the
    text after the first [PARTIES:] up to the next [PARTIES:] or [ISSUES:]
    marker or the end, and for ISSUES, the items of the text after the
    first [ISSUES:] up to the next [ISSUES:] marker or the end (a later
    [PARTIES:] marker does not end it); a missing marker gives the empty
    list for its field. *)
Theorem extract_parties_and_issues_fields (content : string) :
  DocumentProcessor.extract_parties_and_issues settings content
  = match llm_invoke (DocumentProcessor.llm settings)
            (DocumentProcessor.extraction_prompt (PyStr.take 2000 content)) with
    | Ok reply =>
        (MarkerSpec.field ["PARTIES:"; "ISSUES:"] "PARTIES:" reply,
         MarkerSpec.field ["ISSUES:"] "ISSUES:" reply)
    | Raise _ => ([], [])
    end.
Proof.
  unfold DocumentProcessor.extract_parties_and_issues.
  destruct (llm_invoke _ _) as [reply|e]; [|reflexivity].
  cbn [rbind]. rewrite parse_parties_and_issues_fields. reflexivity.
Qed.

End extraction.

(** C6, as stated, fails: in a reply that gives the issues first, the issues
    run past the [PARTIES:] marker to the end of the reply. *)
Lemma extract_issues_past_parties_marker :
  let reply := "ISSUES: fraud PARTIES: Acme" in
  let issues :=
    snd (@DocumentProcessor.extract_parties_and_issues
           (Sample.constant_llm (Ok reply)) default_settings "any text") in
  issues = ["fraud PARTIES: Acme"]
  /\ MarkerSpec.field ["PARTIES:"; "ISSUES:"] "ISSUES:" reply = ["fraud"]
  /\ issues <> MarkerSpec.field ["PARTIES:"; "ISSUES:"] "ISSUES:" reply.
Proof.
  cbv zeta. split; [reflexivity | split; [reflexivity | discriminate]].
Qed.

(** ** The evaluate stage *)

Section evaluation.
Context (RT : Runtime) (LM : LanguageModel) (settings : Settings).

Lemma section_between (p : ascii) (stop next text rest : string) :
  PyStr.char_free p next = true ->
  MarkerSpec.text_after (String p stop) text = Some rest ->
  (let* after := py_index (PyStr.split (String p stop) text) 1 in
   py_index (PyStr.split next after) 0)
  = Ok (MarkerSpec.up_to [String p stop; next] rest).
Proof.
  intros Hfree Hrest.
  rewrite (split_index_1 _ _ rest) by (congruence || exact Hrest).
  cbn [rbind]. rewrite split_index_0, up_to_twice by exact Hfree. reflexivity.
Qed.

Lemma parse_evaluation_total (eval_text : string) :
  LegalAgentSystem.parse_evaluation eval_text
  = Ok {| LegalAgentSystem.confidence := EvaluationSpec.confidence_of eval_text;
          LegalAgentSystem.reasoning := EvaluationSpec.reasoning_of eval_text;
          LegalAgentSystem.key_points := EvaluationSpec.key_points_of eval_text |}.
Proof.
  unfold LegalAgentSystem.parse_evaluation.
  assert (Hc : (if PyStr.contains "CONFIDENCE:" eval_text
                then try_except (LegalAgentSystem.parse_confidence eval_text) (1 # 2)
                else 1 # 2) = EvaluationSpec.confidence_of eval_text).
  { unfold EvaluationSpec.confidence_of. destruct (PyStr.contains "CONFIDENCE:" eval_text) eqn:Hc.
    - destruct (contains_text_after _ _ Hc) as [rest Hrest]. rewrite Hrest.
      unfold LegalAgentSystem.parse_confidence, LegalAgentSystem.conf_section.
      rewrite (section_between "C" "ONFIDENCE:" "REASONING:" _ rest)
        by (reflexivity || exact Hrest).
      cbn [rbind]. destruct (py_float _); reflexivity.
    - apply contains_partition in Hc. unfold MarkerSpec.text_after. rewrite Hc.
      reflexivity. }
  rewrite Hc. clear Hc.
  assert (Hr : (if PyStr.contains "REASONING:" eval_text
                then let* section := LegalAgentSystem.reasoning_section eval_text in
                     Ok (PyStr.strip section)
                else Ok "Standard evaluation") = Ok (EvaluationSpec.reasoning_of eval_text)).
  { unfold EvaluationSpec.reasoning_of. destruct (PyStr.contains "REASONING:" eval_text) eqn:Hr.
    - destruct (contains_text_after _ _ Hr) as [rest Hrest]. rewrite Hrest.
      unfold LegalAgentSystem.reasoning_section.
      rewrite (section_between "R" "EASONING:" "KEY_POINTS:" _ rest)
        by (reflexivity || exact Hrest).
      reflexivity.
    - apply contains_partition in Hr. unfold MarkerSpec.text_after. rewrite Hr.
      reflexivity. }
  rewrite Hr. clear Hr. cbn [rbind].
  assert (Hk : (if PyStr.contains "KEY_POINTS:" eval_text
                then let* section := LegalAgentSystem.points_section eval_text in
                     Ok (PyStr.comma_items section)
                else Ok []) = Ok (EvaluationSpec.key_points_of eval_text)).
  { unfold EvaluationSpec.key_points_of. destruct (PyStr.contains "KEY_POINTS:" eval_text) eqn:Hk.
    - destruct (contains_text_after _ _ Hk) as [rest Hrest]. rewrite Hrest.
      unfold LegalAgentSystem.points_section.
      rewrite (split_index_1 _ _ rest) by (congruence || exact Hrest).
      reflexivity.
    - apply contains_partition in Hk. unfold MarkerSpec.text_after. rewrite Hk.
      reflexivity. }
  rewrite Hk. reflexivity.
Qed.

(** C3. For every reply of the model to the evaluation prompt, parsing
    succeeds and each field has its documented default: the confidence is
    the number between [CONFIDENCE:] and the next marker, and 0.5 when the
    marker is missing or the text is not a number; the reasoning is the
    trimmed text after [REASONING:], and ["Standard evaluation"] when the
    marker is missing; the key points are the comma-separated items after
    [KEY_POINTS:], and the empty list when the marker is missing, whatever
    the other two sections give. *)
Theorem evaluate_response_quality_defaults
    (response : string) (document : LegalDocument.t) (eval_text : string) :
  llm_invoke (LegalAgentSystem.llm settings)
    (LegalAgentSystem.evaluation_prompt
       (PyStr.join ", " (LegalDocument.key_issues document))
       (PyStr.join ", " (LegalDocument.parties_involved document))
       response) = Ok eval_text ->
  let ev := LegalAgentSystem._evaluate_response_quality settings response document in
  LegalAgentSystem.confidence ev =
    match MarkerSpec.text_after "CONFIDENCE:" eval_text with
    | Some rest =>
        match py_float (PyStr.strip (MarkerSpec.up_to ["CONFIDENCE:"; "REASONING:"] rest)) with
        | Some q => q
        | None => 1 # 2
        end
    | None => 1 # 2
    end
  /\ LegalAgentSystem.reasoning ev =
    match MarkerSpec.text_after "REASONING:" eval_text with
    | Some rest => PyStr.strip (MarkerSpec.up_to ["REASONING:"; "KEY_POINTS:"] rest)
    | None => "Standard evaluation"
    end
  /\ LegalAgentSystem.key_points ev =
    match MarkerSpec.text_after "KEY_POINTS:" eval_text with
    | Some rest => PyStr.comma_items (MarkerSpec.up_to ["KEY_POINTS:"] rest)
    | None => []
    end
  /\ (PyStr.contains "CONFIDENCE:" eval_text = false -> LegalAgentSystem.confidence ev = 1 # 2)
  /\ (PyStr.contains "REASONING:" eval_text = false ->
      LegalAgentSystem.reasoning ev = "Standard evaluation")
  /\ (PyStr.contains "KEY_POINTS:" eval_text = false -> LegalAgentSystem.key_points ev = []).
Proof.
  intros Hcall ev. subst ev. unfold LegalAgentSystem._evaluate_response_quality.
  rewrite Hcall. cbn [rbind]. rewrite parse_evaluation_total. cbn.
  repeat split; try reflexivity.
  - intros Hc. apply contains_partition in Hc.
    unfold EvaluationSpec.confidence_of, MarkerSpec.text_after. rewrite Hc. reflexivity.
  - intros Hr. apply contains_partition in Hr.
    unfold EvaluationSpec.reasoning_of, MarkerSpec.text_after. rewrite Hr. reflexivity.
  - intros Hk. apply contains_partition in Hk.
    unfold EvaluationSpec.key_points_of, MarkerSpec.text_after. rewrite Hk. reflexivity.
Qed.

End evaluation.

(** ** The generation pipeline *)

Section pipeline.
Context (RT : Runtime) (LM : LanguageModel) (EM : Embedder)
        {C : Type} (CO : Collection C) (settings : Settings).

Lemma new_accepts (document_id response_type suggested : string) (q : Q)
    (reasoning : string) (key_points : list string) (tone : string) :
  (0 <= q)%Q -> (q <= 1)%Q ->
  LegalResponse.new document_id response_type suggested q reasoning key_points tone
  = Ok {| LegalResponse.document_id := document_id;
          LegalResponse.response_type := response_type;
          LegalResponse.suggested_response := suggested;
          LegalResponse.confidence_score := q;
          LegalResponse.reasoning := reasoning;
          LegalResponse.key_points := key_points;
          LegalResponse.tone := tone;
          LegalResponse.created_at := now |}.
Proof.
  intros H0 H1. unfold LegalResponse.new.
  apply Qle_bool_iff in H0, H1. rewrite H0, H1. reflexivity.
Qed.

Lemma new_rejects (document_id response_type suggested : string) (q : Q)
    (reasoning : string) (key_points : list string) (tone : string) :
  ~ ((0 <= q)%Q /\ (q <= 1)%Q) ->
  LegalResponse.new document_id response_type suggested q reasoning key_points tone
  = Raise ValidationError.
Proof.
  intros Hout. unfold LegalResponse.new.
  destruct (Qle_bool 0 q) eqn:H0; [|reflexivity].
  destruct (Qle_bool q 1) eqn:H1; [|reflexivity].
  exfalso. apply Hout. split; apply Qle_bool_iff; assumption.
Qed.

Lemma new_in_range (document_id response_type suggested : string) (q : Q)
    (reasoning : string) (key_points : list string) (tone : string)
    (r : LegalResponse.t) :
  LegalResponse.new document_id response_type suggested q reasoning key_points tone = Ok r ->
  (0 <= LegalResponse.confidence_score r)%Q /\ (LegalResponse.confidence_score r <= 1)%Q.
Proof.
  unfold LegalResponse.new.
  destruct (Qle_bool 0 q) eqn:H0; [|discriminate].
  destruct (Qle_bool q 1) eqn:H1; [|discriminate].
  intros [= <-]. simpl. split; apply Qle_bool_iff; assumption.
Qed.

(** The error-tagged response is always built. *)
Lemma error_response_built (document : LegalDocument.t) (response_type : string) :
  LegalAgentSystem.error_response document response_type
  = Ok {| LegalResponse.document_id := LegalDocument.id document;
          LegalResponse.response_type := response_type;
          LegalResponse.suggested_response := "Error generating response. Please try again.";
          LegalResponse.confidence_score := 0;
          LegalResponse.reasoning := "Error occurred during response generation";
          LegalResponse.key_points := [];
          LegalResponse.tone := "error";
          LegalResponse.created_at := now |}.
Proof. reflexivity. Qed.

(** C2. A request for a response always completes with a response: either
    the one assembled from the text of the generate stage and the fields of
    the evaluate stage, with the requested type as its tone, or the
    error-tagged one, with confidence 0 and tone ["error"]. *)
Theorem generate_legal_response_completes
    (vector_store : C) (document : LegalDocument.t) (response_type : string) :
  exists r,
    LegalAgentSystem.generate_legal_response settings vector_store document response_type
    = Ok r
    /\ ((exists suggested,
           LegalAgentSystem.generate_stage settings vector_store document response_type
           = Ok suggested
           /\ let ev := LegalAgentSystem._evaluate_response_quality settings suggested document in
              r = {| LegalResponse.document_id := LegalDocument.id document;
                     LegalResponse.response_type := response_type;
                     LegalResponse.suggested_response := suggested;
                     LegalResponse.confidence_score := LegalAgentSystem.confidence ev;
                     LegalResponse.reasoning := LegalAgentSystem.reasoning ev;
                     LegalResponse.key_points := LegalAgentSystem.key_points ev;
                     LegalResponse.tone := response_type;
                     LegalResponse.created_at := now |})
        \/ r = {| LegalResponse.document_id := LegalDocument.id document;
                  LegalResponse.response_type := response_type;
                  LegalResponse.suggested_response :=
                    "Error generating response. Please try again.";
                  LegalResponse.confidence_score := 0;
                  LegalResponse.reasoning := "Error occurred during response generation";
                  LegalResponse.key_points := [];
                  LegalResponse.tone := "error";
                  LegalResponse.created_at := now |}).
Proof.
  unfold LegalAgentSystem.generate_legal_response,
    LegalAgentSystem.generate_legal_response_body.
  destruct (LegalAgentSystem.generate_stage settings vector_store document response_type)
    as [suggested|e] eqn:Hgen; cbn [rbind].
  - destruct (LegalResponse.new _ _ _ _ _ _ _) as [r|e] eqn:Hnew.
    + exists r. split; [reflexivity|]. left. exists suggested. split; [reflexivity|].
      cbv zeta. revert Hnew. unfold LegalResponse.new.
      destruct (_ && _); [|discriminate]. intros [= <-]. reflexivity.
    + rewrite error_response_built. eexists. split; [reflexivity|]. right. reflexivity.
  - rewrite error_response_built. eexists. split; [reflexivity|]. right. reflexivity.
Qed.

(** C9. The confidence of every response the pipeline returns lies in
    [0,1]; and when the evaluate stage reads a confidence outside [0,1],
    the response cannot be built and the pipeline returns the error-tagged
    response, with confidence 0, instead of a clamped value. *)
Theorem confidence_score_in_unit_interval
    (vector_store : C) (document : LegalDocument.t) (response_type : string) :
  (exists r,
     LegalAgentSystem.generate_legal_response settings vector_store document response_type
     = Ok r
     /\ (0 <= LegalResponse.confidence_score r)%Q
     /\ (LegalResponse.confidence_score r <= 1)%Q)
  /\ (forall suggested,
        LegalAgentSystem.generate_stage settings vector_store document response_type
        = Ok suggested ->
        let q := LegalAgentSystem.confidence
                   (LegalAgentSystem._evaluate_response_quality settings suggested document) in
        ~ ((0 <= q)%Q /\ (q <= 1)%Q) ->
        LegalAgentSystem.generate_legal_response settings vector_store document response_type
        = Ok {| LegalResponse.document_id := LegalDocument.id document;
                LegalResponse.response_type := response_type;
                LegalResponse.suggested_response :=
                  "Error generating response. Please try again.";
                LegalResponse.confidence_score := 0;
                LegalResponse.reasoning := "Error occurred during response generation";
                LegalResponse.key_points := [];
                LegalResponse.tone := "error";
                LegalResponse.created_at := now |}).
Proof.
  split.
  - unfold LegalAgentSystem.generate_legal_response.
    destruct (LegalAgentSystem.generate_legal_response_body _ _ _ _) as [r|e] eqn:Hbody.
    + exists r. split; [reflexivity|].
      unfold LegalAgentSystem.generate_legal_response_body in Hbody.
      destruct (LegalAgentSystem.generate_stage _ _ _ _); [|discriminate].
      cbn [rbind] in Hbody. exact (new_in_range _ _ _ _ _ _ _ _ Hbody).
    + rewrite error_response_built. eexists. split; [reflexivity|].
      simpl. split; discriminate.
  - intros suggested Hgen q Hout.
    unfold LegalAgentSystem.generate_legal_response,
      LegalAgentSystem.generate_legal_response_body.
    rewrite Hgen. cbn [rbind]. rewrite new_rejects by exact Hout.
    apply error_response_built.
Qed.

End pipeline.

(** ** Document not found *)

Section not_found.
Context (RT : Runtime) (LM : LanguageModel) (EM : Embedder)
        {C : Type} (CO : Collection C) (settings : Settings).

Lemma no_chunks_no_response (vector_store : C) (document_id response_type : string) :
  ChromaVectorStore.get_document_chunks vector_store document_id = [] ->
  LegalAISystem.generate_response_for_document settings vector_store document_id
    response_type = None.
Proof.
  intros Hnone. unfold LegalAISystem.generate_response_for_document,
    LegalAISystem.generate_response_for_document_body.
  rewrite Hnone. reflexivity.
Qed.

(** C7. When the index answers the lookup of a document id with no chunk,
    the request for a response returns [None], and no response is
    generated: the body of the call returns it in the ordinary way, without
    raising. *)
Theorem generate_response_for_document_not_found
    (vector_store : C) (document_id response_type : string) (r : GetResult) :
  coll_get vector_store document_id = Ok r ->
  g_ids r = [] ->
  LegalAISystem.generate_response_for_document_body settings vector_store document_id
    response_type = Ok None
  /\ LegalAISystem.generate_response_for_document settings vector_store document_id
       response_type = None.
Proof.
  intros Hget Hids.
  assert (Hnone : ChromaVectorStore.get_document_chunks vector_store document_id = []).
  { unfold ChromaVectorStore.get_document_chunks,
      ChromaVectorStore.get_document_chunks_body.
    rewrite Hget. cbn [rbind]. rewrite Hids. reflexivity. }
  split; [|apply no_chunks_no_response, Hnone].
  unfold LegalAISystem.generate_response_for_document_body. rewrite Hnone.
  reflexivity.
Qed.

End not_found.

(** ** Deleting a document *)

Section deletion.
Import MemoryCollection.

Lemma filter_out_twice (document_id : string) (c : list Row) :
  List.filter (fun r => negb (of_document document_id r))
    (List.filter (fun r => negb (of_document document_id r)) c)
  = List.filter (fun r => negb (of_document document_id r)) c.
Proof.
  induction c as [|r c IH]; [reflexivity|]. simpl.
  destruct (of_document document_id r) eqn:Hr; simpl; [exact IH|].
  rewrite Hr. simpl. f_equal. exact IH.
Qed.

Lemma filter_after_delete (document_id : string) (c : list Row) :
  List.filter (of_document document_id)
    (List.filter (fun r => negb (of_document document_id r)) c) = [].
Proof.
  induction c as [|r c IH]; [reflexivity|]. simpl.
  destruct (of_document document_id r) eqn:Hr; simpl; [exact IH|].
  rewrite Hr. exact IH.
Qed.

Lemma filter_out_absent (document_id : string) (c : list Row) :
  List.filter (of_document document_id) c = [] ->
  List.filter (fun r => negb (of_document document_id r)) c = c.
Proof.
  induction c as [|r c IH]; [reflexivity|]. simpl.
  destruct (of_document document_id r); [discriminate|].
  intros Hc. simpl. f_equal. exact (IH Hc).
Qed.

(** C8. On the index held in memory: deleting a document succeeds; after
    it the lookup of the same id returns the empty list; deleting again
    succeeds and leaves the index as it is; and deleting an id that has no
    rows succeeds and removes nothing. *)
Theorem delete_document_idempotent (c : list Row) (document_id : string) :
  let c1 := snd (ChromaVectorStore.delete_document c document_id) in
  fst (ChromaVectorStore.delete_document c document_id) = true
  /\ ChromaVectorStore.get_document_chunks c1 document_id = []
  /\ ChromaVectorStore.delete_document c1 document_id = (true, c1)
  /\ (List.filter (of_document document_id) c = [] ->
      ChromaVectorStore.delete_document c document_id = (true, c)).
Proof.
  cbv zeta. unfold ChromaVectorStore.delete_document,
    ChromaVectorStore.get_document_chunks, ChromaVectorStore.get_document_chunks_body.
  cbn [coll_delete coll_get collection delete get fst snd rbind g_ids].
  repeat split.
  - rewrite filter_after_delete. reflexivity.
  - rewrite filter_out_twice. reflexivity.
  - intros Habsent. rewrite filter_out_absent by exact Habsent. reflexivity.
Qed.

End deletion.

(** ** Embeddings written back by [add_chunks] *)

Section write_back.
Context (EM : Embedder) {C : Type} (CO : Collection C).

Lemma written_trans (a b c : DocumentChunk.t) :
  written a b -> written b c -> written a c.
Proof.
  intros Hab Hbc. destruct Hbc as [|v Hnone Henc]; [exact Hab|].
  destruct Hab as [|w Hnone' Henc']; [|discriminate].
  constructor; assumption.
Qed.

Lemma add_chunks_loop_writes (chunks : list loc) :
  forall (h h' : heap) (b b' : Batch),
    ChromaVectorStore.add_chunks_loop h chunks b = (Ok b', h') ->
    (forall l chunk, h !! l = Some chunk ->
       exists chunk', h' !! l = Some chunk' /\ written chunk chunk')
    /\ (forall l, In l chunks ->
          exists chunk', h' !! l = Some chunk'
                         /\ DocumentChunk.embedding chunk' <> None)
    /\ (forall l, ~ In l chunks -> h' !! l = h !! l).
Proof.
  induction chunks as [|l0 chunks IH]; intros h h' b b' Hloop.
  - injection Hloop as _ <-. repeat split.
    + intros l chunk Hl. exists chunk. split; [exact Hl | constructor].
    + intros l [].
  - cbn [ChromaVectorStore.add_chunks_loop] in Hloop.
    destruct (h !! l0) as [chunk0|] eqn:Hl0; [|discriminate].
    destruct (DocumentChunk.embedding chunk0) as [v|] eqn:Hemb.
    + destruct (IH _ _ _ _ Hloop) as (Hall & Hin & Hout). repeat split.
      * exact Hall.
      * intros l [<-|Hl]; [|exact (Hin l Hl)].
        destruct (Hall _ _ Hl0) as (chunk' & Hl' & Hw).
        exists chunk'. split; [exact Hl'|].
        destruct Hw; [congruence | discriminate].
      * intros l Hl. apply Hout. intros Hl'. apply Hl. right. exact Hl'.
    + unfold ChromaVectorStore._generate_embedding in Hloop.
      destruct (encode (DocumentChunk.content chunk0)) as [v|e] eqn:Henc;
        [|discriminate].
      destruct (IH _ _ _ _ Hloop) as (Hall & Hin & Hout). repeat split.
      * intros l chunk Hl. destruct (decide (l = l0)) as [->|Hne].
        -- assert (chunk = chunk0) as -> by congruence.
           destruct (Hall l0 (DocumentChunk.set_embedding chunk0 v)) as (chunk' & Hl' & Hw).
           { apply lookup_insert_eq. }
           exists chunk'. split; [exact Hl'|].
           apply (written_trans _ (DocumentChunk.set_embedding chunk0 v));
             [constructor; assumption | exact Hw].
        -- apply Hall. rewrite lookup_insert_ne by congruence. exact Hl.
      * intros l [<-|Hl]; [|exact (Hin l Hl)].
        destruct (Hall l0 (DocumentChunk.set_embedding chunk0 v)) as (chunk' & Hl' & Hw).
        { apply lookup_insert_eq. }
        exists chunk'. split; [exact Hl'|].
        destruct Hw; simpl; discriminate.
      * intros l Hl. rewrite Hout by (intros Hl'; apply Hl; right; exact Hl').
        apply lookup_insert_ne. intros ->. apply Hl. left. reflexivity.
Qed.

(** C10. After a call of [add_chunks] that reports success, every chunk
    object of the caller's list carries an embedding: an object that came
    with one is as it was, an object that came without carries the embedding
    of its content, written into the object itself; objects outside the list
    are untouched. *)
Theorem add_chunks_writes_embeddings
    (h h' : heap) (c c' : C) (chunks : list loc) :
  ChromaVectorStore.add_chunks h c chunks = (true, h', c') ->
  (forall l, In l chunks ->
     exists chunk chunk',
       h !! l = Some chunk /\ h' !! l = Some chunk'
       /\ DocumentChunk.embedding chunk' <> None
       /\ (DocumentChunk.embedding chunk <> None -> chunk' = chunk)
       /\ (DocumentChunk.embedding chunk = None ->
           exists v, encode (DocumentChunk.content chunk) = Ok v
                     /\ chunk' = DocumentChunk.set_embedding chunk v))
  /\ (forall l, ~ In l chunks -> h' !! l = h !! l).
Proof.
  unfold ChromaVectorStore.add_chunks. intros Hadd.
  destruct (ChromaVectorStore.add_chunks_loop h chunks ChromaVectorStore.empty_batch)
    as [[b|e] h1] eqn:Hloop; [|discriminate].
  destruct (coll_add c b) as [[u|e] c1]; [|discriminate].
  injection Hadd as <- _.
  destruct (add_chunks_loop_writes _ _ _ _ _ Hloop) as (Hall & Hin & Hout).
  split; [|exact Hout].
  intros l Hl. destruct (Hin l Hl) as (chunk' & Hl' & Hemb').
  destruct (h !! l) as [chunk|] eqn:Hhl.
  - destruct (Hall _ _ Hhl) as (chunk'' & Hl'' & Hw).
    assert (chunk'' = chunk') as -> by congruence.
    exists chunk, chunk'. repeat split; try assumption.
    + intros Hsome. destruct Hw; [reflexivity | contradiction].
    + intros Hnone. destruct Hw as [|v Hn Henc]; [contradiction|].
      exists v. split; [exact Henc | reflexivity].
  - exfalso. clear -Hloop Hl Hhl.
    revert h h1 b Hloop Hhl. generalize ChromaVectorStore.empty_batch.
    induction chunks as [|l0 chunks IH]; intros b0 h h1 b Hloop Hhl; [destruct Hl|].
    cbn [ChromaVectorStore.add_chunks_loop] in Hloop.
    destruct Hl as [->|Hl].
    + rewrite Hhl in Hloop. discriminate.
    + destruct (h !! l0) as [chunk0|] eqn:Hl0; [|discriminate].
      destruct (DocumentChunk.embedding chunk0); [exact (IH Hl _ _ _ _ Hloop Hhl)|].
      destruct (ChromaVectorStore._generate_embedding _); [|discriminate].
      apply (IH Hl _ _ _ _ Hloop).
      rewrite lookup_insert_ne; [exact Hhl|]. intros ->. congruence.
Qed.

End write_back.

(** ** Similarity search *)

Section similarity.
Context (EM : Embedder) {C : Type} (CO : Collection C).

Lemma is_ascending_tail (a : Q) (l : list Q) :
  is_ascending (a :: l) = true -> is_ascending l = true.
Proof.
  destruct l as [|b l]; [reflexivity|]. cbn [is_ascending].
  intros H. apply andb_true_iff in H. apply H.
Qed.

Lemma is_ascending_firstn (k : nat) (l : list Q) :
  is_ascending l = true -> is_ascending (firstn k l) = true.
Proof.
  revert l. induction k as [|k IH]; intros l Hl; [reflexivity|].
  destruct l as [|a l]; [reflexivity|].
  pose proof (IH l (is_ascending_tail a l Hl)) as Hk.
  destruct l as [|b l]; [destruct k; reflexivity|].
  destruct k as [|k]; [reflexivity|].
  cbn [is_ascending] in Hl. apply andb_true_iff in Hl as [Hab _].
  change (firstn (S (S k)) (a :: b :: l)) with (a :: firstn (S k) (b :: l)).
  change (firstn (S k) (b :: l)) with (b :: firstn k l) in *.
  cbn [is_ascending]. rewrite Hab. exact Hk.
Qed.

Lemma to_similarity_antitone (a b : Q) :
  Qle_bool a b = true -> Qle_bool (to_similarity b) (to_similarity a) = true.
Proof.
  rewrite !Qle_bool_iff. intros Hab. unfold to_similarity, Qminus.
  apply Qplus_le_r, Qopp_le_compat, Hab.
Qed.

Lemma descending_similarities (l : list Q) :
  is_ascending l = true -> is_descending (List.map to_similarity l) = true.
Proof.
  induction l as [|a l IH]; [reflexivity|].
  intros Hl. pose proof (IH (is_ascending_tail a l Hl)) as Hd.
  destruct l as [|b l]; [reflexivity|].
  cbn [is_ascending] in Hl. apply andb_true_iff in Hl as [Hab _].
  change (List.map to_similarity (a :: b :: l))
    with (to_similarity a :: List.map to_similarity (b :: l)).
  change (List.map to_similarity (b :: l))
    with (to_similarity b :: List.map to_similarity l) in *.
  cbn [is_descending]. rewrite (to_similarity_antitone a b Hab). exact Hd.
Qed.

(** No clamping: a similarity is in [0,1] exactly when the distance is. *)
Lemma in_unit_to_similarity (d : Q) : in_unit (to_similarity d) = in_unit d.
Proof.
  unfold in_unit, to_similarity.
  assert (H0 : Qle_bool 0 (1 - d) = Qle_bool d 1).
  { apply eq_true_iff_eq. rewrite !Qle_bool_iff. unfold Qle. simpl. lia. }
  assert (H1 : Qle_bool (1 - d) 1 = Qle_bool 0 d).
  { apply eq_true_iff_eq. rewrite !Qle_bool_iff. unfold Qle. simpl. lia. }
  rewrite H0, H1. apply andb_comm.
Qed.

Lemma search_row_score (r : QueryResult) (i : nat) (x : SearchResult.t) :
  ChromaVectorStore.search_row r i = Ok x ->
  exists d, nth_error (nearest_distances r) i = Some d
            /\ SearchResult.similarity_score x = to_similarity d.
Proof.
  unfold ChromaVectorStore.search_row, nearest_distances, py_index.
  destruct (nth_error (q_ids r) 0); [|discriminate]. cbn [rbind].
  destruct (nth_error _ i); [|discriminate]. cbn [rbind].
  destruct (nth_error (q_metadatas r) 0); [|discriminate]. cbn [rbind].
  destruct (nth_error _ i); [|discriminate]. cbn [rbind].
  destruct (dict_item _ _); [|discriminate]. cbn [rbind].
  destruct (nth_error (q_documents r) 0); [|discriminate]. cbn [rbind].
  destruct (nth_error _ i); [|discriminate]. cbn [rbind].
  destruct (q_distances r) as [|ds0 rest]; [discriminate|]. cbn [nth_error rbind].
  destruct (nth_error ds0 i) as [d|]; [|discriminate]. cbn [rbind].
  destruct (as_str _); [|discriminate]. cbn [rbind].
  intros [= <-]. exists d. split; reflexivity.
Qed.

Lemma skipn_nth_error (A : Type) (l : list A) (i : nat) (a : A) :
  nth_error l i = Some a -> skipn i l = a :: skipn (S i) l.
Proof.
  revert l. induction i as [|i IH]; intros [|b l] Hi; try discriminate.
  - injection Hi as ->. reflexivity.
  - simpl in Hi. change (skipn (S i) (b :: l)) with (skipn i l).
    rewrite (IH l Hi). reflexivity.
Qed.

Lemma search_rows_scores (r : QueryResult) (n : nat) :
  forall (a : nat) (out : list SearchResult.t),
    mapM (ChromaVectorStore.search_row r) (seq a n) = Ok out ->
    scores out = List.map to_similarity (firstn n (skipn a (nearest_distances r))).
Proof.
  induction n as [|n IH]; intros a out Hout.
  - injection Hout as <-. reflexivity.
  - cbn [seq mapM] in Hout.
    destruct (ChromaVectorStore.search_row r a) as [x|] eqn:Hx; [|discriminate].
    cbn [rbind] in Hout.
    destruct (mapM _ (seq (S a) n)) as [xs|] eqn:Hxs; [|discriminate].
    injection Hout as <-.
    destruct (search_row_score _ _ _ Hx) as (d & Hd & Hscore).
    rewrite (skipn_nth_error _ _ _ _ Hd).
    cbn [firstn List.map scores]. rewrite Hscore. f_equal. apply (IH _ _ Hxs).
Qed.

Lemma search_similar_shape
    (c : C) (query : string) (n_results : Z) (emb : list Q) (r : QueryResult) :
  encode query = Ok emb ->
  coll_query c [emb] n_results = Ok r ->
  exists k,
    scores (ChromaVectorStore.search_similar c query n_results)
    = List.map to_similarity (firstn k (nearest_distances r)).
Proof.
  intros Henc Hquery. unfold ChromaVectorStore.search_similar,
    ChromaVectorStore.search_similar_body, ChromaVectorStore._generate_embedding.
  rewrite Henc. cbn [rbind]. rewrite Hquery. cbn [rbind].
  destruct (py_index (q_ids r) 0) as [ids0|]; cbn [rbind try_except];
    [|exists 0%nat; reflexivity].
  destruct (mapM _ _) as [rows|] eqn:Hrows; cbn [try_except];
    [|exists 0%nat; reflexivity].
  exists (length ids0). apply (search_rows_scores _ _ 0%nat _ Hrows).
Qed.

(** C1, as amended. The results come in the order the index reports them,
    each with the similarity [1 - distance] and no clamping.  So when the
    index reports the nearest first, the scores are in descending order; and
    the scores lie in [0,1] exactly when the reported distances do. *)
Theorem search_similar_scores
    (c : C) (query : string) (n_results : Z) (emb : list Q) (r : QueryResult) :
  encode query = Ok emb ->
  coll_query c [emb] n_results = Ok r ->
  let out := ChromaVectorStore.search_similar c query n_results in
  exists k,
    scores out = List.map to_similarity (firstn k (nearest_distances r))
    /\ (is_ascending (nearest_distances r) = true -> is_descending (scores out) = true)
    /\ forallb in_unit (scores out) = forallb in_unit (firstn k (nearest_distances r)).
Proof.
  intros Henc Hquery out.
  destruct (search_similar_shape c query n_results emb r Henc Hquery) as [k Hk].
  fold out in Hk. exists k. split; [exact Hk|]. rewrite Hk. split.
  - intros Hasc. apply descending_similarities, is_ascending_firstn, Hasc.
  - clear Hk. induction (firstn k (nearest_distances r)) as [|d l IH]; [reflexivity|].
    cbn [List.map forallb]. rewrite in_unit_to_similarity, IH. reflexivity.
Qed.

End similarity.

(** *** The index held in memory reports the nearest first *)

Section memory_index.
Import MemoryCollection.

Lemma Qle_bool_total (a b : Q) : Qle_bool a b = false -> Qle_bool b a = true.
Proof.
  intros Hab. apply Qle_bool_iff, Qlt_le_weak, Qnot_le_lt.
  intros Hle. apply Qle_bool_iff in Hle. congruence.
Qed.

Lemma is_ascending_cons (a : Q) (l : list Q) :
  is_ascending (a :: l)
  = match l with [] => true | b :: _ => Qle_bool a b end && is_ascending l.
Proof. destruct l; reflexivity. Qed.

Lemma insert_by_ascending (x : Q * Row) (l : list (Q * Row)) :
  is_ascending (List.map fst l) = true ->
  is_ascending (List.map fst (insert_by x l)) = true.
Proof.
  induction l as [|y l IH]; intros Hl; [reflexivity|].
  cbn [insert_by]. destruct (Qle_bool (fst y) (fst x)) eqn:Hyx.
  - cbn [List.map] in *. rewrite is_ascending_cons in Hl |- *.
    apply andb_true_iff in Hl as [Hhead Htail].
    rewrite (IH Htail), andb_true_r.
    destruct l as [|z l]; [exact Hyx|].
    cbn [insert_by]. destruct (Qle_bool (fst z) (fst x)); [exact Hhead | exact Hyx].
  - change (List.map fst (x :: y :: l)) with (fst x :: List.map fst (y :: l)).
    rewrite is_ascending_cons, Hl, andb_true_r.
    apply Qle_bool_total, Hyx.
Qed.

Lemma nearest_ascending (c : list Row) (emb : list Q) (k : nat) :
  is_ascending (List.map fst (nearest c emb k)) = true.
Proof.
  unfold nearest. rewrite <- List.firstn_map. apply is_ascending_firstn.
  assert (Hfold : forall acc,
             is_ascending (List.map fst acc) = true ->
             is_ascending
               (List.map fst
                  (fold_left
                     (fun acc r => insert_by (sq_l2 emb (row_embedding r), r) acc)
                     c acc)) = true).
  { induction c as [|r c IH]; intros acc Hacc; [exact Hacc|].
    cbn [fold_left]. apply IH, insert_by_ascending, Hacc. }
  apply Hfold. reflexivity.
Qed.

(** On the index held in memory the scores of a search always descend. *)
Lemma memory_search_descending (EM' : Embedder) (c : list Row) (query : string)
    (n_results : Z) :
  is_descending
    (scores (@ChromaVectorStore.search_similar EM' _ collection c query n_results))
  = true.
Proof.
  destruct (@encode EM' query) as [emb|e] eqn:Henc.
  - destruct (search_similar_shape EM' collection c query n_results emb _ Henc eq_refl)
      as [k Hk].
    rewrite Hk. apply descending_similarities, is_ascending_firstn.
    apply nearest_ascending.
  - unfold ChromaVectorStore.search_similar, ChromaVectorStore.search_similar_body,
      ChromaVectorStore._generate_embedding.
    rewrite Henc. reflexivity.
Qed.

End memory_index.

(** C1, as stated, fails: a similarity is not clamped.  The text asked for
    is at squared distance 2 from the first chunk, whose score is -1. *)
Lemma search_similar_score_below_zero :
  let out :=
    @ChromaVectorStore.search_similar Sample.embedder _ MemoryCollection.collection
      Sample.store "payment overdue" 3 in
  scores out = [1; 125 # 625; -1]%Q
  /\ forallb in_unit (scores out) = false.
Proof. cbv zeta. split; vm_compute; reflexivity. Qed.

(** ** Chunking *)

Section chunking.
Import RecursiveCharacterTextSplitter.

Lemma app_cons (c : ascii) (a b : string) : String c a ++ b = String c (a ++ b).
Proof. reflexivity. Qed.

Lemma app_empty_r (a : string) : a ++ "" = a.
Proof.
  induction a as [|c a IH]; [reflexivity|]. rewrite app_cons, IH. reflexivity.
Qed.

Lemma app_assoc_str (a b c : string) : (a ++ b) ++ c = a ++ (b ++ c).
Proof.
  induction a as [|x a IH]; [reflexivity|]. rewrite !app_cons, IH. reflexivity.
Qed.

Lemma length_app (a b : string) :
  String.length (a ++ b) = (String.length a + String.length b)%nat.
Proof.
  induction a as [|x a IH]; [reflexivity|]. rewrite app_cons. simpl. rewrite IH.
  reflexivity.
Qed.

Lemma prefix_drop (sep s : string) :
  String.prefix sep s = true -> s = sep ++ PyStr.drop (String.length sep) s.
Proof.
  revert s. induction sep as [|c sep IH]; intros s Hp.
  - destruct s; reflexivity.
  - destruct s as [|d s]; [discriminate|].
    apply prefix_cons_inv in Hp as [-> Hp].
    rewrite app_cons. simpl. f_equal. apply IH, Hp.
Qed.

Lemma split_go_nonempty (sep s : string) (k : nat) : PyStr.split_go sep s k <> [].
Proof.
  revert k. induction s as [|c s IH]; intros k; [discriminate|].
  cbn [PyStr.split_go]. destruct k as [|k]; [|apply IH].
  destruct (String.prefix sep (String c s)); [discriminate|].
  destruct (PyStr.split_go sep s 0); discriminate.
Qed.

Lemma join_cons_char (sep : string) (c : ascii) (p : string) (ps : list string) :
  PyStr.join sep (String c p :: ps) = String c (PyStr.join sep (p :: ps)).
Proof. destruct ps; reflexivity. Qed.

Lemma join_split_go (sep s : string) :
  sep <> "" -> forall k, PyStr.join sep (PyStr.split_go sep s k) = PyStr.drop k s.
Proof.
  intros Hsep. induction s as [|c s IH]; intros k.
  - destruct k; reflexivity.
  - cbn [PyStr.split_go]. destruct k as [|k]; [|apply IH].
    destruct (String.prefix sep (String c s)) eqn:Hp.
    + pose proof (IH (String.length sep - 1)%nat) as Hrest.
      destruct (PyStr.split_go sep s (String.length sep - 1)) as [|x xs] eqn:Hgo.
      { exfalso. exact (split_go_nonempty _ _ _ Hgo). }
      change (PyStr.join sep ("" :: x :: xs)) with ("" ++ sep ++ PyStr.join sep (x :: xs)).
      rewrite Hrest. change (PyStr.drop 0 (String c s)) with (String c s).
      symmetry. etransitivity; [apply (prefix_drop _ _ Hp)|].
      destruct sep as [|d sep]; [congruence|]. simpl. rewrite Nat.sub_0_r.
      reflexivity.
    + pose proof (IH 0%nat) as Hrest.
      destruct (PyStr.split_go sep s 0) as [|x xs] eqn:Hgo.
      { exfalso. exact (split_go_nonempty _ _ _ Hgo). }
      rewrite join_cons_char, Hrest. reflexivity.
Qed.

(** Joining what a split gives, with the separator, gives the text back. *)
Lemma join_split (sep s : string) :
  sep <> "" -> PyStr.join sep (PyStr.split sep s) = s.
Proof. intros Hsep. apply (join_split_go sep s Hsep 0%nat). Qed.

Lemma join_empty_cons (x : string) (l : list string) :
  PyStr.join "" (x :: l) = x ++ PyStr.join "" l.
Proof.
  destruct l; [symmetry; apply app_empty_r | reflexivity].
Qed.

Lemma join_empty_app (l l' : list string) :
  PyStr.join "" (l ++ l')%list = PyStr.join "" l ++ PyStr.join "" l'.
Proof.
  induction l as [|x l IH]; [reflexivity|].
  change ((x :: l) ++ l')%list with (x :: (l ++ l')%list).
  rewrite !join_empty_cons, IH, app_assoc_str. reflexivity.
Qed.

Lemma join_app_head (sep a p : string) (ps : list string) :
  PyStr.join sep ((a ++ p) :: ps) = a ++ PyStr.join sep (p :: ps).
Proof.
  destruct ps; [reflexivity|].
  change (PyStr.join sep ((a ++ p) :: s :: ps))
    with ((a ++ p) ++ sep ++ PyStr.join sep (s :: ps)).
  apply app_assoc_str.
Qed.

Lemma join_kept (sep p0 : string) (ps : list string) :
  PyStr.join "" (p0 :: List.map (fun p => sep ++ p) ps) = PyStr.join sep (p0 :: ps).
Proof.
  revert p0. induction ps as [|p1 ps IH]; intros p0; [reflexivity|].
  cbn [List.map]. rewrite join_empty_cons, IH, join_app_head. reflexivity.
Qed.

Lemma join_filter_nonempty (l : list string) :
  PyStr.join "" (List.filter (fun s => negb (String.eqb s "")) l) = PyStr.join "" l.
Proof.
  induction l as [|x l IH]; [reflexivity|]. cbn [List.filter].
  destruct (String.eqb_spec x "") as [->|Hx]; cbn [negb].
  - rewrite IH, join_empty_cons. reflexivity.
  - rewrite !join_empty_cons, IH. reflexivity.
Qed.

Lemma join_chars (s : string) : PyStr.join "" (chars s) = s.
Proof.
  induction s as [|c s IH]; [reflexivity|].
  cbn [chars]. rewrite join_empty_cons, IH. reflexivity.
Qed.

(** The pieces, separators kept, make up the text. *)
Lemma split_keeping_join (separator text : string) :
  PyStr.join "" (split_keeping separator text) = text.
Proof.
  unfold split_keeping. rewrite join_filter_nonempty.
  destruct (String.eqb_spec separator "") as [->|Hsep]; [apply join_chars|].
  pose proof (join_split separator text Hsep) as Hjoin.
  destruct (PyStr.split separator text) as [|p0 ps]; [exact Hjoin|].
  rewrite join_kept. exact Hjoin.
Qed.

Lemma piece_length (l : list string) (p : string) :
  In p l -> (String.length p <= String.length (PyStr.join "" l))%nat.
Proof.
  induction l as [|x l IH]; intros Hp; [destruct Hp|].
  rewrite join_empty_cons, length_app. destruct Hp as [->|Hp]; [lia|].
  specialize (IH Hp). lia.
Qed.

Lemma split_keeping_short (separator text p : string) :
  In p (split_keeping separator text) -> (len p <= len text)%Z.
Proof.
  intros Hp. apply piece_length in Hp. rewrite split_keeping_join in Hp.
  unfold len. lia.
Qed.

Lemma sep_if_empty (b : bool) : sep_if b (separator_len "") = 0%Z.
Proof. destruct b; reflexivity. Qed.

Lemma len_join_cons (d : string) (l : list string) :
  len (PyStr.join "" (d :: l)) = (len d + len (PyStr.join "" l))%Z.
Proof. unfold len. rewrite join_empty_cons, length_app. lia. Qed.

Lemma len_nonneg (s : string) : (0 <= len s)%Z.
Proof. unfold len. lia. Qed.

(** While everything fits, the merge keeps one window. *)
Lemma merge_fold_fits (cfg : config) (l : list string) :
  forall (cur : list string) (total : Z),
    (total + len (PyStr.join "" l) <= chunk_size cfg)%Z ->
    fold_left (merge_step cfg "") l ([], cur, total)
    = ([], (cur ++ l)%list, (total + len (PyStr.join "" l))%Z).
Proof.
  induction l as [|d l IH]; intros cur total Hfit.
  - cbn [fold_left]. rewrite app_nil_r. change (len (PyStr.join "" [])) with 0%Z.
    rewrite Z.add_0_r. reflexivity.
  - rewrite len_join_cons in Hfit. pose proof (len_nonneg (PyStr.join "" l)) as Hl.
    cbn [fold_left]. unfold merge_step at 2. rewrite !sep_if_empty.
    replace (chunk_size cfg <? total + len d + 0)%Z with false
      by (symmetry; apply Z.ltb_ge; lia).
    rewrite sep_if_empty, IH by lia.
    rewrite <- app_assoc. cbn [app]. rewrite len_join_cons. f_equal. lia.
Qed.

Lemma merge_splits_fits (cfg : config) (l : list string) :
  (len (PyStr.join "" l) <= chunk_size cfg)%Z ->
  merge_splits cfg "" l = match join_docs l "" with
                          | Some doc => [doc]
                          | None => []
                          end.
Proof.
  intros Hfit. unfold merge_splits. rewrite merge_fold_fits by lia. reflexivity.
Qed.

Lemma split_loop_short (cfg : config) (recurse : option (string -> list string))
    (splits : list string) :
  (forall s, In s splits -> (len s < chunk_size cfg)%Z) ->
  forall good final,
    split_loop cfg recurse splits good final
    = match (good ++ splits)%list with
      | [] => final
      | _ :: _ => (final ++ merge_splits cfg "" (good ++ splits))%list
      end.
Proof.
  induction splits as [|s splits IH]; intros Hshort good final.
  - cbn [split_loop]. rewrite app_nil_r. reflexivity.
  - cbn [split_loop].
    replace (len s <? chunk_size cfg)%Z with true
      by (symmetry; apply Z.ltb_lt, Hshort; left; reflexivity).
    rewrite IH by (intros s' Hs'; apply Hshort; right; exact Hs').
    rewrite <- app_assoc. reflexivity.
Qed.

Lemma join_docs_pieces (l : list string) (text : string) :
  PyStr.join "" l = text ->
  match l with
  | [] => []
  | _ :: _ => match join_docs l "" with
              | Some doc => [doc]
              | None => []
              end
  end = trimmed_fragment text.
Proof.
  intros <-. unfold trimmed_fragment, join_docs.
  destruct l as [|x l]; [reflexivity|].
  destruct (String.eqb _ ""); reflexivity.
Qed.

Lemma pieces_short (cfg : config) (recurse : option (string -> list string))
    (separator text : string) :
  (len text < chunk_size cfg)%Z ->
  split_loop cfg recurse (split_keeping separator text) [] []
  = trimmed_fragment text.
Proof.
  intros Hlen. rewrite split_loop_short.
  - cbn [app]. rewrite <- (join_docs_pieces _ text (split_keeping_join separator text)).
    destruct (split_keeping separator text) as [|x l] eqn:Hpieces; [reflexivity|].
    rewrite merge_splits_fits; [reflexivity|].
    rewrite <- Hpieces, split_keeping_join. lia.
  - intros s Hs. apply split_keeping_short in Hs. lia.
Qed.

(** A text shorter than the target size comes back as one fragment, its
    surrounding whitespace removed. *)
Lemma _split_text_short (cfg : config) (seps : list string) (text : string) :
  (len text < chunk_size cfg)%Z ->
  _split_text cfg seps text = trimmed_fragment text.
Proof.
  intros Hlen. induction seps as [|s rest IH]; cbn [_split_text].
  - apply pieces_short, Hlen.
  - destruct (String.eqb s ""); [apply pieces_short, Hlen|].
    destruct (PyStr.contains s text); [apply pieces_short, Hlen|].
    destruct rest as [|s' rest]; [apply pieces_short, Hlen | exact IH].
Qed.

Lemma combine_seq_contents (A : Type) (l : list A) (a : nat) :
  List.map snd (List.combine (seq a (length l)) l) = l.
Proof.
  revert a. induction l as [|x l IH]; intros a; [reflexivity|].
  simpl. f_equal. apply IH.
Qed.

Lemma fragments_split_text (RT : Runtime) (text : string) :
  fragments text = split_text DocumentProcessor.text_splitter text.
Proof.
  unfold fragments, DocumentProcessor.create_chunks.
  rewrite List.map_map.
  rewrite <- (combine_seq_contents _ (split_text DocumentProcessor.text_splitter text) 0) at 3.
  apply List.map_ext. intros [i chunk_text]. reflexivity.
Qed.

Lemma rejoin_trimmed (overlap : nat) (text : string) :
  rejoin overlap (trimmed_fragment text) = PyStr.strip text.
Proof.
  unfold trimmed_fragment.
  destruct (String.eqb_spec (PyStr.strip text) "") as [->|_]; [reflexivity|].
  apply app_empty_r.
Qed.

End chunking.

(** ** Fragments as windows on the text *)

Section windows.
Import RecursiveCharacterTextSplitter.

Lemma take_app_le (n : nat) :
  forall a b : string, (n <= String.length a)%nat -> PyStr.take n (a ++ b) = PyStr.take n a.
Proof.
  induction n as [|n IH]; intros a b Hn; [reflexivity|].
  destruct a as [|c a]; [simpl in Hn; lia|].
  rewrite app_cons. cbn [PyStr.take]. f_equal. apply IH. simpl in Hn. lia.
Qed.

Lemma drop_app_le (n : nat) :
  forall a b : string, (n <= String.length a)%nat ->
                       PyStr.drop n (a ++ b) = PyStr.drop n a ++ b.
Proof.
  induction n as [|n IH]; intros a b Hn; [reflexivity|].
  destruct a as [|c a]; [simpl in Hn; lia|].
  rewrite app_cons. cbn [PyStr.drop]. apply IH. simpl in Hn. lia.
Qed.

Lemma take_all (a : string) : PyStr.take (String.length a) a = a.
Proof. induction a as [|c a IH]; [reflexivity|]. cbn [String.length PyStr.take]. f_equal. exact IH. Qed.

Lemma drop_all (a : string) : PyStr.drop (String.length a) a = "".
Proof. induction a as [|c a IH]; [reflexivity|]. exact IH. Qed.

Lemma take_app_exact (a b : string) : PyStr.take (String.length a) (a ++ b) = a.
Proof. rewrite take_app_le by lia. apply take_all. Qed.

Lemma drop_app_exact (a b : string) : PyStr.drop (String.length a) (a ++ b) = b.
Proof. rewrite drop_app_le by lia. rewrite drop_all. reflexivity. Qed.

Lemma trimmed_app (a b : list (nat * string)) :
  trimmed (a ++ b) = (trimmed a ++ trimmed b)%list.
Proof. unfold trimmed. rewrite List.map_app, List.filter_app. reflexivity. Qed.

Lemma without_overlap_app (a b : list (nat * string)) :
  without_overlap (a ++ b) = without_overlap a ++ without_overlap b.
Proof. unfold without_overlap. rewrite List.map_app, join_empty_app. reflexivity. Qed.

Lemma without_overlap_one (shared : nat) (w : string) :
  without_overlap [(shared, w)] = PyStr.drop shared w.
Proof. reflexivity. Qed.

Lemma trimmed_one (shared : nat) (w : string) :
  trimmed [(shared, w)] = match join_docs [w] "" with Some doc => [doc] | None => [] end.
Proof.
  unfold trimmed, join_docs. cbn [List.map List.filter PyStr.join].
  destruct (String.eqb (PyStr.strip w) ""); reflexivity.
Qed.

Lemma last_cons (A : Type) (l : list A) :
  forall x d : A, List.last (x :: l) d = List.last l x.
Proof.
  induction l as [|y l IH]; intros x d; [reflexivity|].
  change (List.last (x :: y :: l) d) with (List.last (y :: l) d).
  rewrite !IH. reflexivity.
Qed.

Lemma overlapping_app (a b : list (nat * string)) :
  forall previous,
    overlapping previous (a ++ b)
    = overlapping previous a && overlapping (List.last (List.map snd a) previous) b.
Proof.
  induction a as [|[shared w] a IH]; intros previous; [reflexivity|].
  cbn [app overlapping List.map snd]. rewrite IH, <- !andb_assoc, last_cons.
  reflexivity.
Qed.

Lemma overlapping_fresh (b : list (nat * string)) (previous : string) :
  overlapping "" b = true -> overlapping previous b = true.
Proof.
  destruct b as [|[shared w] b]; [reflexivity|]. cbn [overlapping].
  intros H. apply andb_prop in H as [H Hrest]. apply andb_prop in H as [H _].
  apply andb_prop in H as [H0 Hw]. apply Nat.leb_le in H0. cbn [String.length] in H0.
  assert (shared = 0%nat) as -> by lia.
  rewrite Hrest, Nat.sub_0_r, drop_all. reflexivity.
Qed.

Lemma tiling_nil (cfg : config) : tiling cfg "" [].
Proof. exists []. repeat split. constructor. Qed.

Lemma tiling_app (cfg : config) (t1 t2 : string) (o1 o2 : list string) :
  tiling cfg t1 o1 -> tiling cfg t2 o2 -> tiling cfg (t1 ++ t2) (o1 ++ o2).
Proof.
  intros (w1 & -> & Hov1 & <- & Hb1) (w2 & -> & Hov2 & <- & Hb2).
  exists (w1 ++ w2)%list. split; [symmetry; apply trimmed_app|].
  split; [|split].
  - rewrite overlapping_app, Hov1, (overlapping_fresh _ _ Hov2). reflexivity.
  - apply without_overlap_app.
  - apply List.Forall_app. split; assumption.
Qed.

Lemma join_snoc (l : list string) (d : string) :
  PyStr.join "" (l ++ [d])%list = PyStr.join "" l ++ d.
Proof. rewrite join_empty_app, join_empty_cons. cbn [PyStr.join]. rewrite app_empty_r. reflexivity. Qed.

Lemma len_app (a b : string) : len (a ++ b) = (len a + len b)%Z.
Proof. unfold len. rewrite length_app. lia. Qed.

(** The window being filled takes one more piece. *)
Lemma window_grows (windows : list (nat * string)) (shared : nat) (w d : string) :
  overlapping "" (windows ++ [(shared, w)]) = true ->
  overlapping "" (windows ++ [(shared, w ++ d)]) = true
  /\ without_overlap (windows ++ [(shared, w ++ d)])
     = without_overlap (windows ++ [(shared, w)]) ++ d.
Proof.
  rewrite !overlapping_app, !without_overlap_app, !without_overlap_one.
  cbn [overlapping]. intros H.
  apply andb_prop in H as [Hws H]. rewrite andb_true_r in H.
  apply andb_prop in H as [H Heq]. apply andb_prop in H as [Hprev Hw].
  apply Nat.leb_le in Hw. apply String.eqb_eq in Heq.
  rewrite Hws, Hprev. cbn [andb]. rewrite andb_true_r.
  split.
  - rewrite take_app_le by exact Hw. rewrite Heq, String.eqb_refl, andb_true_r.
    apply Nat.leb_le. rewrite length_app. lia.
  - rewrite drop_app_le by exact Hw. symmetry. apply app_assoc_str.
Qed.

(** A window is given out, and the next one begins with what is kept of it. *)
Lemma window_next (windows : list (nat * string)) (shared : nat)
    (popped kept d : string) :
  overlapping "" (windows ++ [(shared, popped ++ kept)]) = true ->
  overlapping ""
    ((windows ++ [(shared, popped ++ kept)]) ++ [(String.length kept, kept ++ d)]) = true
  /\ without_overlap
       ((windows ++ [(shared, popped ++ kept)]) ++ [(String.length kept, kept ++ d)])
     = without_overlap (windows ++ [(shared, popped ++ kept)]) ++ d.
Proof.
  intros H. rewrite (overlapping_app (windows ++ [(shared, popped ++ kept)])), H.
  rewrite (without_overlap_app (windows ++ _)), without_overlap_one, drop_app_exact.
  split; [|reflexivity].
  rewrite List.map_app. cbn [List.map snd]. rewrite List.last_last.
  cbn [overlapping andb].
  rewrite andb_true_r, take_app_exact, !length_app.
  replace (String.length popped + String.length kept - String.length kept)%nat
    with (String.length popped) by lia.
  rewrite drop_app_exact, String.eqb_refl, andb_true_r.
  apply andb_true_intro. split; apply Nat.leb_le; lia.
Qed.

Lemma pop_front_keeps (cfg : config) (_len : Z) :
  (0 <= chunk_overlap cfg)%Z -> (_len <= chunk_size cfg)%Z ->
  forall (current_doc : list string) (total : Z) (kept : list string) (t : Z),
    total = len (PyStr.join "" current_doc) ->
    pop_front cfg "" current_doc total _len = (kept, t) ->
    exists popped,
      current_doc = (popped ++ kept)%list
      /\ t = len (PyStr.join "" kept)
      /\ (t <= chunk_overlap cfg)%Z
      /\ (t + _len <= chunk_size cfg)%Z.
Proof.
  intros Hov Hlen. induction current_doc as [|d0 rest IH]; intros total kept t Htotal Hpop.
  - cbn [pop_front] in Hpop. injection Hpop as <- <-. exists []. subst total.
    change (len (PyStr.join "" [])) with 0%Z. repeat split; lia.
  - cbn [pop_front] in Hpop. rewrite !sep_if_empty in Hpop.
    rewrite len_join_cons in Htotal. pose proof (len_nonneg (PyStr.join "" rest)) as Hr.
    pose proof (len_nonneg d0) as Hd0.
    destruct ((chunk_overlap cfg <? total)%Z
              || ((chunk_size cfg <? total + _len + 0)%Z && (0 <? total)%Z)) eqn:Hc.
    + apply IH in Hpop as (popped & -> & Ht & Ho & Hs); [|lia].
      exists (d0 :: popped). repeat split; assumption.
    + injection Hpop as <- <-. exists []. apply orb_false_elim in Hc as [Hc1 Hc2].
      apply Z.ltb_ge in Hc1. rewrite len_join_cons.
      split; [reflexivity|]. split; [lia|]. split; [lia|].
      apply andb_false_elim in Hc2 as [Hc2|Hc2].
      * apply Z.ltb_ge in Hc2. lia.
      * apply Z.ltb_ge in Hc2. lia.
Qed.

(** One round of the merge loop keeps the windows in step with the text. *)
Lemma merge_step_merging (cfg : config) (text d : string)
    (st : list string * list string * Z) :
  (0 <= chunk_overlap cfg)%Z -> (len d <= chunk_size cfg)%Z ->
  merging cfg text st -> merging cfg (text ++ d) (merge_step cfg "" st d).
Proof.
  intros Hov Hd. destruct st as [[docs current_doc] total].
  intros (windows & shared & Hdocs & Hwin & Htext & Htotal & Hbound). cbv zeta in *.
  assert (Hgrow : (total + len d <= chunk_size cfg)%Z ->
                  merging cfg (text ++ d)
                    (docs, (current_doc ++ [d])%list, (total + len d + 0)%Z)).
  { intros Hfit. exists windows, shared. cbv zeta. rewrite join_snoc.
    destruct (window_grows _ _ _ d Hwin) as [Hwin' Htext'].
    split; [exact Hdocs|]. split; [exact Hwin'|]. split; [rewrite Htext', Htext; reflexivity|].
    split; [rewrite len_app; lia|].
    apply List.Forall_app in Hbound as [Hb1 Hb2]. apply List.Forall_app. split; [exact Hb1|].
    apply List.Forall_cons_iff in Hb2 as [[Hs _] _].
    constructor; [|constructor]. split; [exact Hs|]. rewrite len_app. lia. }
  unfold merge_step. rewrite sep_if_empty.
  destruct (chunk_size cfg <? total + len d + 0)%Z eqn:Hc.
  - destruct current_doc as [|x rest].
    + rewrite sep_if_empty. apply Hgrow. subst total.
      change (len (PyStr.join "" [])) with 0%Z. lia.
    + destruct (pop_front cfg "" (x :: rest) total (len d)) as [kept t] eqn:Hpop.
      rewrite sep_if_empty.
      destruct (pop_front_keeps cfg (len d) Hov Hd _ _ _ _ Htotal Hpop)
        as (popped & Hcd & Ht & Hto & Hts).
      rewrite Hcd, join_empty_app in Hwin, Htext, Hbound.
      exists (windows
              ++ [(shared, (PyStr.join "" popped ++ PyStr.join "" kept)%string)])%list,
        (String.length (PyStr.join "" kept)).
      cbv zeta. rewrite join_snoc.
      destruct (window_next _ _ _ _ d Hwin) as [Hwin' Htext'].
      split.
      { rewrite trimmed_app, trimmed_one, <- Hdocs. rewrite Hcd.
        unfold join_docs. rewrite join_empty_app. cbn [PyStr.join].
        destruct (String.eqb _ ""); [symmetry; apply app_nil_r | reflexivity]. }
      split; [exact Hwin'|]. split; [rewrite Htext', Htext; reflexivity|].
      split; [rewrite len_app; lia|].
      apply List.Forall_app. split; [exact Hbound|].
      constructor; [|constructor]. split.
      * unfold len in Ht. lia.
      * rewrite len_app. lia.
  - rewrite sep_if_empty. apply Hgrow. apply Z.ltb_ge in Hc. lia.
Qed.

Lemma merge_fold_merging (cfg : config) (l : list string) :
  (0 <= chunk_overlap cfg)%Z ->
  (forall p, In p l -> (len p < chunk_size cfg)%Z) ->
  forall text st,
    merging cfg text st ->
    merging cfg (text ++ PyStr.join "" l) (fold_left (merge_step cfg "") l st).
Proof.
  intros Hov. induction l as [|d l IH]; intros Hshort text st Hst.
  - cbn [fold_left PyStr.join]. rewrite app_empty_r. exact Hst.
  - cbn [fold_left]. rewrite join_empty_cons, <- app_assoc_str.
    apply IH; [intros p Hp; apply Hshort; right; exact Hp|].
    apply merge_step_merging; [exact Hov | | exact Hst].
    specialize (Hshort d (or_introl eq_refl)). lia.
Qed.

(** The merge gives the fragments of windows that make up the pieces. *)
Lemma merge_splits_tiling (cfg : config) (l : list string) :
  (0 <= chunk_overlap cfg)%Z -> (0 <= chunk_size cfg)%Z ->
  (forall p, In p l -> (len p < chunk_size cfg)%Z) ->
  tiling cfg (PyStr.join "" l) (merge_splits cfg "" l).
Proof.
  intros Hov Hsize Hshort. unfold merge_splits.
  assert (Hstart : merging cfg "" ([], [], 0%Z)).
  { exists [], 0%nat. cbv zeta. repeat split.
    constructor; [|constructor]. split; [exact Hov | exact Hsize]. }
  pose proof (merge_fold_merging cfg l Hov Hshort "" _ Hstart) as Hend.
  destruct (fold_left (merge_step cfg "") l ([], [], 0%Z)) as [[docs current_doc] total].
  destruct Hend as (windows & shared & Hdocs & Hwin & Htext & _ & Hbound). cbv zeta in *.
  exists (windows ++ [(shared, PyStr.join "" current_doc)])%list.
  split; [|split; [exact Hwin|split; [exact Htext|exact Hbound]]].
  rewrite trimmed_app, <- Hdocs. unfold trimmed, join_docs. cbn [List.map List.filter].
  destruct (String.eqb _ ""); [symmetry; apply app_nil_r | reflexivity].
Qed.

(** What the loop has when the short pieces gathered so far are merged. *)
Lemma flush_tiling (cfg : config) (text : string) (good final : list string) :
  (0 <= chunk_overlap cfg)%Z -> (0 <= chunk_size cfg)%Z ->
  (forall p, In p good -> (len p < chunk_size cfg)%Z) ->
  tiling cfg text final ->
  tiling cfg (text ++ PyStr.join "" good)
    (match good with
     | [] => final
     | _ :: _ => (final ++ merge_splits cfg "" good)%list
     end).
Proof.
  intros Hov Hsize Hshort Hfinal. destruct good as [|g good].
  - cbn [PyStr.join]. rewrite app_empty_r. exact Hfinal.
  - apply tiling_app; [exact Hfinal|]. apply merge_splits_tiling; assumption.
Qed.

Lemma split_loop_tiling (cfg : config) (recurse : option (string -> list string))
    (splits : list string) :
  (0 <= chunk_overlap cfg)%Z -> (0 <= chunk_size cfg)%Z ->
  match recurse with
  | Some f => forall s, tiling cfg s (f s)
  | None => forall s, In s splits -> (len s < chunk_size cfg)%Z
  end ->
  forall (good final : list string) (text : string),
    (forall p, In p good -> (len p < chunk_size cfg)%Z) ->
    tiling cfg text final ->
    tiling cfg (text ++ PyStr.join "" good ++ PyStr.join "" splits)
      (split_loop cfg recurse splits good final).
Proof.
  intros Hov Hsize. induction splits as [|s rest IH]; intros Hrec good final text Hgood Hfinal.
  - cbn [split_loop PyStr.join]. rewrite app_empty_r.
    apply flush_tiling; assumption.
  - cbn [split_loop]. rewrite join_empty_cons.
    assert (Hrec' : match recurse with
                    | Some f => forall s, tiling cfg s (f s)
                    | None => forall s, In s rest -> (len s < chunk_size cfg)%Z
                    end).
    { destruct recurse; [exact Hrec|]. intros p Hp. apply Hrec. right. exact Hp. }
    destruct (len s <? chunk_size cfg)%Z eqn:Hs.
    + replace (text ++ PyStr.join "" good ++ s ++ PyStr.join "" rest)
        with (text ++ PyStr.join "" (good ++ [s]) ++ PyStr.join "" rest)
        by (rewrite join_snoc, !app_assoc_str; reflexivity).
      apply IH; [exact Hrec' | | exact Hfinal].
      intros p Hp. apply List.in_app_iff in Hp as [Hp|[<-|[]]]; [apply Hgood, Hp|].
      apply Z.ltb_lt, Hs.
    + destruct recurse as [f|].
      * replace (text ++ PyStr.join "" good ++ s ++ PyStr.join "" rest)
          with (((text ++ PyStr.join "" good) ++ s) ++ PyStr.join "" [] ++ PyStr.join "" rest)
          by (cbn [PyStr.join]; rewrite !app_assoc_str; reflexivity).
        apply IH; [exact Hrec' | intros p [] |].
        apply tiling_app; [|apply Hrec].
        apply flush_tiling; assumption.
      * specialize (Hrec s (or_introl eq_refl)). apply Z.ltb_ge in Hs. lia.
Qed.

Lemma chars_single (text p : string) : In p (chars text) -> len p = 1%Z.
Proof.
  induction text as [|c text IH]; intros Hp; [destruct Hp|].
  destruct Hp as [<-|Hp]; [reflexivity | exact (IH Hp)].
Qed.

Lemma pieces_tiling (cfg : config) (recurse : option (string -> list string))
    (separator text : string) :
  (0 <= chunk_overlap cfg)%Z -> (0 <= chunk_size cfg)%Z ->
  match recurse with
  | Some f => forall s, tiling cfg s (f s)
  | None => forall s, In s (split_keeping separator text) -> (len s < chunk_size cfg)%Z
  end ->
  tiling cfg text (split_loop cfg recurse (split_keeping separator text) [] []).
Proof.
  intros Hov Hsize Hrec.
  pose proof (split_loop_tiling cfg recurse (split_keeping separator text) Hov Hsize Hrec
                [] [] "" (fun p (H : In p []) => match H with end) (tiling_nil cfg))
    as Hloop.
  cbn [PyStr.join] in Hloop. rewrite split_keeping_join in Hloop. exact Hloop.
Qed.

Lemma characters_tiling (cfg : config) (text : string) :
  (0 <= chunk_overlap cfg)%Z -> (1 < chunk_size cfg)%Z ->
  tiling cfg text (split_loop cfg None (split_keeping "" text) [] []).
Proof.
  intros Hov Hsize. apply pieces_tiling; [exact Hov | lia |].
  intros p Hp. unfold split_keeping in Hp. cbn [String.eqb] in Hp.
  apply List.filter_In in Hp as [Hp _]. rewrite (chars_single _ _ Hp). exact Hsize.
Qed.

(** With the empty separator among the separators, the fragments of every
    text are those of windows that make up the text. *)
Lemma _split_text_tiling (cfg : config) (seps : list string) :
  (0 <= chunk_overlap cfg)%Z -> (1 < chunk_size cfg)%Z ->
  In "" seps ->
  forall text, tiling cfg text (_split_text cfg seps text).
Proof.
  intros Hov Hsize. induction seps as [|s rest IH]; intros Hin text; [destruct Hin|].
  cbn [_split_text].
  destruct (String.eqb_spec s "") as [->|Hs]; [apply characters_tiling; assumption|].
  destruct Hin as [Hin|Hin]; [congruence|].
  destruct rest as [|s' rest']; [destruct Hin|].
  destruct (PyStr.contains s text).
  - apply pieces_tiling; [exact Hov | lia |]. intros piece. apply (IH Hin).
  - apply (IH Hin).
Qed.

(** C4, as amended.  The fragments of every text are the windows of the
    text without their surrounding whitespace, a window of which nothing is
    left giving no fragment: windows of at most 1000 characters, each
    beginning with at most 200 characters that repeat the end of the one
    before, which give the text back exactly when they are put one after the
    other without the characters they share.  A text shorter than 1000
    characters is its own single window, so that its fragments, joined, are
    the text without its surrounding whitespace. *)
Theorem fragments_of_windows (RT : Runtime) (text : string) :
  (exists windows : list (nat * string),
     fragments text = trimmed windows
     /\ overlapping "" windows = true
     /\ without_overlap windows = text
     /\ List.Forall (fun '(shared, w) =>
                       (shared <= 200)%nat /\ (String.length w <= 1000)%nat) windows)
  /\ ((String.length text < 1000)%nat ->
      fragments text = trimmed [(0%nat, text)]
      /\ rejoin 200 (fragments text) = PyStr.strip text).
Proof.
  rewrite fragments_split_text. split.
  - destruct (_split_text_tiling DocumentProcessor.text_splitter
                (separators DocumentProcessor.text_splitter)
                ltac:(cbn; lia) ltac:(cbn; lia)
                ltac:(do 4 right; left; reflexivity) text)
      as (windows & Hout & Hwin & Htext & Hbound).
    exists windows. split; [exact Hout|]. split; [exact Hwin|]. split; [exact Htext|].
    eapply List.Forall_impl; [|exact Hbound].
    intros [shared w]. unfold within, len.
    cbn [chunk_overlap chunk_size DocumentProcessor.text_splitter]. lia.
  - intros Hlen. unfold split_text. rewrite _split_text_short.
    + rewrite rejoin_trimmed. split; [|reflexivity].
      unfold trimmed, trimmed_fragment. cbn [List.map List.filter].
      destruct (String.eqb (PyStr.strip text) ""); reflexivity.
    + unfold len. cbn [chunk_size DocumentProcessor.text_splitter]. lia.
Qed.

End windows.

(** C4, as stated, fails.  A text of one space gives no fragment; a text
    that ends with a space loses it; and two runs of 600 letters with a
    space between them give two fragments that share nothing: the space is
    gone, and removing 200 characters of overlap removes text. *)
Lemma chunks_do_not_rejoin :
  let long := repeat_str 600 "a" ++ " " ++ repeat_str 600 "b" in
  @fragments Sample.runtime " " = []
  /\ rejoin 200 (@fragments Sample.runtime " ") <> " "
  /\ @fragments Sample.runtime "Dear Sir " = ["Dear Sir"]
  /\ rejoin 200 (@fragments Sample.runtime "Dear Sir ") <> "Dear Sir "
  /\ @fragments Sample.runtime long = [repeat_str 600 "a"; repeat_str 600 "b"]
  /\ rejoin 200 (@fragments Sample.runtime long) <> long
  /\ rejoin 0 (@fragments Sample.runtime long) <> long.
Proof.
  cbv zeta. repeat split; try (vm_compute; reflexivity);
    try (intros E; apply (f_equal String.length) in E; vm_compute in E; discriminate).
Qed.

(** ** The statements at work on the sample services *)

(** Asking the sample index for texts about leases: the two nearest chunks
    come nearest first, so their scores descend. *)
Lemma search_similar_scores_witness :
  exists r,
    coll_query Sample.store [[1; 0]%Q] 2 = Ok r
    /\ is_ascending (nearest_distances r) = true
    /\ is_descending
         (scores (@ChromaVectorStore.search_similar Sample.embedder _
                    MemoryCollection.collection Sample.store "lease" 2)) = true.
Proof.
  eexists. split; [reflexivity|]. split; [reflexivity|].
  destruct (search_similar_scores Sample.embedder MemoryCollection.collection
              Sample.store "lease" 2 [1; 0]%Q _ eq_refl eq_refl)
    as (k & _ & Hdesc & _).
  apply Hdesc. reflexivity.
Defined.

(** A reply whose confidence is a word and that names no key points. *)
Lemma evaluate_response_quality_defaults_witness :
  let reply := "CONFIDENCE: high REASONING: sound" in
  let ev :=
    @LegalAgentSystem._evaluate_response_quality Sample.runtime
      (Sample.constant_llm (Ok reply)) default_settings "We acknowledge receipt."
      Sample.document in
  LegalAgentSystem.confidence ev = 1 # 2
  /\ LegalAgentSystem.reasoning ev = "sound"
  /\ LegalAgentSystem.key_points ev = [].
Proof.
  cbv zeta.
  pose proof (evaluate_response_quality_defaults Sample.runtime
                (Sample.constant_llm (Ok "CONFIDENCE: high REASONING: sound"))
                default_settings "We acknowledge receipt." Sample.document
                "CONFIDENCE: high REASONING: sound" eq_refl) as Hev.
  cbv zeta in Hev. destruct Hev as (Hc & Hr & _ & _ & _ & Hk).
  split; [exact Hc|]. split; [exact Hr|]. apply Hk. reflexivity.
Defined.

(** Three hundred words of a letter: two windows, the second beginning with
    the last 200 characters of the first. *)
Lemma fragments_of_windows_witness :
  let long := repeat_str 300 "word " in
  let windows := [(0%nat, PyStr.take 999 long); (200%nat, PyStr.drop 799 long)] in
  @fragments Sample.runtime long = trimmed windows
  /\ overlapping "" windows = true
  /\ without_overlap windows = long
  /\ exists windows' : list (nat * string),
       @fragments Sample.runtime long = trimmed windows'
       /\ overlapping "" windows' = true
       /\ without_overlap windows' = long.
Proof.
  cbv zeta. split; [vm_compute; reflexivity|]. split; [vm_compute; reflexivity|].
  split; [vm_compute; reflexivity|].
  destruct (proj1 (fragments_of_windows Sample.runtime (repeat_str 300 "word ")))
    as (windows & Hout & Hwin & Htext & _).
  exists windows. split; [exact Hout|]. split; [exact Hwin | exact Htext].
Defined.

(** A failed call, a reply outside the set, and a reply inside it. *)
Lemma classify_document_type_default_witness :
  @DocumentProcessor.classify_document_type
    (Sample.constant_llm (Raise (ServiceError "timeout"))) default_settings
    "NOTICE TO QUIT" = LEGAL_LETTER
  /\ @DocumentProcessor.classify_document_type
       (Sample.constant_llm (Ok "memorandum")) default_settings
       "NOTICE TO QUIT" = LEGAL_LETTER
  /\ @DocumentProcessor.classify_document_type
       (Sample.constant_llm (Ok "  Notice ")) default_settings
       "NOTICE TO QUIT" = NOTICE.
Proof.
  split; [|split].
  - destruct (classify_document_type_default
                (Sample.constant_llm (Raise (ServiceError "timeout")))
                default_settings "NOTICE TO QUIT") as (Hfail & _ & _).
    exact (Hfail _ eq_refl).
  - destruct (classify_document_type_default
                (Sample.constant_llm (Ok "memorandum"))
                default_settings "NOTICE TO QUIT") as (_ & Hout & _).
    apply (Hout "memorandum" eq_refl). intros t. destruct t; discriminate.
  - destruct (classify_document_type_default
                (Sample.constant_llm (Ok "  Notice "))
                default_settings "NOTICE TO QUIT") as (_ & _ & Hin).
    exact (Hin "  Notice " NOTICE eq_refl eq_refl).
Defined.

(** No chunk of document d9 is stored. *)
Lemma generate_response_for_document_not_found_witness :
  coll_get Sample.store "d9" = Ok {| g_ids := []; g_documents := []; g_metadatas := [] |}
  /\ @LegalAISystem.generate_response_for_document Sample.runtime
       (Sample.constant_llm (Ok "ok")) Sample.embedder _ MemoryCollection.collection
       default_settings Sample.store "d9" "professional" = None.
Proof.
  split; [reflexivity|].
  apply (generate_response_for_document_not_found Sample.runtime
           (Sample.constant_llm (Ok "ok")) Sample.embedder MemoryCollection.collection
           default_settings Sample.store "d9" "professional"
           {| g_ids := []; g_documents := []; g_metadatas := [] |});
    reflexivity.
Defined.

(** Deleting a document that has no rows leaves the sample index as it is. *)
Lemma delete_document_idempotent_witness :
  List.filter (MemoryCollection.of_document "d9") Sample.store = []
  /\ ChromaVectorStore.delete_document Sample.store "d9" = (true, Sample.store).
Proof.
  assert (Habsent : List.filter (MemoryCollection.of_document "d9") Sample.store = [])
    by reflexivity.
  split; [exact Habsent|].
  destruct (delete_document_idempotent Sample.store "d9") as (_ & _ & _ & Hzero).
  exact (Hzero Habsent).
Defined.

(** An evaluation that reports a confidence of 1.5. *)
Lemma confidence_score_in_unit_interval_witness :
  exists r,
    @LegalAgentSystem.generate_legal_response Sample.runtime
      (Sample.two_reply_llm (Ok "We acknowledge receipt.")
         (Ok "CONFIDENCE: 1.5 REASONING: thorough KEY_POINTS: notice"))
      Sample.embedder _ MemoryCollection.collection
      default_settings Sample.store Sample.document "professional" = Ok r
    /\ LegalResponse.confidence_score r = 0%Q
    /\ LegalResponse.tone r = "error".
Proof.
  destruct (confidence_score_in_unit_interval Sample.runtime
              (Sample.two_reply_llm (Ok "We acknowledge receipt.")
                 (Ok "CONFIDENCE: 1.5 REASONING: thorough KEY_POINTS: notice"))
              Sample.embedder MemoryCollection.collection
              default_settings Sample.store Sample.document "professional")
    as (_ & Hout).
  eexists. split.
  - apply (Hout "We acknowledge receipt." eq_refl).
    intros [_ Hle]. apply Hle. reflexivity.
  - split; reflexivity.
Defined.

(** The second sample chunk comes without an embedding and has one after
    the call. *)
Lemma add_chunks_writes_embeddings_witness :
  let call :=
    @ChromaVectorStore.add_chunks Sample.embedder _ MemoryCollection.collection
      sample_heap Sample.store [1; 2]%positive in
  fst (fst call) = true
  /\ exists chunk chunk',
       sample_heap !! 2%positive = Some chunk
       /\ snd (fst call) !! 2%positive = Some chunk'
       /\ DocumentChunk.embedding chunk = None
       /\ DocumentChunk.embedding chunk' <> None.
Proof.
  cbv zeta. split; [reflexivity|].
  destruct (add_chunks_writes_embeddings Sample.embedder MemoryCollection.collection
              sample_heap
              (snd (fst (@ChromaVectorStore.add_chunks Sample.embedder _
                           MemoryCollection.collection sample_heap Sample.store
                           [1; 2]%positive)))
              Sample.store
              (snd (@ChromaVectorStore.add_chunks Sample.embedder _
                      MemoryCollection.collection sample_heap Sample.store
                      [1; 2]%positive))
              [1; 2]%positive eq_refl) as (Hin & _).
  destruct (Hin 2%positive) as (chunk & chunk' & Hh & Hh' & Hemb & _ & _).
  { right. left. reflexivity. }
  exists chunk, chunk'. repeat split; try assumption.
  assert (Some chunk = sample_heap !! 2%positive) as Hsame by (symmetry; exact Hh).
  vm_compute in Hsame. injection Hsame as ->. reflexivity.
Defined.

(** * Further properties of the code *)

(** ** Results read from the index *)

Section index_rows.
Context (EM : Embedder) {C : Type} (CO : Collection C).

Lemma mapM_ok_ext (A B : Type) (f : A -> result B) (g : A -> B) (l : list A) :
  (forall a, In a l -> f a = Ok (g a)) -> mapM f l = Ok (List.map g l).
Proof.
  induction l as [|a l IH]; intros Hf; [reflexivity|].
  cbn [mapM List.map]. rewrite (Hf a) by (left; reflexivity). cbn [rbind].
  rewrite IH by (intros a' Ha'; apply Hf; right; exact Ha'). reflexivity.
Qed.

Lemma mapM_raise (A B : Type) (f : A -> result B) (l : list A) (a : A) (e : exn) :
  In a l -> f a = Raise e -> exists e', mapM f l = Raise e'.
Proof.
  induction l as [|a0 l IH]; intros Ha Hf; [destruct Ha|].
  cbn [mapM]. destruct Ha as [->|Ha].
  - rewrite Hf. exists e. reflexivity.
  - destruct (f a0) as [b|e0]; [|exists e0; reflexivity]. cbn [rbind].
    destruct (IH Ha Hf) as [e' ->]. exists e'. reflexivity.
Qed.

Lemma mapM_forall (A B : Type) (P : B -> Prop) (f : A -> result B) (l : list A) :
  (forall a b, f a = Ok b -> P b) ->
  forall out, mapM f l = Ok out -> Forall P out.
Proof.
  intros Hf. induction l as [|a l IH]; intros out Hout.
  - injection Hout as <-. constructor.
  - cbn [mapM] in Hout. destruct (f a) as [b|] eqn:Hb; [|discriminate].
    cbn [rbind] in Hout. destruct (mapM f l) as [bs|]; [|discriminate].
    injection Hout as <-. constructor; [exact (Hf a b Hb) | apply IH; reflexivity].
Qed.

Lemma mapM_length (A B : Type) (f : A -> result B) (l : list A) (out : list B) :
  mapM f l = Ok out -> length out = length l.
Proof.
  revert out. induction l as [|a l IH]; intros out Hout.
  - injection Hout as <-. reflexivity.
  - cbn [mapM] in Hout. destruct (f a); [|discriminate]. cbn [rbind] in Hout.
    destruct (mapM f l) as [bs|]; [|discriminate].
    injection Hout as <-. simpl. f_equal. apply IH. reflexivity.
Qed.

Lemma nth_seq_all (A : Type) (l : list A) (d : A) :
  List.map (fun i => nth i l d) (seq 0 (length l)) = l.
Proof.
  induction l as [|a l IH]; [reflexivity|].
  cbn [length seq List.map nth]. f_equal.
  rewrite <- seq_shift, List.map_map. exact IH.
Qed.

Lemma py_index_nth (A : Type) (l : list A) (i : nat) (d : A) :
  (i < length l)%nat -> py_index l i = Ok (nth i l d).
Proof.
  intros Hi. unfold py_index. rewrite (nth_error_nth' l d Hi). reflexivity.
Qed.

Lemma get_row_fields (r : GetResult) (i : nat) (x : SearchResult.t) :
  ChromaVectorStore.get_row r i = Ok x ->
  SearchResult.similarity_score x = 1%Q
  /\ SearchResult.metadata x !! "document_id" = Some (MStr (SearchResult.document_id x))
  /\ nth_error (g_ids r) i = Some (SearchResult.chunk_id x)
  /\ nth_error (g_documents r) i = Some (SearchResult.content x).
Proof.
  unfold ChromaVectorStore.get_row, py_index, dict_item.
  destruct (nth_error (g_ids r) i) as [cid|]; [|discriminate]. cbn [rbind].
  destruct (nth_error (g_metadatas r) i) as [md|]; [|discriminate]. cbn [rbind].
  destruct (md !! "document_id") as [[s| | | |]|] eqn:Hdid; try discriminate;
    cbn [rbind];
    (destruct (nth_error (g_documents r) i) as [doc|]; [|discriminate]);
    cbn [rbind as_str]; try discriminate.
  intros [= <-]. cbn. repeat split. exact Hdid.
Qed.

Lemma mapM_seq_ids (r : GetResult) (n : nat) :
  forall (a : nat) (out : list SearchResult.t),
    mapM (ChromaVectorStore.get_row r) (seq a n) = Ok out ->
    List.map SearchResult.chunk_id out = firstn n (skipn a (g_ids r))
    /\ List.map SearchResult.content out = firstn n (skipn a (g_documents r)).
Proof.
  induction n as [|n IH]; intros a out Hout.
  - injection Hout as <-. split; reflexivity.
  - cbn [seq mapM] in Hout.
    destruct (ChromaVectorStore.get_row r a) as [x|] eqn:Hx; [|discriminate].
    cbn [rbind] in Hout.
    destruct (mapM _ (seq (S a) n)) as [xs|] eqn:Hxs; [|discriminate].
    injection Hout as <-.
    destruct (get_row_fields _ _ _ Hx) as (_ & _ & Hid & Hdoc).
    destruct (IH _ _ Hxs) as [IHid IHdoc].
    rewrite (skipn_nth_error _ _ _ _ Hid), (skipn_nth_error _ _ _ _ Hdoc).
    cbn [firstn List.map]. rewrite IHid, IHdoc. split; reflexivity.
Qed.

(** X1. Whatever the index answers, every result of [get_document_chunks]
    has similarity 1 and carries as its document id the one recorded in its
    own metadata; and the results are either none at all or one per stored
    id, with the ids and the texts in the order the index gave them. *)
Theorem get_document_chunks_results (c : C) (document_id : string) :
  let out := ChromaVectorStore.get_document_chunks c document_id in
  Forall (fun x =>
            SearchResult.similarity_score x = 1%Q
            /\ SearchResult.metadata x !! "document_id"
               = Some (MStr (SearchResult.document_id x))) out
  /\ (forall r, coll_get c document_id = Ok r ->
        out = []
        \/ (List.map SearchResult.chunk_id out = g_ids r
            /\ List.map SearchResult.content out
               = firstn (length (g_ids r)) (g_documents r))).
Proof.
  cbv zeta. unfold ChromaVectorStore.get_document_chunks,
    ChromaVectorStore.get_document_chunks_body.
  destruct (coll_get c document_id) as [r|e]; cbn [rbind try_except].
  - destruct (mapM _ _) as [out|e] eqn:Hout; cbn [try_except].
    + split.
      * apply (mapM_forall _ _ _ _ _ (fun i x Hx =>
                 let '(conj H1 (conj H2 _)) := get_row_fields r i x Hx in conj H1 H2)
                 _ Hout).
      * intros r' [= <-]. right.
        destruct (mapM_seq_ids _ _ _ _ Hout) as [Hid Hdoc].
        cbn [skipn] in Hid, Hdoc. rewrite firstn_all in Hid. split; assumption.
    + split; [constructor|]. intros r' _. left. reflexivity.
  - split; [constructor|]. intros r' [=].
Qed.

Lemma mapM_ok_exists (A B : Type) (f : A -> result B) (l : list A) :
  (forall a, In a l -> exists b, f a = Ok b) -> exists out, mapM f l = Ok out.
Proof.
  induction l as [|a l IH]; intros Hf; [exists []; reflexivity|].
  destruct (Hf a) as [b Hb]; [left; reflexivity|].
  destruct IH as [bs Hbs]; [intros a' Ha'; apply Hf; right; exact Ha'|].
  exists (b :: bs). cbn [mapM]. rewrite Hb. cbn [rbind]. rewrite Hbs. reflexivity.
Qed.

Lemma search_row_fields (r : QueryResult) (i : nat) (x : SearchResult.t)
    (ids0 : list string) (docs0 : list string) (mds0 : list metadata)
    (t1 : list (list string)) (t2 : list (list string)) (t3 : list (list metadata)) :
  q_ids r = ids0 :: t1 -> q_documents r = docs0 :: t2 -> q_metadatas r = mds0 :: t3 ->
  ChromaVectorStore.search_row r i = Ok x ->
  nth_error ids0 i = Some (SearchResult.chunk_id x)
  /\ nth_error docs0 i = Some (SearchResult.content x)
  /\ nth_error mds0 i = Some (SearchResult.metadata x)
  /\ SearchResult.metadata x !! "document_id" = Some (MStr (SearchResult.document_id x)).
Proof.
  intros Hids Hdocs Hmds. unfold ChromaVectorStore.search_row, py_index, dict_item.
  rewrite Hids, Hdocs, Hmds. cbn [nth_error rbind].
  destruct (nth_error ids0 i) as [cid|]; [|discriminate]. cbn [rbind].
  destruct (nth_error mds0 i) as [md|]; [|discriminate]. cbn [rbind].
  destruct (md !! "document_id") as [did|] eqn:Hdid; [|discriminate]. cbn [rbind].
  destruct (nth_error docs0 i) as [doc|]; [|discriminate]. cbn [rbind].
  destruct (q_distances r) as [|ds0 t4]; [discriminate|]. cbn [nth_error rbind].
  destruct (nth_error ds0 i) as [d|]; [|discriminate]. cbn [rbind].
  destruct did as [s| | | |]; try discriminate. cbn [as_str rbind].
  intros [= <-]. cbn. repeat split. exact Hdid.
Qed.

Lemma search_rows_fields (r : QueryResult)
    (ids0 : list string) (docs0 : list string) (mds0 : list metadata)
    (t1 : list (list string)) (t2 : list (list string)) (t3 : list (list metadata))
    (n : nat) :
  q_ids r = ids0 :: t1 -> q_documents r = docs0 :: t2 -> q_metadatas r = mds0 :: t3 ->
  forall (a : nat) (out : list SearchResult.t),
    mapM (ChromaVectorStore.search_row r) (seq a n) = Ok out ->
    List.map SearchResult.chunk_id out = firstn n (skipn a ids0)
    /\ List.map SearchResult.content out = firstn n (skipn a docs0)
    /\ List.map SearchResult.metadata out = firstn n (skipn a mds0).
Proof.
  intros Hids Hdocs Hmds. induction n as [|n IH]; intros a out Hout.
  - injection Hout as <-. repeat split.
  - cbn [seq mapM] in Hout.
    destruct (ChromaVectorStore.search_row r a) as [x|] eqn:Hx; [|discriminate].
    cbn [rbind] in Hout.
    destruct (mapM _ (seq (S a) n)) as [xs|] eqn:Hxs; [|discriminate].
    injection Hout as <-.
    destruct (search_row_fields _ _ _ _ _ _ _ _ _ Hids Hdocs Hmds Hx)
      as (Hid & Hdoc & Hmd & _).
    destruct (IH _ _ Hxs) as (IHid & IHdoc & IHmd).
    rewrite (skipn_nth_error _ _ _ _ Hid), (skipn_nth_error _ _ _ _ Hdoc),
      (skipn_nth_error _ _ _ _ Hmd).
    cbn [firstn List.map]. rewrite IHid, IHdoc, IHmd. repeat split.
Qed.

(** X2. When the index answers a search with parallel lists of one length
    in which every metadata names its document by a string, the search
    returns one result per stored row, in the order of the index: the ids,
    the texts and the metadata as reported, the score [1 - distance], and as
    document id the one the metadata names. *)
Theorem search_similar_rows
    (c : C) (query : string) (n_results : Z) (emb : list Q) (r : QueryResult)
    (ids0 docs0 : list string) (mds0 : list metadata) (ds0 : list Q) :
  encode query = Ok emb ->
  coll_query c [emb] n_results = Ok r ->
  q_ids r = [ids0] -> q_documents r = [docs0] ->
  q_metadatas r = [mds0] -> q_distances r = [ds0] ->
  length docs0 = length ids0 -> length mds0 = length ids0 ->
  length ds0 = length ids0 ->
  Forall (fun md => exists s, md !! "document_id" = Some (MStr s)) mds0 ->
  let out := ChromaVectorStore.search_similar c query n_results in
  List.map SearchResult.chunk_id out = ids0
  /\ List.map SearchResult.content out = docs0
  /\ List.map SearchResult.metadata out = mds0
  /\ scores out = List.map to_similarity ds0
  /\ Forall (fun x => SearchResult.metadata x !! "document_id"
                      = Some (MStr (SearchResult.document_id x))) out.
Proof.
  intros Henc Hquery Hids Hdocs Hmds Hds Hldocs Hlmds Hlds Hnamed out.
  assert (Hrows : exists rows,
             mapM (ChromaVectorStore.search_row r) (seq 0 (length ids0)) = Ok rows).
  { apply mapM_ok_exists. intros i Hi. apply in_seq in Hi.
    unfold ChromaVectorStore.search_row. rewrite Hids, Hdocs, Hmds, Hds.
    cbn [py_index nth_error rbind].
    rewrite (py_index_nth _ ids0 i "") by lia. cbn [rbind].
    rewrite (py_index_nth _ mds0 i ∅) by lia. cbn [rbind].
    assert (Hmd : exists s, nth i mds0 ∅ !! "document_id" = Some (MStr s)).
    { apply (proj1 (List.Forall_forall _ _) Hnamed), nth_In. lia. }
    destruct Hmd as [s Hs]. unfold dict_item. rewrite Hs. cbn [rbind].
    rewrite (py_index_nth _ docs0 i "") by lia. cbn [rbind].
    rewrite (py_index_nth _ ds0 i 0%Q) by lia. cbn [rbind as_str].
    eexists. reflexivity. }
  destruct Hrows as [rows Hrows].
  assert (Hout : out = rows).
  { subst out. unfold ChromaVectorStore.search_similar,
      ChromaVectorStore.search_similar_body, ChromaVectorStore._generate_embedding.
    rewrite Henc. cbn [rbind]. rewrite Hquery. cbn [rbind]. rewrite Hids.
    cbn [py_index nth_error rbind]. rewrite Hrows. reflexivity. }
  rewrite Hout.
  destruct (search_rows_fields r ids0 docs0 mds0 [] [] [] _ Hids Hdocs Hmds 0%nat rows Hrows)
    as (Hi & Hd & Hm).
  cbn [skipn] in Hi, Hd, Hm.
  rewrite firstn_all in Hi. rewrite <- Hldocs, firstn_all in Hd.
  rewrite <- Hlmds, firstn_all in Hm.
  split; [exact Hi|]. split; [exact Hd|]. split; [exact Hm|]. split.
  - rewrite (search_rows_scores r _ 0%nat rows Hrows).
    unfold nearest_distances. rewrite Hds. cbn [skipn].
    rewrite <- Hlds, firstn_all. reflexivity.
  - apply (mapM_forall _ _ _ _ _ (fun i x Hx =>
             let '(conj _ (conj _ (conj _ H))) :=
               search_row_fields r i x ids0 docs0 mds0 [] [] [] Hids Hdocs Hmds Hx in H)
             _ Hrows).
Qed.

(** X3. One stored row whose metadata does not name its document by a
    string is enough for a search that reaches it to return nothing at all:
    the rows that are well formed are dropped with it. *)
Theorem search_similar_malformed_row
    (c : C) (query : string) (n_results : Z) (emb : list Q) (r : QueryResult)
    (ids0 : list string) (t1 : list (list string))
    (mds0 : list metadata) (t3 : list (list metadata))
    (i : nat) (md : metadata) :
  encode query = Ok emb ->
  coll_query c [emb] n_results = Ok r ->
  q_ids r = ids0 :: t1 -> q_metadatas r = mds0 :: t3 ->
  (i < length ids0)%nat ->
  nth_error mds0 i = Some md ->
  (forall s, md !! "document_id" <> Some (MStr s)) ->
  ChromaVectorStore.search_similar c query n_results = [].
Proof.
  intros Henc Hquery Hids Hmds Hi Hmd Hbad.
  unfold ChromaVectorStore.search_similar, ChromaVectorStore.search_similar_body,
    ChromaVectorStore._generate_embedding.
  rewrite Henc. cbn [rbind]. rewrite Hquery. cbn [rbind]. rewrite Hids.
  cbn [py_index nth_error rbind].
  assert (Hrow : exists e, ChromaVectorStore.search_row r i = Raise e).
  { unfold ChromaVectorStore.search_row, py_index, dict_item.
    rewrite Hids, Hmds. cbn [nth_error rbind].
    destruct (nth_error ids0 i); [|eexists; reflexivity]. cbn [rbind].
    rewrite Hmd. cbn [rbind].
    destruct (md !! "document_id") as [did|] eqn:Hdid; [|eexists; reflexivity].
    cbn [rbind].
    destruct (q_documents r) as [|docs0 t2]; [eexists; reflexivity|].
    cbn [nth_error rbind].
    destruct (nth_error docs0 i); [|eexists; reflexivity]. cbn [rbind].
    destruct (q_distances r) as [|ds0 t4]; [eexists; reflexivity|].
    cbn [nth_error rbind].
    destruct (nth_error ds0 i); [|eexists; reflexivity]. cbn [rbind].
    destruct did as [name| | | |]; try (eexists; reflexivity).
    exfalso. exact (Hbad name eq_refl). }
  destruct Hrow as [e Hrow].
  destruct (mapM_raise _ _ (ChromaVectorStore.search_row r) (seq 0 (length ids0)) i e)
    as [e' ->]; [apply in_seq; lia | exact Hrow | reflexivity].
Qed.

End index_rows.

(** ** What [add_chunks] hands to the index *)

Section batches.
Context (EM : Embedder) {C : Type} (CO : Collection C).

Lemma add_chunks_loop_app (pre rest : list loc) :
  forall (h : heap) (b : Batch),
    ChromaVectorStore.add_chunks_loop h (pre ++ rest)%list b
    = match ChromaVectorStore.add_chunks_loop h pre b with
      | (Ok b1, h1) => ChromaVectorStore.add_chunks_loop h1 rest b1
      | (Raise e, h1) => (Raise e, h1)
      end.
Proof.
  induction pre as [|l pre IH]; intros h b; [reflexivity|].
  cbn [app ChromaVectorStore.add_chunks_loop].
  destruct (h !! l) as [chunk|]; [|reflexivity].
  destruct (DocumentChunk.embedding chunk); [apply IH|].
  destruct (ChromaVectorStore._generate_embedding _); [apply IH | reflexivity].
Qed.

Lemma embeddable_insert (h : heap) (l0 l : loc) (chunk0 : DocumentChunk.t) (v : list Q) :
  h !! l0 = Some chunk0 ->
  embeddable h l ->
  embeddable (<[l0 := DocumentChunk.set_embedding chunk0 v]> h) l.
Proof.
  intros Hl0 (chunk & Hl & Hemb). destruct (decide (l0 = l)) as [->|Hne].
  - exists (DocumentChunk.set_embedding chunk0 v). split; [apply lookup_insert_eq|].
    left. discriminate.
  - exists chunk. split; [|exact Hemb]. rewrite lookup_insert_ne by exact Hne. exact Hl.
Qed.

Lemma add_chunks_loop_succeeds (chunks : list loc) :
  forall (h : heap) (b : Batch),
    List.Forall (embeddable h) chunks ->
    exists b' h', ChromaVectorStore.add_chunks_loop h chunks b = (Ok b', h').
Proof.
  induction chunks as [|l chunks IH]; intros h b Hall; [eauto|].
  apply List.Forall_cons_iff in Hall as [(chunk & Hl & Hemb) Hall].
  cbn [ChromaVectorStore.add_chunks_loop]. rewrite Hl.
  destruct (DocumentChunk.embedding chunk) as [v|] eqn:Hv; [apply IH, Hall|].
  destruct Hemb as [Hemb|[v Henc]]; [congruence|].
  unfold ChromaVectorStore._generate_embedding. rewrite Henc.
  apply IH. eapply List.Forall_impl; [|exact Hall].
  intros l'. apply embeddable_insert, Hl.
Qed.

(** X4. When the embedding model fails on the text of a chunk that has no
    embedding, while every chunk before it in the list can be embedded,
    [add_chunks] reports failure and the index is not touched; but the
    chunks before it keep the embeddings the call wrote into them. *)
Theorem add_chunks_embedding_failure
    (h : heap) (c : C) (pre post : list loc) (l : loc)
    (chunk : DocumentChunk.t) (e : exn) :
  List.Forall (embeddable h) pre ->
  h !! l = Some chunk ->
  DocumentChunk.embedding chunk = None ->
  encode (DocumentChunk.content chunk) = Raise e ->
  exists h1,
    ChromaVectorStore.add_chunks h c (pre ++ l :: post)%list = (false, h1, c)
    /\ h1 !! l = Some chunk
    /\ forall l', In l' pre ->
         exists chunk', h1 !! l' = Some chunk'
                        /\ DocumentChunk.embedding chunk' <> None.
Proof.
  intros Hpre Hl Hnone Hfail.
  destruct (add_chunks_loop_succeeds pre h ChromaVectorStore.empty_batch Hpre)
    as (b1 & h1 & Hloop).
  destruct (add_chunks_loop_writes _ _ _ _ _ _ Hloop) as (_ & Hin & Hout).
  assert (Hnot : ~ In l pre).
  { intros Hl'. apply (proj1 (List.Forall_forall _ _) Hpre) in Hl'.
    destruct Hl' as (chunk' & Hl' & Hemb).
    assert (chunk' = chunk) as -> by congruence.
    destruct Hemb as [Hemb|[v Hv]]; congruence. }
  exists h1. split; [|split].
  - unfold ChromaVectorStore.add_chunks. rewrite add_chunks_loop_app, Hloop.
    cbn [ChromaVectorStore.add_chunks_loop]. rewrite (Hout l Hnot), Hl, Hnone.
    unfold ChromaVectorStore._generate_embedding. rewrite Hfail. reflexivity.
  - rewrite (Hout l Hnot). exact Hl.
  - exact Hin.
Qed.

Lemma written_embedded (a b : DocumentChunk.t) :
  written a b -> DocumentChunk.embedding a <> None -> b = a.
Proof. intros [|v Hnone _] Hsome; [reflexivity | contradiction]. Qed.

Lemma add_chunks_loop_batch (chunks : list loc) :
  forall (h h' : heap) (b0 b : Batch),
    ChromaVectorStore.add_chunks_loop h chunks b0 = (Ok b, h') ->
    exists objs embs,
      List.Forall2 (fun l o => h' !! l = Some o) chunks objs
      /\ List.map Some embs = List.map DocumentChunk.embedding objs
      /\ b_ids b = (b_ids b0 ++ List.map DocumentChunk.id objs)%list
      /\ b_embeddings b = (b_embeddings b0 ++ embs)%list
      /\ b_documents b = (b_documents b0 ++ List.map DocumentChunk.content objs)%list
      /\ b_metadatas b
         = (b_metadatas b0 ++ List.map ChromaVectorStore.chunk_metadata objs)%list.
Proof.
  induction chunks as [|l chunks IH]; intros h h' b0 b Hloop.
  - injection Hloop as <- <-. exists [], []. rewrite !app_nil_r.
    repeat split. constructor.
  - cbn [ChromaVectorStore.add_chunks_loop] in Hloop.
    destruct (h !! l) as [chunk|] eqn:Hl; [|discriminate].
    destruct (DocumentChunk.embedding chunk) as [v|] eqn:Hv.
    + destruct (add_chunks_loop_writes _ _ _ _ _ _ Hloop) as (Hall & _ & _).
      destruct (Hall _ _ Hl) as (chunk' & Hl' & Hw).
      apply written_embedded in Hw; [|congruence]. subst chunk'.
      destruct (IH _ _ _ _ Hloop) as (objs & embs & Hobjs & Hembs & Hi & He & Hd & Hm).
      exists (chunk :: objs), (v :: embs). cbn [List.map].
      rewrite Hi, He, Hd, Hm, Hembs, Hv. cbn [ChromaVectorStore.batch_append b_ids
        b_embeddings b_documents b_metadatas]. rewrite <- !app_assoc.
      repeat split. constructor; assumption.
    + unfold ChromaVectorStore._generate_embedding in Hloop.
      destruct (encode (DocumentChunk.content chunk)) as [v|]; [|discriminate].
      destruct (add_chunks_loop_writes _ _ _ _ _ _ Hloop) as (Hall & _ & _).
      destruct (Hall l (DocumentChunk.set_embedding chunk v)) as (chunk' & Hl' & Hw);
        [apply lookup_insert_eq|].
      apply written_embedded in Hw; [|discriminate]. subst chunk'.
      destruct (IH _ _ _ _ Hloop) as (objs & embs & Hobjs & Hembs & Hi & He & Hd & Hm).
      exists (DocumentChunk.set_embedding chunk v :: objs), (v :: embs). cbn [List.map].
      rewrite Hi, He, Hd, Hm, Hembs. cbn [ChromaVectorStore.batch_append b_ids
        b_embeddings b_documents b_metadatas DocumentChunk.embedding
        DocumentChunk.set_embedding]. rewrite <- !app_assoc.
      repeat split. constructor; assumption.
Qed.

(** X5. When every chunk of the list can be embedded, the index receives
    exactly one row per chunk, in the order of the list: the id, the text
    and the metadata of the chunk object as the call leaves it, and its
    embedding; and [add_chunks] returns [True] exactly when the index
    accepts that batch. *)
Theorem add_chunks_batch (h : heap) (c : C) (chunks : list loc) :
  List.Forall (embeddable h) chunks ->
  exists h' objs embs,
    List.Forall2 (fun l o => h' !! l = Some o) chunks objs
    /\ List.map Some embs = List.map DocumentChunk.embedding objs
    /\ ChromaVectorStore.add_chunks h c chunks
       = (succeeded
            (fst (coll_add c
                    {| b_ids := List.map DocumentChunk.id objs;
                       b_embeddings := embs;
                       b_documents := List.map DocumentChunk.content objs;
                       b_metadatas := List.map ChromaVectorStore.chunk_metadata objs |})),
          h',
          snd (coll_add c
                 {| b_ids := List.map DocumentChunk.id objs;
                    b_embeddings := embs;
                    b_documents := List.map DocumentChunk.content objs;
                    b_metadatas := List.map ChromaVectorStore.chunk_metadata objs |})).
Proof.
  intros Hall.
  destruct (add_chunks_loop_succeeds chunks h ChromaVectorStore.empty_batch Hall)
    as (b & h' & Hloop).
  destruct (add_chunks_loop_batch _ _ _ _ _ Hloop)
    as (objs & embs & Hobjs & Hembs & Hi & He & Hd & Hm).
  exists h', objs, embs. split; [exact Hobjs|]. split; [exact Hembs|].
  unfold ChromaVectorStore.add_chunks. rewrite Hloop.
  cbn [ChromaVectorStore.empty_batch b_ids b_embeddings b_documents b_metadatas app]
    in Hi, He, Hd, Hm.
  destruct b as [bi be bd bm]. cbn in Hi, He, Hd, Hm. subst bi be bd bm.
  destruct (coll_add c _) as [[u|e] c']; reflexivity.
Qed.

(** X6. The metadata stored for a chunk: every key of the chunk's own
    metadata keeps its value, also when it is one of the four keys the call
    adds; and a key of those four that the chunk's metadata lacks gets the
    chunk's document id, its index, and the empty string for the file name
    and for the document type. *)
Theorem chunk_metadata_fields (chunk : DocumentChunk.t) :
  let own := DocumentChunk.metadata chunk in
  let stored := ChromaVectorStore.chunk_metadata chunk in
  (forall k v, own !! k = Some v -> stored !! k = Some v)
  /\ stored !! "document_id"
     = Some (dict_get own "document_id" (MStr (DocumentChunk.document_id chunk)))
  /\ stored !! "chunk_index"
     = Some (dict_get own "chunk_index" (MInt (DocumentChunk.chunk_index chunk)))
  /\ stored !! "filename" = Some (dict_get own "filename" (MStr ""))
  /\ stored !! "document_type" = Some (dict_get own "document_type" (MStr ""))
  /\ (forall k, k <> "document_id" -> k <> "chunk_index" -> k <> "filename" ->
                k <> "document_type" -> stored !! k = own !! k).
Proof.
  cbv zeta. unfold ChromaVectorStore.chunk_metadata, dict_get.
  split; [|repeat split].
  - intros k v Hk. apply lookup_union_Some_l, Hk.
  - destruct (DocumentChunk.metadata chunk !! "document_id") as [v|] eqn:Hk.
    + apply lookup_union_Some_l, Hk.
    + rewrite lookup_union_r by exact Hk. reflexivity.
  - destruct (DocumentChunk.metadata chunk !! "chunk_index") as [v|] eqn:Hk.
    + apply lookup_union_Some_l, Hk.
    + rewrite lookup_union_r by exact Hk. reflexivity.
  - destruct (DocumentChunk.metadata chunk !! "filename") as [v|] eqn:Hk.
    + apply lookup_union_Some_l, Hk.
    + rewrite lookup_union_r by exact Hk.
      rewrite !lookup_insert_ne by discriminate. rewrite lookup_insert_eq.
      reflexivity.
  - destruct (DocumentChunk.metadata chunk !! "document_type") as [v|] eqn:Hk.
    + apply lookup_union_Some_l, Hk.
    + rewrite lookup_union_r by exact Hk.
      rewrite !lookup_insert_ne by discriminate. rewrite lookup_insert_eq.
      reflexivity.
  - intros k H1 H2 H3 H4.
    destruct (DocumentChunk.metadata chunk !! k) as [v|] eqn:Hk.
    + apply lookup_union_Some_l, Hk.
    + rewrite lookup_union_r by exact Hk.
      rewrite !lookup_insert_ne by congruence. apply lookup_empty.
Qed.

End batches.

(** ** Deleting one document leaves the others *)

Section delete_frame.
Import MemoryCollection.

Lemma of_document_exclusive (a b : string) (r : Row) :
  a <> b -> of_document b r = true -> of_document a r = false.
Proof.
  unfold of_document. intros Hne.
  destruct (row_metadata r !! "document_id") as [[s| | | |]|]; try discriminate.
  intros Hb. apply String.eqb_eq in Hb. subst s. apply String.eqb_neq.
  congruence.
Qed.

(** X7. On the index held in memory, deleting one document changes nothing
    for another: the chunks found for a different document id are the same
    before and after. *)
Theorem delete_document_keeps_others (c : list Row) (document_id other : string) :
  document_id <> other ->
  ChromaVectorStore.get_document_chunks
    (snd (ChromaVectorStore.delete_document c document_id)) other
  = ChromaVectorStore.get_document_chunks c other.
Proof.
  intros Hne. unfold ChromaVectorStore.delete_document,
    ChromaVectorStore.get_document_chunks, ChromaVectorStore.get_document_chunks_body.
  cbn [coll_delete coll_get collection delete get fst snd].
  assert (Hf : List.filter (of_document other)
                 (List.filter (fun r => negb (of_document document_id r)) c)
               = List.filter (of_document other) c).
  { induction c as [|r c IH]; [reflexivity|]. cbn [List.filter].
    destruct (of_document other r) eqn:Ho.
    - rewrite (of_document_exclusive _ _ _ Hne Ho). cbn [negb List.filter].
      rewrite Ho, IH. reflexivity.
    - destruct (of_document document_id r); cbn [negb List.filter];
        [exact IH | rewrite Ho; exact IH]. }
  unfold get. rewrite Hf. reflexivity.
Qed.

End delete_frame.

(** ** Items read from a reply *)

Section items.

Lemma rstrip_idem (s : string) : PyStr.rstrip (PyStr.rstrip s) = PyStr.rstrip s.
Proof.
  induction s as [|c s IH]; [reflexivity|].
  cbn [PyStr.rstrip]. destruct (PyStr.rstrip s) as [|d r] eqn:Hr.
  - destruct (PyStr.is_space c) eqn:Hc; [reflexivity|].
    cbn [PyStr.rstrip]. rewrite Hc. reflexivity.
  - change (PyStr.rstrip (String c (String d r)))
      with (match PyStr.rstrip (String d r) with
            | "" => if PyStr.is_space c then "" else String c ""
            | String x y => String c (String x y)
            end).
    rewrite IH. reflexivity.
Qed.

(** The text does not begin with whitespace. *)
Lemma lstrip_fixed (s : string) :
  match s with "" => True | String c _ => PyStr.is_space c = false end ->
  PyStr.lstrip s = s.
Proof. destruct s as [|c s]; [reflexivity|]. simpl. intros ->. reflexivity. Qed.

Lemma lstrip_starts (s : string) :
  match PyStr.lstrip s with "" => True | String c _ => PyStr.is_space c = false end.
Proof.
  induction s as [|c s IH]; [exact I|]. cbn [PyStr.lstrip].
  destruct (PyStr.is_space c) eqn:Hc; [exact IH | exact Hc].
Qed.

Lemma rstrip_starts (s : string) :
  match s with "" => True | String c _ => PyStr.is_space c = false end ->
  match PyStr.rstrip s with "" => True | String c _ => PyStr.is_space c = false end.
Proof.
  destruct s as [|c s]; [intros _; exact I|]. intros Hc. cbn [PyStr.rstrip].
  destruct (PyStr.rstrip s); [rewrite Hc|]; exact Hc.
Qed.

Lemma strip_idem (s : string) : PyStr.strip (PyStr.strip s) = PyStr.strip s.
Proof.
  unfold PyStr.strip.
  rewrite (lstrip_fixed (PyStr.rstrip (PyStr.lstrip s)))
    by apply rstrip_starts, lstrip_starts.
  apply rstrip_idem.
Qed.

Lemma prefix_empty (s : string) : String.prefix "" s = true.
Proof. destruct s; reflexivity. Qed.

Lemma contains_char (c : ascii) (s : string) :
  PyStr.contains (String c "") s = negb (PyStr.char_free c s).
Proof.
  induction s as [|d s IH]; [reflexivity|].
  cbn [PyStr.contains PyStr.char_free String.prefix]. rewrite IH, prefix_empty.
  destruct (ascii_dec c d) as [->|Hne].
  - rewrite Ascii.eqb_refl. reflexivity.
  - assert (Ascii.eqb d c = false) as -> by (apply Ascii.eqb_neq; congruence).
    reflexivity.
Qed.

Lemma lstrip_char_free (c : ascii) (s : string) :
  PyStr.char_free c s = true -> PyStr.char_free c (PyStr.lstrip s) = true.
Proof.
  induction s as [|d s IH]; [reflexivity|]. intros Hs. cbn [PyStr.lstrip].
  destruct (PyStr.is_space d); [|exact Hs].
  cbn [PyStr.char_free] in Hs. apply andb_true_iff in Hs as [_ Hs]. exact (IH Hs).
Qed.

Lemma rstrip_char_free (c : ascii) (s : string) :
  PyStr.char_free c s = true -> PyStr.char_free c (PyStr.rstrip s) = true.
Proof.
  induction s as [|d s IH]; [reflexivity|]. intros Hs.
  cbn [PyStr.char_free] in Hs. apply andb_true_iff in Hs as [Hd Hs].
  specialize (IH Hs). cbn [PyStr.rstrip].
  destruct (PyStr.rstrip s) as [|x r].
  - destruct (PyStr.is_space d); [reflexivity|]. cbn [PyStr.char_free].
    rewrite Hd. reflexivity.
  - cbn [PyStr.char_free] in *. rewrite Hd. exact IH.
Qed.

Lemma split_comma_char_free (s : string) :
  List.Forall (fun p => PyStr.char_free "," p = true) (PyStr.split "," s).
Proof.
  unfold PyStr.split. induction s as [|c s IH]; [repeat constructor|].
  cbn [PyStr.split_go String.length Nat.sub].
  destruct (String.prefix "," (String c s)) eqn:Hp; [constructor; [reflexivity | exact IH]|].
  assert (Hc : Ascii.eqb c "," = false).
  { apply Ascii.eqb_neq. intros ->. cbn [String.prefix] in Hp.
    destruct (ascii_dec "," ","); [|congruence]. rewrite prefix_empty in Hp.
    discriminate. }
  destruct (PyStr.split_go "," s 0) as [|p ps].
  - repeat constructor. cbn [PyStr.char_free]. rewrite Hc. reflexivity.
  - apply List.Forall_cons_iff in IH as [Hp' Hps]. constructor; [|exact Hps].
    cbn [PyStr.char_free]. rewrite Hc. exact Hp'.
Qed.

Lemma extraction_outcome (LM : LanguageModel) (settings : Settings)
    (content : string) :
  DocumentProcessor.extract_parties_and_issues settings content
  = match llm_invoke (DocumentProcessor.llm settings)
            (DocumentProcessor.extraction_prompt (PyStr.take 2000 content)) with
    | Ok reply =>
        (MarkerSpec.field ["PARTIES:"; "ISSUES:"] "PARTIES:" reply,
         MarkerSpec.field ["ISSUES:"] "ISSUES:" reply)
    | Raise _ => ([], [])
    end.
Proof.
  unfold DocumentProcessor.extract_parties_and_issues.
  destruct (llm_invoke _ _) as [reply|e]; [|reflexivity].
  cbn [rbind]. rewrite parse_parties_and_issues_fields. reflexivity.
Qed.

(** The items of a comma-separated text are non-empty, trimmed, and free
    of commas. *)
Lemma comma_items_clean (s item : string) :
  In item (PyStr.comma_items s) ->
  item <> "" /\ PyStr.strip item = item /\ PyStr.contains "," item = false.
Proof.
  unfold PyStr.comma_items. intros Hitem.
  apply List.filter_In in Hitem as [Hin Hne].
  apply List.in_map_iff in Hin as (p & <- & Hp).
  split; [|split].
  - intros E. rewrite E in Hne. discriminate.
  - apply strip_idem.
  - rewrite contains_char. apply negb_false_iff.
    unfold PyStr.strip. apply rstrip_char_free, lstrip_char_free.
    exact (proj1 (List.Forall_forall _ _) (split_comma_char_free _) p Hp).
Qed.

Lemma field_clean (stops : list string) (marker text item : string) :
  In item (MarkerSpec.field stops marker text) ->
  item <> "" /\ PyStr.strip item = item /\ PyStr.contains "," item = false.
Proof.
  unfold MarkerSpec.field. destruct (MarkerSpec.text_after marker text); [|intros []].
  apply comma_items_clean.
Qed.

(** X8. Every party and every issue that extraction returns, and every key
    point that the evaluate stage returns, is a non-empty string without
    surrounding whitespace and without a comma, whatever the model
    replied. *)
Theorem extracted_items_clean (RT : Runtime) (LM : LanguageModel) (settings : Settings)
    (content response : string) (document : LegalDocument.t) (item : string) :
  In item (fst (DocumentProcessor.extract_parties_and_issues settings content))
  \/ In item (snd (DocumentProcessor.extract_parties_and_issues settings content))
  \/ In item (LegalAgentSystem.key_points
                (LegalAgentSystem._evaluate_response_quality settings response document)) ->
  item <> "" /\ PyStr.strip item = item /\ PyStr.contains "," item = false.
Proof.
  unfold LegalAgentSystem._evaluate_response_quality.
  rewrite extraction_outcome.
  destruct (llm_invoke (DocumentProcessor.llm settings) _) as [reply|e];
    destruct (llm_invoke (LegalAgentSystem.llm settings) _) as [eval_text|e'];
    cbn [rbind try_except fst snd LegalAgentSystem.key_points
           LegalAgentSystem.evaluation_failed];
    try rewrite parse_evaluation_total;
    cbn [try_except LegalAgentSystem.key_points];
    intros [H|[H|H]]; try (destruct H; fail);
    try (exact (field_clean _ _ _ _ H)).
  all: unfold EvaluationSpec.key_points_of in H;
    destruct (MarkerSpec.text_after "KEY_POINTS:" eval_text); [|destruct H];
    exact (comma_items_clean _ _ H).
Qed.

End items.

(** ** Stages of the pipeline that fail *)

Section stages.
Context (RT : Runtime) (LM : LanguageModel) (EM : Embedder)
        {C : Type} (CO : Collection C) (settings : Settings).

Lemma fold_append (A B : Type) (f : A -> B -> string) (l : list (A * B)) :
  forall init, exists tail,
    fold_left (fun acc '(a, b) => acc ++ f a b) l init = init ++ tail.
Proof.
  induction l as [|[a b] l IH]; intros init.
  - exists "". symmetry. apply app_empty_r.
  - cbn [fold_left]. destruct (IH (init ++ f a b)) as [tail ->].
    exists (f a b ++ tail). apply app_assoc_str.
Qed.

(** X9. The block of precedents is never empty: it is the sentence that
    says none was found exactly when the search returns nothing, and begins
    with the heading of the list when the search returns something. *)
Theorem precedent_block (vector_store : C) (query : string) :
  let results := ChromaVectorStore.search_similar vector_store query 3 in
  let block := PrecedentSearchTool._run vector_store query in
  block <> ""
  /\ (block = "No similar precedents found in the knowledge base." <-> results = [])
  /\ (results <> [] -> String.prefix "Similar precedents found:" block = true).
Proof.
  cbv zeta. unfold PrecedentSearchTool._run.
  destruct (ChromaVectorStore.search_similar vector_store query 3) as [|x xs].
  - split; [discriminate|]. split; [split; reflexivity|]. intros Hne. congruence.
  - destruct (fold_append _ _ PrecedentSearchTool.render
                (List.combine (seq 1 (length (x :: xs))) (x :: xs))
                ("Similar precedents found:" ++ PyStr.nl ++ PyStr.nl)) as [tail Htail].
    assert (Hblock : fold_left
                       (fun precedent_text '(i, result) =>
                          precedent_text ++ PrecedentSearchTool.render i result)
                       (List.combine (seq 1 (length (x :: xs))) (x :: xs))
                       ("Similar precedents found:" ++ PyStr.nl ++ PyStr.nl)
                     = "Similar precedents found:" ++ (PyStr.nl ++ PyStr.nl ++ tail)).
    { rewrite Htail, !app_assoc_str. reflexivity. }
    rewrite Hblock.
    assert (Hprefix : String.prefix "Similar precedents found:"
                        ("Similar precedents found:" ++ (PyStr.nl ++ PyStr.nl ++ tail))
                      = true).
    { apply prefix_app_r with (s := "Similar precedents found:"). reflexivity. }
    split; [|split].
    + intros E. rewrite E in Hprefix. discriminate.
    + split; [|discriminate]. intros E. rewrite E in Hprefix. discriminate.
    + intros _. exact Hprefix.
Qed.

(** X10. An embedding model that fails on the search query does not fail
    the pipeline: the analysis being there, the response is generated from
    it and from the sentence that says no precedent was found. *)
Theorem generate_stage_without_index
    (vector_store : C) (document : LegalDocument.t) (response_type analysis : string)
    (e : exn) :
  LegalAnalysisTool._run settings (LegalDocument.content document) = Ok analysis ->
  encode (LegalAgentSystem.search_query document) = Raise e ->
  LegalAgentSystem.generate_stage settings vector_store document response_type
  = ResponseGeneratorTool._run settings analysis
      "No similar precedents found in the knowledge base." response_type.
Proof.
  intros Han Henc. unfold LegalAgentSystem.generate_stage. rewrite Han. cbn [rbind].
  unfold PrecedentSearchTool._run, ChromaVectorStore.search_similar,
    ChromaVectorStore.search_similar_body, ChromaVectorStore._generate_embedding.
  rewrite Henc. reflexivity.
Qed.

(** X11. A failure of the evaluation call does not fail the pipeline
    either: the response is returned in full, with the generated text, the
    requested type as its tone, confidence 0.5, the reasoning
    ["Evaluation failed"] and no key points. *)
Theorem evaluation_failure_absorbed
    (vector_store : C) (document : LegalDocument.t) (response_type suggested : string)
    (e : exn) :
  LegalAgentSystem.generate_stage settings vector_store document response_type
  = Ok suggested ->
  llm_invoke (LegalAgentSystem.llm settings)
    (LegalAgentSystem.evaluation_prompt
       (PyStr.join ", " (LegalDocument.key_issues document))
       (PyStr.join ", " (LegalDocument.parties_involved document))
       suggested) = Raise e ->
  LegalAgentSystem.generate_legal_response settings vector_store document response_type
  = Ok {| LegalResponse.document_id := LegalDocument.id document;
          LegalResponse.response_type := response_type;
          LegalResponse.suggested_response := suggested;
          LegalResponse.confidence_score := 1 # 2;
          LegalResponse.reasoning := "Evaluation failed";
          LegalResponse.key_points := [];
          LegalResponse.tone := response_type;
          LegalResponse.created_at := now |}.
Proof.
  intros Hgen Heval. unfold LegalAgentSystem.generate_legal_response,
    LegalAgentSystem.generate_legal_response_body,
    LegalAgentSystem._evaluate_response_quality.
  rewrite Hgen. cbn [rbind]. rewrite Heval. reflexivity.
Qed.

(** X12. Which of the two responses the pipeline returns: the error-tagged
    one when the analysis or the generation call fails, and the one
    assembled from the stages when they succeed and the confidence read by
    the evaluate stage lies in [0,1]. *)
Theorem generate_legal_response_cases
    (vector_store : C) (document : LegalDocument.t) (response_type : string) :
  (forall e,
     LegalAgentSystem.generate_stage settings vector_store document response_type
     = Raise e ->
     LegalAgentSystem.generate_legal_response settings vector_store document response_type
     = Ok {| LegalResponse.document_id := LegalDocument.id document;
             LegalResponse.response_type := response_type;
             LegalResponse.suggested_response :=
               "Error generating response. Please try again.";
             LegalResponse.confidence_score := 0;
             LegalResponse.reasoning := "Error occurred during response generation";
             LegalResponse.key_points := [];
             LegalResponse.tone := "error";
             LegalResponse.created_at := now |})
  /\ (forall suggested,
        LegalAgentSystem.generate_stage settings vector_store document response_type
        = Ok suggested ->
        let ev := LegalAgentSystem._evaluate_response_quality settings suggested document in
        (0 <= LegalAgentSystem.confidence ev)%Q ->
        (LegalAgentSystem.confidence ev <= 1)%Q ->
        LegalAgentSystem.generate_legal_response settings vector_store document
          response_type
        = Ok {| LegalResponse.document_id := LegalDocument.id document;
                LegalResponse.response_type := response_type;
                LegalResponse.suggested_response := suggested;
                LegalResponse.confidence_score := LegalAgentSystem.confidence ev;
                LegalResponse.reasoning := LegalAgentSystem.reasoning ev;
                LegalResponse.key_points := LegalAgentSystem.key_points ev;
                LegalResponse.tone := response_type;
                LegalResponse.created_at := now |}).
Proof.
  unfold LegalAgentSystem.generate_legal_response,
    LegalAgentSystem.generate_legal_response_body.
  split.
  - intros e ->. reflexivity.
  - intros suggested Hgen H0 H1. rewrite Hgen. cbn [rbind].
    rewrite (new_accepts RT _ _ _ _ _ _ _ H0 H1). reflexivity.
Qed.

End stages.

(** ** Responding for a stored document *)

Section respond.
Context (RT : Runtime) (LM : LanguageModel) (EM : Embedder)
        {C : Type} (CO : Collection C) (settings : Settings).

Lemma generate_legal_response_returns
    (vector_store : C) (document : LegalDocument.t) (response_type : string) :
  exists r,
    LegalAgentSystem.generate_legal_response settings vector_store document response_type
    = Ok r
    /\ LegalResponse.document_id r = LegalDocument.id document
    /\ LegalResponse.response_type r = response_type.
Proof.
  unfold LegalAgentSystem.generate_legal_response.
  destruct (LegalAgentSystem.generate_legal_response_body _ _ _ _) as [r|e] eqn:Hbody.
  - exists r. split; [reflexivity|].
    unfold LegalAgentSystem.generate_legal_response_body in Hbody.
    destruct (LegalAgentSystem.generate_stage _ _ _ _); [|discriminate].
    cbn [rbind] in Hbody. unfold LegalResponse.new in Hbody.
    destruct (_ && _); [|discriminate]. injection Hbody as <-. split; reflexivity.
  - rewrite error_response_built. eexists. split; [reflexivity|]. split; reflexivity.
Qed.

Lemma respond_rebuilds
    (vector_store : C) (document_id response_type : string)
    (chunk0 : SearchResult.t) (rest : list SearchResult.t)
    (filename : string) (document_type : DocumentType) (parties issues : list string) :
  ChromaVectorStore.get_document_chunks vector_store document_id = chunk0 :: rest ->
  as_str (dict_get (SearchResult.metadata chunk0) "filename" (MStr "Unknown"))
  = Ok filename ->
  as_DocumentType (dict_get (SearchResult.metadata chunk0) "document_type"
                     (MStr "legal_letter")) = Ok document_type ->
  as_str_list (dict_get (SearchResult.metadata chunk0) "parties_involved" (MList []))
  = Ok parties ->
  as_str_list (dict_get (SearchResult.metadata chunk0) "key_issues" (MList []))
  = Ok issues ->
  exists r,
    LegalAISystem.generate_response_for_document settings vector_store document_id
      response_type = Some r
    /\ LegalAgentSystem.generate_legal_response settings vector_store
         {| LegalDocument.id := document_id;
            LegalDocument.filename := filename;
            LegalDocument.content :=
              PyStr.join PyStr.nl (List.map SearchResult.content (chunk0 :: rest));
            LegalDocument.document_type := document_type;
            LegalDocument.metadata := SearchResult.metadata chunk0;
            LegalDocument.created_at := now;
            LegalDocument.parties_involved := parties;
            LegalDocument.key_issues := issues |}
         response_type = Ok r
    /\ LegalResponse.document_id r = document_id
    /\ LegalResponse.response_type r = response_type.
Proof.
  intros Hchunks Hname Htype Hparties Hissues.
  unfold LegalAISystem.generate_response_for_document,
    LegalAISystem.generate_response_for_document_body.
  rewrite Hchunks, Hname. cbn [rbind]. rewrite Htype. cbn [rbind].
  rewrite Hparties. cbn [rbind]. rewrite Hissues. cbn [rbind].
  destruct (generate_legal_response_returns vector_store
              {| LegalDocument.id := document_id;
                 LegalDocument.filename := filename;
                 LegalDocument.content :=
                   PyStr.join PyStr.nl (List.map SearchResult.content (chunk0 :: rest));
                 LegalDocument.document_type := document_type;
                 LegalDocument.metadata := SearchResult.metadata chunk0;
                 LegalDocument.created_at := now;
                 LegalDocument.parties_involved := parties;
                 LegalDocument.key_issues := issues |} response_type)
    as (r & Hr & Hid & Hrt).
  exists r. rewrite Hr. cbn [rbind try_except]. repeat split; assumption.
Qed.

(** X13. When the index holds chunks for the document id and the metadata
    of the first one validates, a response is always returned, for that id
    and of the requested type.  It is the response of the pipeline to the
    document rebuilt from the chunks: the text is the texts of the chunks,
    in the order the index gives them, joined by line breaks; the file name,
    the type, the parties and the issues are those of the first chunk's
    metadata. *)
Theorem generate_response_for_document_found
    (vector_store : C) (document_id response_type : string)
    (chunk0 : SearchResult.t) (rest : list SearchResult.t)
    (filename : string) (document_type : DocumentType) (parties issues : list string) :
  ChromaVectorStore.get_document_chunks vector_store document_id = chunk0 :: rest ->
  as_str (dict_get (SearchResult.metadata chunk0) "filename" (MStr "Unknown"))
  = Ok filename ->
  as_DocumentType (dict_get (SearchResult.metadata chunk0) "document_type"
                     (MStr "legal_letter")) = Ok document_type ->
  as_str_list (dict_get (SearchResult.metadata chunk0) "parties_involved" (MList []))
  = Ok parties ->
  as_str_list (dict_get (SearchResult.metadata chunk0) "key_issues" (MList []))
  = Ok issues ->
  exists r,
    LegalAISystem.generate_response_for_document settings vector_store document_id
      response_type = Some r
    /\ LegalAgentSystem.generate_legal_response settings vector_store
         {| LegalDocument.id := document_id;
            LegalDocument.filename := filename;
            LegalDocument.content :=
              PyStr.join PyStr.nl (List.map SearchResult.content (chunk0 :: rest));
            LegalDocument.document_type := document_type;
            LegalDocument.metadata := SearchResult.metadata chunk0;
            LegalDocument.created_at := now;
            LegalDocument.parties_involved := parties;
            LegalDocument.key_issues := issues |}
         response_type = Ok r
    /\ LegalResponse.document_id r = document_id
    /\ LegalResponse.response_type r = response_type.
Proof. apply respond_rebuilds. Qed.

Lemma chunk_metadata_default_type (chunk : DocumentChunk.t) :
  DocumentChunk.metadata chunk !! "document_type" = None ->
  ChromaVectorStore.chunk_metadata chunk !! "document_type" = Some (MStr "").
Proof.
  intros Hk. unfold ChromaVectorStore.chunk_metadata, dict_get.
  rewrite lookup_union_r by exact Hk.
  rewrite !lookup_insert_ne by discriminate. rewrite lookup_insert_eq, Hk.
  reflexivity.
Qed.

(** X14. A chunk that was stored without a document type in its metadata
    got the empty string as its type; when the index returns such a chunk
    first, no response is generated: the empty string is not a document
    type, the document cannot be rebuilt, and the call returns [None] as it
    does for a document that is not there. *)
Theorem generate_response_for_document_untyped
    (vector_store : C) (document_id response_type : string)
    (chunk0 : SearchResult.t) (rest : list SearchResult.t) (chunk : DocumentChunk.t) :
  ChromaVectorStore.get_document_chunks vector_store document_id = chunk0 :: rest ->
  SearchResult.metadata chunk0 = ChromaVectorStore.chunk_metadata chunk ->
  DocumentChunk.metadata chunk !! "document_type" = None ->
  LegalAISystem.generate_response_for_document settings vector_store document_id
    response_type = None.
Proof.
  intros Hchunks Hmd Hnone.
  unfold LegalAISystem.generate_response_for_document,
    LegalAISystem.generate_response_for_document_body.
  rewrite Hchunks, Hmd.
  destruct (as_str _) as [filename|]; [|reflexivity]. cbn [rbind].
  unfold dict_get at 1. rewrite (chunk_metadata_default_type chunk Hnone).
  reflexivity.
Qed.

End respond.

(** ** Processing a PDF file *)

Section processing.
Context (RT : Runtime) (LM : LanguageModel) (XT : ExceptionText) (PL : PdfLibrary)
        (settings : Settings).

Lemma enumerate_chunks (drawn : nat) (document_id : string) (metadata : gmap string mval)
    (l : list string) :
  forall a : nat,
    let cs :=
      List.map
        (fun '(i, chunk_text) =>
           {| DocumentChunk.id := uuid4 (drawn + i);
              DocumentChunk.document_id := document_id;
              DocumentChunk.content := chunk_text;
              DocumentChunk.chunk_index := Z.of_nat i;
              DocumentChunk.metadata := metadata;
              DocumentChunk.embedding := None |})
        (List.combine (seq a (length l)) l) in
    length cs = length l
    /\ List.map DocumentChunk.chunk_index cs = List.map Z.of_nat (seq a (length l))
    /\ List.map DocumentChunk.id cs
       = List.map (fun i => uuid4 (drawn + i)) (seq a (length l))
    /\ List.map DocumentChunk.content cs = l
    /\ List.Forall (fun ch => DocumentChunk.document_id ch = document_id
                              /\ DocumentChunk.metadata ch = metadata
                              /\ DocumentChunk.embedding ch = None) cs.
Proof.
  induction l as [|x l IH]; intros a; cbv zeta.
  - repeat split. constructor.
  - destruct (IH (S a)) as (Hlen & Hidx & Hid & Hcontent & Hall).
    cbn [length seq List.combine List.map]. rewrite Hlen, Hidx, Hid, Hcontent.
    repeat split. constructor; [repeat split | exact Hall].
Qed.

(** X15. The chunks created for a document are numbered from 0 without
    gaps, in the order of the fragments whose texts they hold; each belongs
    to the document, carries the metadata it was given, and has no
    embedding yet. *)
Theorem create_chunks_numbered (drawn : nat) (content document_id : string)
    (metadata : gmap string mval) :
  let chunks := DocumentProcessor.create_chunks drawn content document_id metadata in
  List.map DocumentChunk.chunk_index chunks
  = List.map Z.of_nat (seq 0 (length chunks))
  /\ List.map DocumentChunk.content chunks
     = RecursiveCharacterTextSplitter.split_text DocumentProcessor.text_splitter content
  /\ List.Forall (fun ch => DocumentChunk.document_id ch = document_id
                            /\ DocumentChunk.metadata ch = metadata
                            /\ DocumentChunk.embedding ch = None) chunks.
Proof.
  cbv zeta. unfold DocumentProcessor.create_chunks.
  destruct (enumerate_chunks drawn document_id metadata
              (RecursiveCharacterTextSplitter.split_text
                 DocumentProcessor.text_splitter content) 0)
    as (Hlen & Hidx & _ & Hcontent & Hall).
  rewrite Hlen. repeat split; assumption.
Qed.

Lemma pages_text_ok (pages : list (result string)) :
  forall text out,
    PdfProcessor.pages_text pages text = Ok out ->
    exists texts,
      pages = List.map Ok texts
      /\ out = text ++ PyStr.join "" (List.map (fun t => t ++ PyStr.nl) texts).
Proof.
  induction pages as [|page pages IH]; intros text out Hout.
  - injection Hout as <-. exists []. split; [reflexivity|].
    symmetry. apply app_empty_r.
  - cbn [PdfProcessor.pages_text] in Hout. destruct page as [t|]; [|discriminate].
    cbn [rbind] in Hout. destruct (IH _ _ Hout) as (texts & -> & ->).
    exists (t :: texts). split; [reflexivity|].
    cbn [List.map]. rewrite join_empty_cons, !app_assoc_str. reflexivity.
Qed.

Lemma pages_text_raise (pages : list (result string)) :
  forall text e,
    PdfProcessor.pages_text pages text = Raise e -> In (Raise e) pages.
Proof.
  induction pages as [|page pages IH]; intros text e Hout; [discriminate|].
  cbn [PdfProcessor.pages_text] in Hout. destruct page as [t|e0].
  - right. exact (IH _ _ Hout).
  - left. cbn [rbind] in Hout. congruence.
Qed.

(** X16. Text extraction returns the texts of the pages in order, each
    followed by a line break, and the whole without leading or trailing
    whitespace; and whatever goes wrong, in opening the file or in reading a
    page, comes out as one exception whose message begins with
    ["Error extracting text from PDF: "] and ends with the message of the
    cause. *)
Theorem extract_text_from_pdf_outcome (pdf_path : string) :
  (forall text,
     PdfProcessor.extract_text_from_pdf pdf_path = Ok text ->
     PyStr.strip text = text
     /\ exists texts,
          pdf_pages pdf_path = Ok (List.map Ok texts)
          /\ text = PyStr.strip (PyStr.join "" (List.map (fun t => t ++ PyStr.nl) texts)))
  /\ (forall e,
        PdfProcessor.extract_text_from_pdf pdf_path = Raise e ->
        exists cause,
          e = ServiceError ("Error extracting text from PDF: " ++ exn_str cause)
          /\ (pdf_pages pdf_path = Raise cause
              \/ exists pages, pdf_pages pdf_path = Ok pages /\ In (Raise cause) pages)).
Proof.
  unfold PdfProcessor.extract_text_from_pdf.
  destruct (pdf_pages pdf_path) as [pages|e0]; cbn [rbind].
  - destruct (PdfProcessor.pages_text pages "") as [out|e1] eqn:Hout; cbn [rbind].
    + split; [|intros e [=]]. intros text [= <-]. split; [apply strip_idem|].
      destruct (pages_text_ok _ _ _ Hout) as (texts & -> & ->).
      exists texts. split; reflexivity.
    + split; [intros text [=]|]. intros e [= <-]. exists e1. split; [reflexivity|].
      right. exists pages. split; [reflexivity | exact (pages_text_raise _ _ _ Hout)].
  - split; [intros text [=]|]. intros e [= <-]. exists e0. split; [reflexivity|].
    left. reflexivity.
Qed.

Lemma extract_stripped (pdf_path content : string) :
  PdfProcessor.extract_text_from_pdf pdf_path = Ok content ->
  PyStr.strip content = content.
Proof.
  unfold PdfProcessor.extract_text_from_pdf.
  destruct (pdf_pages pdf_path) as [pages|]; cbn [rbind]; [|discriminate].
  destruct (PdfProcessor.pages_text pages ""); cbn [rbind]; [|discriminate].
  intros [= <-]. apply strip_idem.
Qed.

(** What [process_pdf] returns, by the outcome of the extraction. *)
Lemma process_pdf_outcome (drawn : nat) (pdf_path filename : string) :
  PdfProcessor.process_pdf settings drawn pdf_path filename
  = match PdfProcessor.extract_text_from_pdf pdf_path with
    | Raise e => ProcessingResult.failure (exn_str e)
    | Ok content =>
        if String.eqb content ""
        then ProcessingResult.failure "No text content extracted from PDF"
        else
          let document_type := DocumentProcessor.classify_document_type settings content in
          let parties := fst (DocumentProcessor.extract_parties_and_issues settings content) in
          let issues := snd (DocumentProcessor.extract_parties_and_issues settings content) in
          {| ProcessingResult.success := true;
             ProcessingResult.document :=
               Some {| LegalDocument.id := uuid4 drawn;
                       LegalDocument.filename := filename;
                       LegalDocument.content := content;
                       LegalDocument.document_type := document_type;
                       LegalDocument.metadata :=
                         PdfProcessor.document_metadata pdf_path content;
                       LegalDocument.created_at := now;
                       LegalDocument.parties_involved := parties;
                       LegalDocument.key_issues := issues |};
             ProcessingResult.chunks :=
               DocumentProcessor.create_chunks (S drawn) content (uuid4 drawn)
                 (PdfProcessor.chunk_metadata filename document_type parties issues);
             ProcessingResult.error_message := None |}
    end.
Proof.
  unfold PdfProcessor.process_pdf, PdfProcessor.process_pdf_body.
  destruct (PdfProcessor.extract_text_from_pdf pdf_path) as [content|e] eqn:Hx;
    cbn [rbind]; [|reflexivity].
  rewrite (extract_stripped _ _ Hx).
  destruct (String.eqb content ""); [reflexivity|].
  destruct (DocumentProcessor.extract_parties_and_issues settings content)
    as [parties issues].
  reflexivity.
Qed.

(** X17. Processing a file succeeds exactly when text extraction succeeds
    with a text that is not empty.  A result that reports failure has no
    document and no chunks and says why: the message of the extraction error,
    or ["No text content extracted from PDF"]. *)
Theorem process_pdf_success (drawn : nat) (pdf_path filename : string) :
  let result := PdfProcessor.process_pdf settings drawn pdf_path filename in
  (ProcessingResult.success result = true
   <-> exists content,
         PdfProcessor.extract_text_from_pdf pdf_path = Ok content /\ content <> "")
  /\ (ProcessingResult.success result = false ->
      ProcessingResult.document result = None
      /\ ProcessingResult.chunks result = []
      /\ (ProcessingResult.error_message result
          = Some "No text content extracted from PDF"
          \/ exists e,
               PdfProcessor.extract_text_from_pdf pdf_path = Raise e
               /\ ProcessingResult.error_message result = Some (exn_str e))).
Proof.
  cbv zeta. rewrite process_pdf_outcome.
  destruct (PdfProcessor.extract_text_from_pdf pdf_path) as [content|e].
  - destruct (String.eqb_spec content "") as [->|Hne]; cbn.
    + split.
      * split; [discriminate|]. intros (content & [= <-] & Hne). congruence.
      * intros _. repeat split. left. reflexivity.
    + split; [|discriminate]. split; [|reflexivity].
      intros _. exists content. split; [reflexivity | exact Hne].
  - cbn. split.
    + split; [discriminate|]. intros (content & [=] & _).
    + intros _. repeat split. right. exists e. split; reflexivity.
Qed.

(** X18. A result that reports success holds the document and its chunks
    in agreement: the document has the extracted text and the file name
    given; every chunk names the document by its id, has no embedding, and
    carries in its metadata the file name, the document's type by its
    name, and the document's parties and issues. *)
Theorem process_pdf_consistent (drawn : nat) (pdf_path filename : string) :
  let result := PdfProcessor.process_pdf settings drawn pdf_path filename in
  ProcessingResult.success result = true ->
  exists d content,
    ProcessingResult.document result = Some d
    /\ ProcessingResult.error_message result = None
    /\ PdfProcessor.extract_text_from_pdf pdf_path = Ok content
    /\ LegalDocument.content d = content
    /\ LegalDocument.filename d = filename
    /\ LegalDocument.id d = uuid4 drawn
    /\ List.map DocumentChunk.content (ProcessingResult.chunks result)
       = RecursiveCharacterTextSplitter.split_text DocumentProcessor.text_splitter content
    /\ List.Forall
         (fun ch =>
            DocumentChunk.document_id ch = LegalDocument.id d
            /\ DocumentChunk.embedding ch = None
            /\ DocumentChunk.metadata ch !! "filename" = Some (MStr filename)
            /\ DocumentChunk.metadata ch !! "document_type"
               = Some (MStr (DocumentType_value (LegalDocument.document_type d)))
            /\ DocumentChunk.metadata ch !! "parties_involved"
               = Some (MList (LegalDocument.parties_involved d))
            /\ DocumentChunk.metadata ch !! "key_issues"
               = Some (MList (LegalDocument.key_issues d)))
         (ProcessingResult.chunks result).
Proof.
  cbv zeta. rewrite process_pdf_outcome.
  destruct (PdfProcessor.extract_text_from_pdf pdf_path) as [content|e];
    [|discriminate].
  destruct (String.eqb content ""); [discriminate|]. cbv zeta. intros _.
  eexists. exists content. cbn [ProcessingResult.document ProcessingResult.chunks
    ProcessingResult.error_message].
  split; [reflexivity|]. split; [reflexivity|]. split; [reflexivity|].
  cbn [LegalDocument.content LegalDocument.filename LegalDocument.id
         LegalDocument.document_type LegalDocument.parties_involved
         LegalDocument.key_issues].
  split; [reflexivity|]. split; [reflexivity|]. split; [reflexivity|].
  unfold DocumentProcessor.create_chunks.
  destruct (enumerate_chunks (S drawn) (uuid4 drawn)
              (PdfProcessor.chunk_metadata filename
                 (DocumentProcessor.classify_document_type settings content)
                 (fst (DocumentProcessor.extract_parties_and_issues settings content))
                 (snd (DocumentProcessor.extract_parties_and_issues settings content)))
              (RecursiveCharacterTextSplitter.split_text
                 DocumentProcessor.text_splitter content) 0)
    as (_ & _ & _ & Hcontent & Hall).
  split; [exact Hcontent|].
  eapply List.Forall_impl; [|exact Hall].
  intros ch (Hdoc & Hmd & Hemb). rewrite Hdoc, Hmd, Hemb.
  repeat split.
Qed.

End processing.

(** ** Processing and storing *)

Section storing.
Context (RT : Runtime) (LM : LanguageModel) (EM : Embedder) (XT : ExceptionText)
        (PL : PdfLibrary) {C : Type} (CO : Collection C) (settings : Settings).

Lemma add_chunks_loop_written (chunks : list loc) :
  forall (h h' : heap) (b : Batch) (r : result Batch),
    ChromaVectorStore.add_chunks_loop h chunks b = (r, h') ->
    forall l chunk, h !! l = Some chunk ->
      exists chunk', h' !! l = Some chunk' /\ written chunk chunk'.
Proof.
  induction chunks as [|l0 chunks IH]; intros h h' b r Hloop l chunk Hl.
  - injection Hloop as _ <-. exists chunk. split; [exact Hl | constructor].
  - cbn [ChromaVectorStore.add_chunks_loop] in Hloop.
    destruct (h !! l0) as [chunk0|] eqn:Hl0.
    2:{ injection Hloop as _ <-. exists chunk. split; [exact Hl | constructor]. }
    destruct (DocumentChunk.embedding chunk0) as [v|] eqn:Hemb;
      [exact (IH _ _ _ _ Hloop l chunk Hl)|].
    unfold ChromaVectorStore._generate_embedding in Hloop.
    destruct (encode (DocumentChunk.content chunk0)) as [v|e] eqn:Henc.
    2:{ injection Hloop as _ <-. exists chunk. split; [exact Hl | constructor]. }
    destruct (decide (l = l0)) as [->|Hne].
    + assert (chunk = chunk0) as -> by congruence.
      destruct (IH _ _ _ _ Hloop l0 (DocumentChunk.set_embedding chunk0 v))
        as (chunk' & Hl' & Hw); [apply lookup_insert_eq|].
      exists chunk'. split; [exact Hl'|].
      apply (written_trans _ _ (DocumentChunk.set_embedding chunk0 v));
        [constructor; assumption | exact Hw].
    + apply (IH _ _ _ _ Hloop). rewrite lookup_insert_ne by congruence. exact Hl.
Qed.

Lemma add_chunks_written (h h' : heap) (c c' : C) (chunks : list loc) (ok : bool) :
  ChromaVectorStore.add_chunks h c chunks = (ok, h', c') ->
  forall l chunk, h !! l = Some chunk ->
    exists chunk', h' !! l = Some chunk' /\ written chunk chunk'.
Proof.
  unfold ChromaVectorStore.add_chunks. intros Hadd.
  destruct (ChromaVectorStore.add_chunks_loop h chunks ChromaVectorStore.empty_batch)
    as [r h1] eqn:Hloop.
  assert (h1 = h') as ->.
  { destruct r as [b|e]; [destruct (coll_add c b) as [[u|e] c1]|]; congruence. }
  exact (add_chunks_loop_written _ _ _ _ _ Hloop).
Qed.

Lemma add_chunks_embedded (h h' : heap) (c c' : C) (chunks : list loc) :
  ChromaVectorStore.add_chunks h c chunks = (true, h', c') ->
  forall l, In l chunks ->
    exists chunk', h' !! l = Some chunk' /\ DocumentChunk.embedding chunk' <> None.
Proof.
  unfold ChromaVectorStore.add_chunks. intros Hadd.
  destruct (ChromaVectorStore.add_chunks_loop h chunks ChromaVectorStore.empty_batch)
    as [[b|e] h1] eqn:Hloop; [|discriminate].
  destruct (coll_add c b) as [[u|e] c1]; [|discriminate].
  injection Hadd as <- _.
  exact (proj1 (proj2 (add_chunks_loop_writes _ _ _ _ _ _ Hloop))).
Qed.

Lemma locations_length (n : nat) : length (LegalAISystemFlows.locations n) = n.
Proof. unfold LegalAISystemFlows.locations. rewrite length_map, length_seq. reflexivity. Qed.

Lemma locations_nodup (n : nat) : List.NoDup (LegalAISystemFlows.locations n).
Proof.
  unfold LegalAISystemFlows.locations.
  assert (Hinj : forall l : list nat,
             List.NoDup l -> List.NoDup (List.map Pos.of_succ_nat l)).
  { induction 1 as [|a l Ha _ IH]; cbn [List.map]; constructor; [|exact IH].
    intros Hin. apply List.in_map_iff in Hin as (a' & Heq & Ha').
    apply SuccNat2Pos.inj in Heq. subst a'. exact (Ha Ha'). }
  apply Hinj, List.seq_NoDup.
Qed.

Lemma combine_fst (A B : Type) (l1 : list A) (l2 : list B) :
  length l1 = length l2 -> List.map fst (List.combine l1 l2) = l1.
Proof.
  revert l2. induction l1 as [|a l1 IH]; intros [|b l2] Hlen; try discriminate;
    [reflexivity|].
  simpl. f_equal. apply IH. simpl in Hlen. congruence.
Qed.

Lemma combine_snd (A B : Type) (l1 : list A) (l2 : list B) :
  length l1 = length l2 -> List.map snd (List.combine l1 l2) = l2.
Proof.
  revert l2. induction l1 as [|a l1 IH]; intros [|b l2] Hlen; try discriminate;
    [reflexivity|].
  simpl. f_equal. apply IH. simpl in Hlen. congruence.
Qed.

Lemma list_to_map_lookup (ps : list (positive * DocumentChunk.t)) (l : positive)
    (chunk : DocumentChunk.t) :
  List.NoDup (List.map fst ps) -> In (l, chunk) ps ->
  (list_to_map ps : gmap positive DocumentChunk.t) !! l = Some chunk.
Proof.
  induction ps as [|[l0 x0] ps IH]; intros Hnd Hin; [destruct Hin|].
  cbn [List.map fst] in Hnd. apply List.NoDup_cons_iff in Hnd as [Hfresh Hnd].
  change (list_to_map ((l0, x0) :: ps) : gmap positive DocumentChunk.t)
    with (<[l0 := x0]> (list_to_map ps : gmap positive DocumentChunk.t)).
  destruct Hin as [[= -> ->]|Hin].
  - apply lookup_insert_eq.
  - rewrite lookup_insert_ne; [exact (IH Hnd Hin)|].
    intros ->. apply Hfresh. apply List.in_map_iff. exists (l, chunk). split;
      [reflexivity | exact Hin].
Qed.

(** The objects read back after a call are the objects put in, as the call
    has written them. *)
Lemma read_back_written (h' : heap) (c c' : C) (chunks : list DocumentChunk.t)
    (ok : bool) :
  ChromaVectorStore.add_chunks (LegalAISystemFlows.allocate chunks) c
    (LegalAISystemFlows.locations (length chunks)) = (ok, h', c') ->
  List.Forall2 written chunks (LegalAISystemFlows.read_back h' chunks).
Proof.
  intros Hadd. unfold LegalAISystemFlows.read_back.
  assert (Hps : forall l chunk,
             In (l, chunk)
               (List.combine (LegalAISystemFlows.locations (length chunks)) chunks) ->
             exists chunk', h' !! l = Some chunk' /\ written chunk chunk').
  { intros l chunk Hin. apply (add_chunks_written _ _ _ _ _ _ Hadd).
    apply list_to_map_lookup; [|exact Hin].
    rewrite combine_fst by apply locations_length. apply locations_nodup. }
  rewrite <- (combine_snd _ _ (LegalAISystemFlows.locations (length chunks)) chunks)
    at 1 by apply locations_length.
  induction (List.combine (LegalAISystemFlows.locations (length chunks)) chunks)
    as [|[l chunk] ps IH]; [constructor|].
  cbn [List.map snd]. constructor.
  - destruct (Hps l chunk) as (chunk' & -> & Hw); [left; reflexivity | exact Hw].
  - apply IH. intros l' chunk' Hin. apply Hps. right. exact Hin.
Qed.

Lemma written_fields (a b : DocumentChunk.t) :
  written a b ->
  DocumentChunk.id b = DocumentChunk.id a
  /\ DocumentChunk.document_id b = DocumentChunk.document_id a
  /\ DocumentChunk.content b = DocumentChunk.content a
  /\ DocumentChunk.chunk_index b = DocumentChunk.chunk_index a
  /\ DocumentChunk.metadata b = DocumentChunk.metadata a.
Proof. intros [|v _ _]; repeat split. Qed.

Lemma forall2_written_map (A : Type) (f : DocumentChunk.t -> A)
    (l l' : list DocumentChunk.t) :
  (forall a b, written a b -> f b = f a) ->
  List.Forall2 written l l' -> List.map f l' = List.map f l.
Proof.
  intros Hf H. induction H as [|a b l l' Hab _ IH]; [reflexivity|].
  cbn [List.map]. rewrite (Hf a b Hab), IH. reflexivity.
Qed.

Lemma processed_failure_message (drawn : nat) (pdf_path filename : string) :
  ProcessingResult.success (PdfProcessor.process_pdf settings drawn pdf_path filename)
  = false ->
  ProcessingResult.error_message
    (PdfProcessor.process_pdf settings drawn pdf_path filename) <> None.
Proof.
  rewrite process_pdf_outcome.
  destruct (PdfProcessor.extract_text_from_pdf pdf_path); [|discriminate].
  destruct (String.eqb _ ""); discriminate.
Qed.

Lemma processed_success_document (drawn : nat) (pdf_path filename : string) :
  ProcessingResult.success (PdfProcessor.process_pdf settings drawn pdf_path filename)
  = true ->
  ProcessingResult.document
    (PdfProcessor.process_pdf settings drawn pdf_path filename) <> None
  /\ ProcessingResult.error_message
       (PdfProcessor.process_pdf settings drawn pdf_path filename) = None.
Proof.
  rewrite process_pdf_outcome.
  destruct (PdfProcessor.extract_text_from_pdf pdf_path); [|discriminate].
  destruct (String.eqb _ ""); [discriminate|]. intros _. split; [discriminate|].
  reflexivity.
Qed.

(** What [process_and_store_pdf] returns, by the result of processing and
    the outcome of storing. *)
Lemma process_and_store_cases (drawn : nat) (vector_store : C) (pdf_path : string)
    (filename : option string) :
  let name := match filename with Some name => name | None => basename pdf_path end in
  let r0 := PdfProcessor.process_pdf settings drawn pdf_path name in
  let out := LegalAISystemFlows.process_and_store_pdf settings drawn vector_store
               pdf_path filename in
  (ProcessingResult.success r0 = false /\ out = (r0, vector_store))
  \/ (ProcessingResult.success r0 = true /\ ProcessingResult.chunks r0 = []
      /\ out = (r0, vector_store))
  \/ (ProcessingResult.success r0 = true /\ ProcessingResult.chunks r0 <> []
      /\ exists ok h c',
           ChromaVectorStore.add_chunks
             (LegalAISystemFlows.allocate (ProcessingResult.chunks r0)) vector_store
             (LegalAISystemFlows.locations (length (ProcessingResult.chunks r0)))
           = (ok, h, c')
           /\ snd out = c'
           /\ ProcessingResult.success (fst out) = ok
           /\ ProcessingResult.document (fst out) = ProcessingResult.document r0
           /\ ProcessingResult.chunks (fst out)
              = LegalAISystemFlows.read_back h (ProcessingResult.chunks r0)
           /\ ProcessingResult.error_message (fst out)
              = if ok then ProcessingResult.error_message r0
                else Some "Failed to store document in vector database").
Proof.
  cbv zeta. unfold LegalAISystemFlows.process_and_store_pdf.
  set (name := match filename with Some name => name | None => basename pdf_path end).
  set (r0 := PdfProcessor.process_pdf settings drawn pdf_path name).
  destruct (ProcessingResult.success r0) eqn:Hs; cbn [negb].
  - right. destruct (ProcessingResult.chunks r0) as [|ch chs] eqn:Hc.
    + left. repeat split.
    + right. split; [reflexivity|]. split; [discriminate|].
      destruct (ChromaVectorStore.add_chunks _ vector_store _) as [[ok h] c'] eqn:Hadd.
      exists ok, h, c'. split; [reflexivity|].
      destruct ok; repeat split.
  - left. split; reflexivity.
Qed.

(** X19. Processing and storing a file: when processing fails, or finds no
    chunk, the result of processing is returned as it is and the index is not
    touched; otherwise the chunks go to the index: the index is left as
    [add_chunks] leaves it when given the chunk objects of the result, the
    result reports success exactly when [add_chunks] returns [True], and when
    it does not the result carries the message
    ["Failed to store document in vector database"] while still holding the
    document.  In every case the chunks of the result are those of
    processing, with the same ids and texts in the same order. *)
Theorem process_and_store_pdf_outcome (drawn : nat) (vector_store : C)
    (pdf_path : string) (filename : option string) :
  let name := match filename with Some name => name | None => basename pdf_path end in
  let r0 := PdfProcessor.process_pdf settings drawn pdf_path name in
  let out := LegalAISystemFlows.process_and_store_pdf settings drawn vector_store
               pdf_path filename in
  let stored :=
    ChromaVectorStore.add_chunks
      (LegalAISystemFlows.allocate (ProcessingResult.chunks r0)) vector_store
      (LegalAISystemFlows.locations (length (ProcessingResult.chunks r0))) in
  (ProcessingResult.success r0 = false \/ ProcessingResult.chunks r0 = [] ->
   out = (r0, vector_store))
  /\ (ProcessingResult.success r0 = true -> ProcessingResult.chunks r0 <> [] ->
      snd out = snd stored
      /\ ProcessingResult.success (fst out) = fst (fst stored)
      /\ ProcessingResult.chunks (fst out)
         = LegalAISystemFlows.read_back (snd (fst stored)) (ProcessingResult.chunks r0)
      /\ ProcessingResult.error_message (fst out)
         = if fst (fst stored) then None
           else Some "Failed to store document in vector database")
  /\ ProcessingResult.document (fst out) = ProcessingResult.document r0
  /\ List.map DocumentChunk.id (ProcessingResult.chunks (fst out))
     = List.map DocumentChunk.id (ProcessingResult.chunks r0)
  /\ List.map DocumentChunk.content (ProcessingResult.chunks (fst out))
     = List.map DocumentChunk.content (ProcessingResult.chunks r0)
  /\ (ProcessingResult.success r0 = true ->
      ProcessingResult.success (fst out) = false ->
      ProcessingResult.error_message (fst out)
      = Some "Failed to store document in vector database"
      /\ ProcessingResult.document (fst out) <> None).
Proof.
  cbv zeta.
  destruct (process_and_store_cases drawn vector_store pdf_path filename)
    as [[Hs Hout]|[(Hs & Hc & Hout)|(Hs & Hc & ok & h & c' & Hadd & Hc' & Hok & Hd & Hch & Hmsg)]];
    cbv zeta in *.
  - rewrite Hout. cbn [fst]. split; [reflexivity|]. split; [congruence|].
    split; [reflexivity|]. split; [reflexivity|].
    split; [reflexivity|]. intros E. congruence.
  - rewrite Hout. cbn [fst]. split; [reflexivity|]. split; [congruence|].
    split; [reflexivity|]. split; [reflexivity|].
    split; [reflexivity|]. intros _ E. congruence.
  - pose proof (read_back_written _ _ _ _ _ Hadd) as Hw.
    split; [intros [E|E]; congruence|]. split.
    { intros _ _. rewrite Hadd. cbn [fst snd].
      split; [exact Hc'|]. split; [exact Hok|]. split; [exact Hch|].
      rewrite Hmsg. destruct ok; [|reflexivity].
      exact (proj2 (processed_success_document _ _ _ Hs)). }
    split; [exact Hd|].
    rewrite Hch. split; [|split].
    + apply forall2_written_map; [|exact Hw]. intros a b Hab.
      apply (written_fields a b Hab).
    + apply forall2_written_map; [|exact Hw]. intros a b Hab.
      apply (written_fields a b Hab).
    + intros _ Hfail. rewrite Hfail in Hok. subst ok. split; [exact Hmsg|].
      rewrite Hd. exact (proj1 (processed_success_document _ _ _ Hs)).
Qed.

End storing.

(** ** Stored chunks, batches and uploads *)

Section flows.
Context (RT : Runtime) (LM : LanguageModel) (EM : Embedder) (XT : ExceptionText)
        (PL : PdfLibrary) {C : Type} (CO : Collection C) (settings : Settings).

Lemma read_back_embedded (h' : heap) (c c' : C) (chunks : list DocumentChunk.t) :
  ChromaVectorStore.add_chunks (LegalAISystemFlows.allocate chunks) c
    (LegalAISystemFlows.locations (length chunks)) = (true, h', c') ->
  List.Forall (fun ch => DocumentChunk.embedding ch <> None)
    (LegalAISystemFlows.read_back h' chunks).
Proof.
  intros Hadd. unfold LegalAISystemFlows.read_back.
  apply List.Forall_forall. intros ch Hch.
  apply List.in_map_iff in Hch as ([l chunk] & <- & Hin).
  apply List.in_combine_l in Hin.
  edestruct add_chunks_embedded as (chunk' & Hl & Hemb); [exact Hadd | exact Hin |].
  cbn [fst]. rewrite Hl. exact Hemb.
Qed.

Lemma process_pdf_chunks_bare (drawn : nat) (pdf_path filename : string) :
  List.Forall (fun ch => DocumentChunk.embedding ch = None)
    (ProcessingResult.chunks (PdfProcessor.process_pdf settings drawn pdf_path filename)).
Proof.
  rewrite process_pdf_outcome.
  destruct (PdfProcessor.extract_text_from_pdf pdf_path) as [content|e]; [|constructor].
  destruct (String.eqb content ""); [constructor|]. cbv zeta.
  cbn [ProcessingResult.chunks]. unfold DocumentProcessor.create_chunks.
  match goal with
  | |- List.Forall _ (List.map _ (List.combine (seq 0 (length ?l)) ?l)) =>
      destruct (enumerate_chunks RT (S drawn) (uuid4 drawn)
                  (PdfProcessor.chunk_metadata filename
                     (DocumentProcessor.classify_document_type settings content)
                     (fst (DocumentProcessor.extract_parties_and_issues settings content))
                     (snd (DocumentProcessor.extract_parties_and_issues settings content)))
                  l 0) as (_ & _ & _ & _ & Hall)
  end.
  eapply List.Forall_impl; [|exact Hall]. intros ch (_ & _ & Hemb). exact Hemb.
Qed.

Lemma written_bare_embedded (l l' : list DocumentChunk.t) :
  List.Forall2 written l l' ->
  List.Forall (fun ch => DocumentChunk.embedding ch = None) l ->
  List.Forall (fun ch => DocumentChunk.embedding ch <> None) l' ->
  List.Forall
    (fun ch => exists v, encode (DocumentChunk.content ch) = Ok v
                         /\ DocumentChunk.embedding ch = Some v) l'.
Proof.
  intros Hw. induction Hw as [|a b l l' Hab _ IH]; intros Hbare He; [constructor|].
  apply List.Forall_cons_iff in Hbare as [Ha Hbare].
  apply List.Forall_cons_iff in He as [Hb He].
  constructor; [|exact (IH Hbare He)].
  destruct Hab as [|v _ Henc]; [congruence|].
  exists v. split; [exact Henc | reflexivity].
Qed.

(** X20. When processing and storing a file reports success, every chunk
    of the result carries an embedding, and it is the embedding of its own
    text: the objects handed to the index are the objects of the result. *)
Theorem stored_chunks_carry_embeddings (drawn : nat) (vector_store : C)
    (pdf_path : string) (filename : option string) :
  let out := LegalAISystemFlows.process_and_store_pdf settings drawn vector_store
               pdf_path filename in
  ProcessingResult.success (fst out) = true ->
  List.Forall
    (fun ch => exists v, encode (DocumentChunk.content ch) = Ok v
                         /\ DocumentChunk.embedding ch = Some v)
    (ProcessingResult.chunks (fst out)).
Proof.
  cbv zeta. intros Hsuccess.
  destruct (process_and_store_cases RT LM EM XT PL CO settings drawn vector_store
              pdf_path filename)
    as [[Hs Hout]|[(Hs & Hc & Hout)|(Hs & Hc & ok & h & c' & Hadd & _ & Hok & _ & Hch & _)]];
    cbv zeta in *.
  - rewrite Hout in Hsuccess. cbn [fst] in Hsuccess. congruence.
  - rewrite Hout. cbn [fst]. rewrite Hc. constructor.
  - rewrite Hsuccess in Hok. subst ok. rewrite Hch.
    assert (Hw := read_back_written). specialize Hw with (1 := Hadd).
    pose proof (read_back_embedded _ _ _ _ Hadd) as He.
    pose proof (process_pdf_chunks_bare drawn pdf_path
                  (match filename with Some name => name | None => basename pdf_path end))
      as Hbare.
    exact (written_bare_embedded _ _ Hw Hbare He).
Qed.

Lemma stored_result_shape (drawn : nat) (vector_store : C) (pdf_path : string)
    (filename : option string) :
  let r := fst (LegalAISystemFlows.process_and_store_pdf settings drawn vector_store
                  pdf_path filename) in
  (ProcessingResult.success r = true -> ProcessingResult.document r <> None)
  /\ (ProcessingResult.success r = false -> ProcessingResult.error_message r <> None).
Proof.
  cbv zeta.
  destruct (process_and_store_cases RT LM EM XT PL CO settings drawn vector_store
              pdf_path filename)
    as [[Hs Hout]|[(Hs & Hc & Hout)|(Hs & Hc & ok & h & c' & _ & _ & Hok & Hd & _ & Hmsg)]];
    cbv zeta in *.
  - rewrite Hout. cbn [fst]. split; [congruence|].
    intros _. apply processed_failure_message, Hs.
  - rewrite Hout. cbn [fst]. split; [|congruence].
    intros _. apply processed_success_document, Hs.
  - split.
    + intros _. rewrite Hd. apply processed_success_document, Hs.
    + intros Hfail. rewrite Hfail in Hok. subst ok. rewrite Hmsg. discriminate.
Qed.


(** X22. Processing an upload reports failure exactly when processing and
    storing does, with its message.  Otherwise it reports the document, the
    number of chunks created, and the response generated for the document
    against the index as storing left it, which is absent exactly when
    [generate_response_for_document] returns [None]. *)
Theorem process_uploaded_pdf_outcome (drawn : nat) (vector_store : C)
    (file_path : string) :
  let stored := LegalAISystemFlows.process_and_store_pdf settings drawn vector_store
                  file_path None in
  let out := LegalAISystemFlows.process_uploaded_pdf settings drawn vector_store
               file_path in
  snd out = snd stored
  /\ (ProcessingResult.success (fst stored) = false ->
      fst out = Upload.failed (ProcessingResult.error_message (fst stored)))
  /\ (ProcessingResult.success (fst stored) = true ->
      exists d summary,
        ProcessingResult.document (fst stored) = Some d
        /\ Upload.id summary = LegalDocument.id d
        /\ Upload.type summary = DocumentType_value (LegalDocument.document_type d)
        /\ fst out
           = Upload.done summary
               (option_map
                  (fun r =>
                     {| Upload.suggested_response := LegalResponse.suggested_response r;
                        Upload.confidence := LegalResponse.confidence_score r;
                        Upload.key_points := LegalResponse.key_points r;
                        Upload.reasoning := LegalResponse.reasoning r |})
                  (LegalAISystem.generate_response_for_document settings (snd stored)
                     (LegalDocument.id d) "professional"))
               (length (ProcessingResult.chunks (fst stored)))).
Proof.
  cbv zeta. unfold LegalAISystemFlows.process_uploaded_pdf,
    LegalAISystemFlows.process_uploaded_pdf_body.
  pose proof (stored_result_shape drawn vector_store file_path None) as Hshape.
  cbv zeta in Hshape.
  destruct (LegalAISystemFlows.process_and_store_pdf settings drawn vector_store
              file_path None) as [result c'].
  cbn [fst snd] in *. destruct Hshape as [Hdoc _].
  destruct (ProcessingResult.success result) eqn:Hs; cbn [negb].
  - specialize (Hdoc eq_refl).
    destruct (ProcessingResult.document result) as [d|]; [|congruence].
    split; [reflexivity|]. split; [discriminate|]. intros _.
    eexists d, _. split; [reflexivity|]. split; [|split; [|reflexivity]]; reflexivity.
  - split; [reflexivity|]. split; [reflexivity | discriminate].
Qed.

Lemma member_type_validates (t : DocumentType) :
  as_DocumentType (MStr (DocumentType_value t)) = Ok t.
Proof. destruct t; reflexivity. Qed.

(** X23. What ingest records, respond reads back.  When the index returns
    first, for a document id, the metadata that [add_chunks] builds for a
    chunk of a successfully processed file, the request for a response
    rebuilds a document with the file name, the type, the parties and the
    issues of the processed document, and returns the response of the
    pipeline to it. *)
Theorem respond_after_ingest
    (drawn : nat) (pdf_path filename : string) (d : LegalDocument.t)
    (ch : DocumentChunk.t) (vector_store : C) (document_id response_type : string)
    (chunk0 : SearchResult.t) (rest : list SearchResult.t) :
  let result := PdfProcessor.process_pdf settings drawn pdf_path filename in
  ProcessingResult.document result = Some d ->
  In ch (ProcessingResult.chunks result) ->
  ChromaVectorStore.get_document_chunks vector_store document_id = chunk0 :: rest ->
  SearchResult.metadata chunk0 = ChromaVectorStore.chunk_metadata ch ->
  exists r,
    LegalAISystem.generate_response_for_document settings vector_store document_id
      response_type = Some r
    /\ LegalAgentSystem.generate_legal_response settings vector_store
         {| LegalDocument.id := document_id;
            LegalDocument.filename := LegalDocument.filename d;
            LegalDocument.content :=
              PyStr.join PyStr.nl (List.map SearchResult.content (chunk0 :: rest));
            LegalDocument.document_type := LegalDocument.document_type d;
            LegalDocument.metadata := SearchResult.metadata chunk0;
            LegalDocument.created_at := now;
            LegalDocument.parties_involved := LegalDocument.parties_involved d;
            LegalDocument.key_issues := LegalDocument.key_issues d |}
         response_type = Ok r.
Proof.
  cbv zeta. rewrite process_pdf_outcome.
  destruct (PdfProcessor.extract_text_from_pdf pdf_path) as [content|e]; [|discriminate].
  destruct (String.eqb content ""); [discriminate|]. cbv zeta.
  cbn [ProcessingResult.document ProcessingResult.chunks].
  intros [= <-] Hch Hchunks Hmd.
  cbn [LegalDocument.filename LegalDocument.document_type
         LegalDocument.parties_involved LegalDocument.key_issues].
  assert (Hown : DocumentChunk.metadata ch
                 = PdfProcessor.chunk_metadata filename
                     (DocumentProcessor.classify_document_type settings content)
                     (fst (DocumentProcessor.extract_parties_and_issues settings content))
                     (snd (DocumentProcessor.extract_parties_and_issues settings content))).
  { unfold DocumentProcessor.create_chunks in Hch.
    match type of Hch with
    | In _ (List.map _ (List.combine (seq 0 (length ?l)) ?l)) =>
        destruct (enumerate_chunks RT (S drawn) (uuid4 drawn)
                    (PdfProcessor.chunk_metadata filename
                       (DocumentProcessor.classify_document_type settings content)
                       (fst (DocumentProcessor.extract_parties_and_issues settings content))
                       (snd (DocumentProcessor.extract_parties_and_issues settings content)))
                    l 0) as (_ & _ & _ & _ & Hall)
    end.
    exact (proj1 (proj2 (proj1 (List.Forall_forall _ _) Hall ch Hch))). }
  assert (Hget : forall k v,
             DocumentChunk.metadata ch !! k = Some v ->
             forall default, dict_get (SearchResult.metadata chunk0) k default = v).
  { intros k v Hk default. unfold dict_get. rewrite Hmd.
    unfold ChromaVectorStore.chunk_metadata.
    rewrite (lookup_union_Some_l _ _ _ _ Hk). reflexivity. }
  destruct (respond_rebuilds RT LM EM CO settings vector_store document_id response_type
              chunk0 rest filename
              (DocumentProcessor.classify_document_type settings content)
              (fst (DocumentProcessor.extract_parties_and_issues settings content))
              (snd (DocumentProcessor.extract_parties_and_issues settings content))
              Hchunks) as (r & Hr & Hgen & _).
  - rewrite (Hget "filename" (MStr filename)); [reflexivity|]. rewrite Hown. reflexivity.
  - rewrite (Hget "document_type"
               (MStr (DocumentType_value
                        (DocumentProcessor.classify_document_type settings content))));
      [apply member_type_validates|].
    rewrite Hown. reflexivity.
  - rewrite (Hget "parties_involved"
               (MList (fst (DocumentProcessor.extract_parties_and_issues settings content))));
      [reflexivity|].
    rewrite Hown. reflexivity.
  - rewrite (Hget "key_issues"
               (MList (snd (DocumentProcessor.extract_parties_and_issues settings content))));
      [reflexivity|].
    rewrite Hown. reflexivity.
  - exists r. split; assumption.
Qed.

End flows.

(** ** Search results by document *)

Section grouping.
Context (RT : Runtime) (EM : Embedder) {C : Type} (CO : Collection C).

Lemma results_of_app (document_id : string) (seen : list SearchResult.t)
    (r : SearchResult.t) :
  results_of document_id (seen ++ [r])%list
  = (results_of document_id seen
     ++ (if String.eqb (SearchResult.document_id r) document_id then [r] else []))%list.
Proof. unfold results_of. rewrite List.filter_app. reflexivity. Qed.

Lemma results_of_absent (document_id : string) (seen : list SearchResult.t) :
  ~ In document_id (List.map SearchResult.document_id seen) ->
  results_of document_id seen = [].
Proof.
  induction seen as [|r seen IH]; intros Hno; [reflexivity|].
  cbn [results_of List.filter]. fold (results_of document_id seen).
  destruct (String.eqb_spec (SearchResult.document_id r) document_id) as [He|_].
  - exfalso. apply Hno. left. exact He.
  - apply IH. intros Hin. apply Hno. right. exact Hin.
Qed.

Lemma groups_other (seen : list SearchResult.t) (r : SearchResult.t)
    (hit : DocumentHit.t) :
  SearchResult.document_id r <> DocumentHit.document_id hit ->
  groups seen hit -> groups (seen ++ [r]) hit.
Proof.
  intros Hne (first & others & Hres & Hrest).
  exists first, others. split; [|exact Hrest].
  rewrite results_of_app, Hres.
  destruct (String.eqb_spec (SearchResult.document_id r) (DocumentHit.document_id hit));
    [contradiction|].
  apply List.app_nil_r.
Qed.

Lemma add_hit_known (hits : list DocumentHit.t) (r : SearchResult.t) :
  In (SearchResult.document_id r) (List.map DocumentHit.document_id hits) ->
  List.map DocumentHit.document_id (LegalAISystemFlows.add_hit hits r)
  = List.map DocumentHit.document_id hits.
Proof.
  induction hits as [|entry rest IH]; intros Hin; [destruct Hin|].
  cbn [LegalAISystemFlows.add_hit].
  destruct (String.eqb_spec (DocumentHit.document_id entry) (SearchResult.document_id r))
    as [He|Hne]; [reflexivity|].
  cbn [List.map]. f_equal. apply IH.
  destruct Hin as [Hin|Hin]; [contradiction | exact Hin].
Qed.

Lemma add_hit_new (hits : list DocumentHit.t) (r : SearchResult.t) :
  ~ In (SearchResult.document_id r) (List.map DocumentHit.document_id hits) ->
  List.map DocumentHit.document_id (LegalAISystemFlows.add_hit hits r)
  = (List.map DocumentHit.document_id hits ++ [SearchResult.document_id r])%list.
Proof.
  induction hits as [|entry rest IH]; intros Hno; [reflexivity|].
  cbn [LegalAISystemFlows.add_hit].
  destruct (String.eqb_spec (DocumentHit.document_id entry) (SearchResult.document_id r))
    as [He|Hne].
  - exfalso. apply Hno. left. exact He.
  - cbn [List.map List.app]. f_equal. apply IH. intros Hin. apply Hno. right. exact Hin.
Qed.

Lemma add_hit_groups (seen : list SearchResult.t) (r : SearchResult.t) :
  forall hits : list DocumentHit.t,
    List.NoDup (List.map DocumentHit.document_id hits) ->
    (~ In (SearchResult.document_id r) (List.map DocumentHit.document_id hits) ->
     results_of (SearchResult.document_id r) seen = []) ->
    List.Forall (groups seen) hits ->
    List.Forall (groups (seen ++ [r])) (LegalAISystemFlows.add_hit hits r).
Proof.
  induction hits as [|entry rest IH]; intros Hnd Hfresh Hall.
  - cbn [LegalAISystemFlows.add_hit]. constructor; [|constructor].
    exists r, []. cbn [DocumentHit.document_id DocumentHit.filename
                         DocumentHit.document_type DocumentHit.similarity_score
                         DocumentHit.relevant_chunks].
    split; [|repeat split].
    rewrite results_of_app, (Hfresh (fun H => H)), String.eqb_refl. reflexivity.
  - cbn [LegalAISystemFlows.add_hit].
    apply List.NoDup_cons_iff in Hnd as [Hentry Hnd].
    apply List.Forall_cons_iff in Hall as [Hgroup Hall].
    destruct (String.eqb_spec (DocumentHit.document_id entry) (SearchResult.document_id r))
      as [He|Hne].
    + constructor.
      * destruct Hgroup as (first & others & Hres & Hname & Htype & Hscore & Hchunks).
        exists first, (others ++ [r])%list.
        cbn [DocumentHit.document_id DocumentHit.filename DocumentHit.document_type
               DocumentHit.similarity_score DocumentHit.relevant_chunks].
        split; [|split; [exact Hname|split; [exact Htype|split; [exact Hscore|]]]].
        -- rewrite results_of_app, Hres, He, String.eqb_refl. reflexivity.
        -- rewrite Hchunks. change (first :: others ++ [r])%list
             with ((first :: others) ++ [r])%list.
           rewrite List.map_app. reflexivity.
      * apply List.Forall_forall. intros hit Hin.
        apply groups_other; [|exact (proj1 (List.Forall_forall _ _) Hall hit Hin)].
        intros Heq. apply Hentry. rewrite He, Heq.
        apply List.in_map. exact Hin.
    + constructor.
      * apply groups_other; [congruence | exact Hgroup].
      * apply IH; [exact Hnd | | exact Hall].
        intros Hno. apply Hfresh. intros [Heq|Hin]; [congruence | exact (Hno Hin)].
Qed.

Lemma group_fold (results : list SearchResult.t) :
  forall (seen : list SearchResult.t) (hits : list DocumentHit.t),
    List.NoDup (List.map DocumentHit.document_id hits) ->
    (forall id, In id (List.map DocumentHit.document_id hits)
                <-> In id (List.map SearchResult.document_id seen)) ->
    List.Forall (groups seen) hits ->
    let out := fold_left LegalAISystemFlows.add_hit results hits in
    List.NoDup (List.map DocumentHit.document_id out)
    /\ (forall id, In id (List.map DocumentHit.document_id out)
                   <-> In id (List.map SearchResult.document_id (seen ++ results)))
    /\ List.Forall (groups (seen ++ results)) out.
Proof.
  induction results as [|r results IH]; intros seen hits Hnd Hids Hall; cbv zeta.
  - cbn [fold_left]. rewrite List.app_nil_r. split; [exact Hnd|]. split; assumption.
  - cbn [fold_left].
    change (seen ++ r :: results)%list with (seen ++ [r] ++ results)%list.
    rewrite List.app_assoc.
    destruct (List.in_dec string_dec (SearchResult.document_id r)
                (List.map DocumentHit.document_id hits)) as [Hin|Hno].
    + apply IH.
      * rewrite add_hit_known by exact Hin. exact Hnd.
      * intros id. rewrite add_hit_known by exact Hin.
        rewrite List.map_app, List.in_app_iff, Hids. cbn [List.map In].
        split; [intros H; left; exact H|].
        intros [H|[<-|[]]]; [exact H|]. apply Hids. exact Hin.
      * apply add_hit_groups; [exact Hnd | contradiction | exact Hall].
    + apply IH.
      * rewrite add_hit_new by exact Hno.
        apply NoDup_ListNoDup, NoDup_app.
        split; [apply NoDup_ListNoDup; exact Hnd|].
        split; [|apply NoDup_singleton].
        intros id Hid Hr. apply list_elem_of_singleton in Hr. subst id.
        apply Hno. apply list_elem_of_In. exact Hid.
      * intros id. rewrite add_hit_new by exact Hno.
        rewrite List.map_app, !List.in_app_iff, Hids. reflexivity.
      * apply add_hit_groups; [exact Hnd | | exact Hall].
        intros _. apply results_of_absent. intros Hseen. apply Hno, Hids, Hseen.
Qed.

(** X24. The documents found by a search: every document of the search
    results has exactly one entry, and an entry holds the results of its
    document in the order of the search, with the file name, the type and
    the score of the first of them. *)
Theorem search_similar_documents_groups (vector_store : C) (query : string)
    (n_results : Z) :
  let results := ChromaVectorStore.search_similar vector_store query n_results in
  let hits := LegalAISystemFlows.search_similar_documents vector_store query n_results in
  List.NoDup (List.map DocumentHit.document_id hits)
  /\ (forall id, In id (List.map DocumentHit.document_id hits)
                 <-> In id (List.map SearchResult.document_id results))
  /\ List.Forall (groups results) hits.
Proof.
  cbv zeta. unfold LegalAISystemFlows.search_similar_documents,
    LegalAISystemFlows.group_by_document.
  apply (group_fold (ChromaVectorStore.search_similar vector_store query n_results) [] []).
  - constructor.
  - intros id. reflexivity.
  - constructor.
Qed.

End grouping.

(** ** Rows written, rows read *)

Section stored_rows.
Context (RT : Runtime) (EM : Embedder) {C : Type} (CO : Collection C).

Lemma stored_row_names_document (chunk : DocumentChunk.t) :
  DocumentChunk.metadata chunk !! "document_id" = None ->
  dict_item (ChromaVectorStore.chunk_metadata chunk) "document_id"
  = Ok (MStr (DocumentChunk.document_id chunk)).
Proof.
  intros Hown. unfold dict_item, ChromaVectorStore.chunk_metadata.
  rewrite (lookup_union_r _ _ _ Hown). reflexivity.
Qed.

(** X25. Rows as [add_chunks] writes them can be read back.  When the
    index returns, for a document id, the ids, texts and metadata that
    [add_chunks] puts in its batch for a list of chunks, none of which has a
    key document_id in its own metadata, [get_document_chunks] returns one
    result per chunk, in order, with the chunk's id, document id and text,
    similarity 1 and the stored metadata. *)
Theorem stored_rows_read_back (c : C) (document_id : string)
    (chunks : list DocumentChunk.t) :
  coll_get c document_id
  = Ok {| g_ids := List.map DocumentChunk.id chunks;
          g_documents := List.map DocumentChunk.content chunks;
          g_metadatas := List.map ChromaVectorStore.chunk_metadata chunks |} ->
  List.Forall (fun chunk => DocumentChunk.metadata chunk !! "document_id" = None) chunks ->
  ChromaVectorStore.get_document_chunks c document_id
  = List.map
      (fun chunk =>
         {| SearchResult.chunk_id := DocumentChunk.id chunk;
            SearchResult.document_id := DocumentChunk.document_id chunk;
            SearchResult.content := DocumentChunk.content chunk;
            SearchResult.similarity_score := 1;
            SearchResult.metadata := ChromaVectorStore.chunk_metadata chunk |})
      chunks.
Proof.
  intros Hget Hown.
  unfold ChromaVectorStore.get_document_chunks, ChromaVectorStore.get_document_chunks_body.
  rewrite Hget. cbn [rbind g_ids]. rewrite List.length_map.
  destruct chunks as [|d rest]; [reflexivity|].
  set (chunks := d :: rest) in *.
  set (row := fun chunk =>
         {| SearchResult.chunk_id := DocumentChunk.id chunk;
            SearchResult.document_id := DocumentChunk.document_id chunk;
            SearchResult.content := DocumentChunk.content chunk;
            SearchResult.similarity_score := 1%Q;
            SearchResult.metadata := ChromaVectorStore.chunk_metadata chunk |}).
  rewrite (mapM_ok_ext _ _ _ (fun i => row (nth i chunks d))).
  - cbn [try_except].
    transitivity (List.map row (List.map (fun i => nth i chunks d)
                                  (seq 0 (length chunks)))).
    + rewrite List.map_map. reflexivity.
    + rewrite nth_seq_all. reflexivity.
  - intros i Hi. apply List.in_seq in Hi as [_ Hi]. cbn [Nat.add] in Hi.
    assert (Hn : nth_error chunks i = Some (nth i chunks d))
      by exact (nth_error_nth' chunks d Hi).
    assert (Hi_own : DocumentChunk.metadata (nth i chunks d) !! "document_id" = None).
    { apply (proj1 (List.Forall_forall _ _) Hown). apply List.nth_In. exact Hi. }
    unfold ChromaVectorStore.get_row, py_index.
    cbn [g_ids g_documents g_metadatas].
    rewrite !List.nth_error_map, Hn. cbn [option_map rbind].
    rewrite (stored_row_names_document _ Hi_own). reflexivity.
Qed.

End stored_rows.

(** ** The further properties on small inputs *)

(** Asking the sample index for two texts about leases. *)
Lemma search_similar_rows_witness :
  let out := @ChromaVectorStore.search_similar Sample.embedder _
               MemoryCollection.collection Sample.store "lease" 2 in
  List.map SearchResult.chunk_id out = ["c1"; "c2"]
  /\ List.map SearchResult.content out
     = ["notice of lease termination"; "the lease ends in June"].
Proof.
  cbv zeta.
  destruct (search_similar_rows Sample.embedder MemoryCollection.collection
              Sample.store "lease" 2 [1; 0]%Q _ ["c1"; "c2"] _ _ _
              eq_refl eq_refl eq_refl eq_refl eq_refl eq_refl eq_refl eq_refl eq_refl)
    as (Hid & Hdocs & _).
  - repeat constructor; eexists; reflexivity.
  - split; [exact Hid | exact Hdocs].
Defined.

(** One row without metadata among the nearest two empties the search. *)
Lemma search_similar_malformed_row_witness :
  (forall s, (∅ : gmap string mval) !! "document_id" <> Some (MStr s))
  /\ @ChromaVectorStore.search_similar Sample.embedder _
       MemoryCollection.collection Sample2.torn_store "lease" 2 = []
  /\ @ChromaVectorStore.search_similar Sample.embedder _
       MemoryCollection.collection Sample.store "lease" 2 <> [].
Proof.
  assert (Hlost : forall s, (∅ : gmap string mval) !! "document_id" <> Some (MStr s))
    by (intros s; discriminate).
  split; [exact Hlost|]. split; [|discriminate].
  exact (search_similar_malformed_row Sample.embedder MemoryCollection.collection
           Sample2.torn_store "lease" 2 [1; 0]%Q _ ["c1"; "c4"] [] _ [] 1 ∅
           eq_refl eq_refl eq_refl eq_refl (le_n 2) eq_refl Hlost).
Defined.

(** The third chunk object has an empty text, which the model refuses. *)
Lemma add_chunks_embedding_failure_witness :
  exists h1,
    @ChromaVectorStore.add_chunks Sample2.picky_embedder _ MemoryCollection.collection
      Sample2.heap3 Sample.store [1; 2; 3]%positive = (false, h1, Sample.store)
    /\ h1 !! 3%positive = Some (Sample2.chunk "c3" "d7" "" 2 None)
    /\ exists chunk', h1 !! 1%positive = Some chunk'
                      /\ DocumentChunk.embedding chunk' <> None.
Proof.
  destruct (add_chunks_embedding_failure Sample2.picky_embedder
              MemoryCollection.collection Sample2.heap3 Sample.store
              [1; 2]%positive [] 3%positive (Sample2.chunk "c3" "d7" "" 2 None)
              (ServiceError "empty input")) as (h1 & Hadd & Hl & Hpre).
  - constructor; [|constructor; [|constructor]].
    + eexists. split; [reflexivity|]. right. eexists. reflexivity.
    + eexists. split; [reflexivity|]. left. discriminate.
  - reflexivity.
  - reflexivity.
  - reflexivity.
  - exists h1. split; [exact Hadd|]. split; [exact Hl|]. apply Hpre. left. reflexivity.
Defined.

(** Both sample chunk objects can be embedded, and the index takes them. *)
Lemma add_chunks_batch_witness :
  List.Forall (@embeddable Sample.embedder sample_heap) [1; 2]%positive
  /\ exists (h' : heap) (objs : list DocumentChunk.t),
       List.Forall2 (fun l o => h' !! l = Some o) [1; 2]%positive objs
       /\ fst (fst (@ChromaVectorStore.add_chunks Sample.embedder _
                      MemoryCollection.collection sample_heap Sample.store
                      [1; 2]%positive)) = true.
Proof.
  assert (Hall : List.Forall (@embeddable Sample.embedder sample_heap) [1; 2]%positive).
  { constructor; [|constructor; [|constructor]].
    - eexists. split; [reflexivity|]. left. discriminate.
    - eexists. split; [reflexivity|]. right. eexists. reflexivity. }
  split; [exact Hall|].
  destruct (add_chunks_batch Sample.embedder MemoryCollection.collection sample_heap
              Sample.store [1; 2]%positive Hall) as (h' & objs & embs & Hobjs & _ & _).
  exists h', objs. split; [exact Hobjs | reflexivity].
Defined.

(** Deleting document d1 leaves the chunks of d2. *)
Lemma delete_document_keeps_others_witness :
  "d1" <> "d2"
  /\ ChromaVectorStore.get_document_chunks
       (snd (ChromaVectorStore.delete_document Sample.store "d1")) "d2"
     = ChromaVectorStore.get_document_chunks Sample.store "d2".
Proof.
  assert (Hne : "d1" <> "d2") by discriminate.
  split; [exact Hne|].
  exact (delete_document_keeps_others Sample.store "d1" "d2" Hne).
Defined.

(** A party named in the scripted reply. *)
Lemma extracted_items_clean_witness :
  In "Landlord"
    (fst (@DocumentProcessor.extract_parties_and_issues Sample2.scripted_llm
            default_settings "NOTICE TO QUIT"))
  /\ PyStr.strip "Landlord" = "Landlord"
  /\ PyStr.contains "," "Landlord" = false.
Proof.
  assert (Hin : In "Landlord"
                  (fst (@DocumentProcessor.extract_parties_and_issues
                          Sample2.scripted_llm default_settings "NOTICE TO QUIT")))
    by (left; reflexivity).
  split; [exact Hin|].
  exact (proj2 (extracted_items_clean Sample.runtime Sample2.scripted_llm
                  default_settings "NOTICE TO QUIT" "We acknowledge your notice."
                  Sample.document "Landlord" (or_introl Hin))).
Defined.

(** The embedding model is out of service. *)
Lemma generate_stage_without_index_witness :
  @LegalAgentSystem.generate_stage Sample.runtime
    (Sample.constant_llm (Ok "The notice is valid.")) Sample2.failing_embedder _
    MemoryCollection.collection default_settings Sample.store Sample.document
    "professional"
  = @ResponseGeneratorTool._run (Sample.constant_llm (Ok "The notice is valid."))
      default_settings "The notice is valid."
      "No similar precedents found in the knowledge base." "professional".
Proof.
  exact (generate_stage_without_index Sample.runtime
           (Sample.constant_llm (Ok "The notice is valid.")) Sample2.failing_embedder
           MemoryCollection.collection default_settings Sample.store Sample.document
           "professional" "The notice is valid." (ServiceError "model unavailable")
           eq_refl eq_refl).
Defined.

(** The evaluation call times out. *)
Lemma evaluation_failure_absorbed_witness :
  exists r,
    @LegalAgentSystem.generate_legal_response Sample.runtime
      (Sample.two_reply_llm (Ok "We acknowledge receipt.")
         (Raise (ServiceError "timeout")))
      Sample.embedder _ MemoryCollection.collection
      default_settings Sample.store Sample.document "professional" = Ok r
    /\ LegalResponse.suggested_response r = "We acknowledge receipt."
    /\ LegalResponse.reasoning r = "Evaluation failed"
    /\ LegalResponse.tone r = "professional".
Proof.
  eexists. split.
  - exact (evaluation_failure_absorbed Sample.runtime
             (Sample.two_reply_llm (Ok "We acknowledge receipt.")
                (Raise (ServiceError "timeout")))
             Sample.embedder MemoryCollection.collection
             default_settings Sample.store Sample.document "professional"
             "We acknowledge receipt." (ServiceError "timeout") eq_refl eq_refl).
  - repeat split.
Defined.

(** The sample index holds two chunks of document d1. *)
Lemma generate_response_for_document_found_witness :
  exists r,
    @LegalAISystem.generate_response_for_document Sample.runtime
      (Sample.constant_llm (Ok "ok")) Sample.embedder _ MemoryCollection.collection
      default_settings Sample.store "d1" "formal" = Some r
    /\ LegalResponse.document_id r = "d1"
    /\ LegalResponse.response_type r = "formal".
Proof.
  destruct (generate_response_for_document_found Sample.runtime
              (Sample.constant_llm (Ok "ok")) Sample.embedder MemoryCollection.collection
              default_settings Sample.store "d1" "formal" _ _ "d1.pdf" LEGAL_LETTER [] []
              eq_refl eq_refl eq_refl eq_refl eq_refl) as (r & Hr & _ & Hid & Hty).
  exists r. split; [exact Hr|]. split; [exact Hid | exact Hty].
Defined.

(** The sample chunk objects were stored without a document type. *)
Lemma generate_response_for_document_untyped_witness :
  DocumentChunk.metadata (Sample2.chunk "c1" "d1" "notice of lease termination" 0 None)
    !! "document_type" = None
  /\ @LegalAISystem.generate_response_for_document Sample.runtime
       (Sample.constant_llm (Ok "ok")) Sample.embedder _ MemoryCollection.collection
       default_settings Sample2.filed "d1" "professional" = None.
Proof.
  split; [reflexivity|].
  exact (generate_response_for_document_untyped Sample.runtime
           (Sample.constant_llm (Ok "ok")) Sample.embedder MemoryCollection.collection
           default_settings Sample2.filed "d1" "professional" _ _
           (Sample2.chunk "c1" "d1" "notice of lease termination" 0 None)
           eq_refl eq_refl eq_refl).
Defined.

(** Processing the notice of the library. *)
Lemma process_pdf_consistent_witness :
  let result :=
    @PdfProcessor.process_pdf Sample.runtime Sample2.scripted_llm Sample2.exception_text
      Sample2.pdf_library default_settings 0 "uploads/notice.pdf" "notice.pdf" in
  ProcessingResult.success result = true
  /\ exists d,
       ProcessingResult.document result = Some d
       /\ LegalDocument.filename d = "notice.pdf"
       /\ LegalDocument.id d = "chunk-0"
       /\ List.Forall (fun ch => DocumentChunk.document_id ch = LegalDocument.id d)
            (ProcessingResult.chunks result).
Proof.
  cbv zeta. split; [reflexivity|].
  destruct (process_pdf_consistent Sample.runtime Sample2.scripted_llm
              Sample2.exception_text Sample2.pdf_library default_settings 0
              "uploads/notice.pdf" "notice.pdf" eq_refl)
    as (d & content & Hd & _ & _ & _ & Hname & Hid & _ & Hall).
  exists d. split; [exact Hd|]. split; [exact Hname|]. split; [exact Hid|].
  eapply List.Forall_impl; [|exact Hall]. intros ch H. exact (proj1 H).
Defined.

(** Processing the notice and storing it in the sample index. *)
Lemma stored_chunks_carry_embeddings_witness :
  let out :=
    @LegalAISystemFlows.process_and_store_pdf Sample.runtime Sample2.scripted_llm
      Sample.embedder Sample2.exception_text Sample2.pdf_library _
      MemoryCollection.collection default_settings 0 Sample.store
      "uploads/notice.pdf" None in
  ProcessingResult.success (fst out) = true
  /\ ProcessingResult.chunks (fst out) <> []
  /\ List.Forall
       (fun ch => exists v, @encode Sample.embedder (DocumentChunk.content ch) = Ok v
                            /\ DocumentChunk.embedding ch = Some v)
       (ProcessingResult.chunks (fst out)).
Proof.
  cbv zeta. split; [reflexivity|]. split; [discriminate|].
  exact (stored_chunks_carry_embeddings Sample.runtime Sample2.scripted_llm
           Sample.embedder Sample2.exception_text Sample2.pdf_library
           MemoryCollection.collection default_settings 0 Sample.store
           "uploads/notice.pdf" None eq_refl).
Defined.

(** The notice is stored in an empty index and then answered. *)
Lemma respond_after_ingest_witness :
  exists r,
    @LegalAISystem.generate_response_for_document Sample.runtime Sample2.scripted_llm
      Sample.embedder _ MemoryCollection.collection default_settings Sample2.ingested
      "chunk-0" "professional" = Some r
    /\ LegalResponse.suggested_response r = "We acknowledge your notice.".
Proof.
  edestruct respond_after_ingest
    with (RT := Sample.runtime) (LM := Sample2.scripted_llm) (EM := Sample.embedder)
         (XT := Sample2.exception_text) (PL := Sample2.pdf_library)
         (CO := MemoryCollection.collection) (settings := default_settings)
         (drawn := 0%nat) (pdf_path := "uploads/notice.pdf") (filename := "notice.pdf")
         (vector_store := Sample2.ingested) (document_id := "chunk-0")
         (response_type := "professional")
    as (r & Hr & Hgen).
  - reflexivity.
  - left. reflexivity.
  - reflexivity.
  - reflexivity.
  - exists r. split; [exact Hr|].
    vm_compute in Hgen. injection Hgen as <-. reflexivity.
Defined.

(** The rows of the two sample chunk objects, read back. *)
Lemma stored_rows_read_back_witness :
  List.map SearchResult.chunk_id
    (ChromaVectorStore.get_document_chunks Sample2.filed "d1") = ["c1"; "c2"]
  /\ List.map SearchResult.document_id
       (ChromaVectorStore.get_document_chunks Sample2.filed "d1") = ["d1"; "d1"].
Proof.
  rewrite (stored_rows_read_back MemoryCollection.collection Sample2.filed "d1"
             [Sample2.chunk "c1" "d1" "notice of lease termination" 0 None;
              Sample2.chunk "c2" "d1" "the lease ends in June" 1 None]
             eq_refl).
  - split; reflexivity.
  - repeat constructor.
Defined.

(** ** How much of a document the model is shown *)

Section truncation.
Context (RT : Runtime) (LM : LanguageModel) (settings : Settings).

Lemma take_app_long (n : nat) :
  forall s t : string, (n <= String.length s)%nat -> PyStr.take n (s ++ t) = PyStr.take n s.
Proof.
  induction n as [|n IH]; intros s t Hn.
  - reflexivity.
  - destruct s as [|c s]; [simpl in Hn; lia|].
    rewrite app_cons. cbn [PyStr.take]. f_equal. apply IH. simpl in Hn. lia.
Qed.

(** X26. The model is shown the beginning of a document only.  What
    follows the first 2000 characters changes neither the type nor the
    parties and issues found for it, and what follows the first 3000 does
    not change the analysis. *)
Theorem long_documents_truncated (content more : string) :
  (2000 <= String.length content)%nat ->
  DocumentProcessor.classify_document_type settings (content ++ more)
  = DocumentProcessor.classify_document_type settings content
  /\ DocumentProcessor.extract_parties_and_issues settings (content ++ more)
     = DocumentProcessor.extract_parties_and_issues settings content
  /\ ((3000 <= String.length content)%nat ->
      LegalAnalysisTool._run settings (content ++ more)
      = LegalAnalysisTool._run settings content).
Proof.
  intros Hlen.
  unfold DocumentProcessor.classify_document_type,
    DocumentProcessor.extract_parties_and_issues, LegalAnalysisTool._run.
  rewrite (take_app_long 2000 content more Hlen).
  split; [reflexivity|]. split; [reflexivity|].
  intros Hlen'. rewrite (take_app_long 3000 content more Hlen'). reflexivity.
Qed.

End truncation.

(** A text of 2000 letters, and the same text with a sentence after it. *)
Lemma long_documents_truncated_witness :
  (2000 <= String.length (repeat_str 2000 "a"))%nat
  /\ @DocumentProcessor.classify_document_type Sample2.scripted_llm default_settings
       (repeat_str 2000 "a" ++ " This is a contract.")
     = @DocumentProcessor.classify_document_type Sample2.scripted_llm default_settings
         (repeat_str 2000 "a").
Proof.
  assert (Hlen : (2000 <= String.length (repeat_str 2000 "a"))%nat).
  { apply Nat.leb_le. vm_compute. reflexivity. }
  split; [exact Hlen|].
  exact (proj1 (long_documents_truncated Sample2.scripted_llm default_settings
                  (repeat_str 2000 "a") " This is a contract." Hlen)).
Defined.

(** The notice is processed, and an index that refuses every write is asked
    to store it. *)
Lemma process_and_store_pdf_outcome_witness :
  let out :=
    @LegalAISystemFlows.process_and_store_pdf Sample.runtime Sample2.scripted_llm
      Sample.embedder Sample2.exception_text Sample2.pdf_library _
      Sample2.read_only default_settings 0 Sample.store "uploads/notice.pdf" None in
  ProcessingResult.success (fst out) = false
  /\ ProcessingResult.error_message (fst out)
     = Some "Failed to store document in vector database"
  /\ ProcessingResult.document (fst out) <> None
  /\ snd out = Sample.store.
Proof.
  cbv zeta.
  destruct (process_and_store_pdf_outcome Sample.runtime Sample2.scripted_llm
              Sample.embedder Sample2.exception_text Sample2.pdf_library
              Sample2.read_only default_settings 0 Sample.store
              "uploads/notice.pdf" None) as (_ & Hstore & _ & _ & _ & Hfail).
  cbv zeta in Hstore, Hfail.
  assert (Hs : ProcessingResult.success
                 (fst (@LegalAISystemFlows.process_and_store_pdf Sample.runtime
                         Sample2.scripted_llm Sample.embedder Sample2.exception_text
                         Sample2.pdf_library _ Sample2.read_only default_settings 0
                         Sample.store "uploads/notice.pdf" None)) = false).
  { rewrite (proj1 (proj2 (Hstore eq_refl ltac:(discriminate)))). reflexivity. }
  split; [exact Hs|].
  destruct (Hfail eq_refl Hs) as [Hmsg Hdoc].
  split; [exact Hmsg|]. split; [exact Hdoc|].
  rewrite (proj1 (Hstore eq_refl ltac:(discriminate))). reflexivity.
Defined.
